(** * Stargazer: regression tables in HTML and LaTeX

    A shallow embedding of [estimagic_stargazer/stargazer_function.py] and
    the properties of its table-assembly engine: significance stars, the
    union covariate index, the render options and the two serializers.

    Conventions of the embedding.
    - A Python float is a [float]: [None] is NaN, [Some q] a finite value,
      kept as the rational it denotes.  Only comparisons and [isnan] are
      ever performed on them here, and both are exact on floats.
    - A Python exception is a value of [exn]; code that may raise returns a
      [result].  Methods of the class thread the instance explicitly and
      return the instance as it is when the call ends, also when it ends by
      an exception (assignments made before a [raise] persist).
    - The library functions the class relies on ([sorted], [pandas.cut],
      [numpy.digitize]) are modelled by their documented behaviour; those
      whose results are only printed ([str] on floats and tuples,
      [numpy.round], [numpy.sqrt], the sum of floats) are parameters of the
      development ([PyRuntime]). *)

From Stdlib Require Import QArith Qcanon.
From stdpp Require Import gmap strings list sorting pretty.

Open Scope Z_scope.
Open Scope string_scope.

(** ** Exceptions and results *)

Inductive exn :=
| AssertionError (msg : string)
| TypeError (msg : string)
| ValueError (msg : string)
| IndexError (msg : string)
| KeyError (msg : string).

Inductive result (A : Type) :=
| Ok (a : A)
| Raise (e : exn).
Arguments Ok {A} a.
Arguments Raise {A} e.

#[global] Instance result_ret : MRet result := λ A a, Ok a.
#[global] Instance result_bind : MBind result := λ A B f m,
  match m with
  | Ok a => f a
  | Raise e => Raise e
  end.
#[global] Instance result_fmap : FMap result := λ A B f m,
  match m with
  | Ok a => Ok (f a)
  | Raise e => Raise e
  end.

(** [for x in l: ...] over a body that may raise, collecting the values. *)
Fixpoint for_each {A B} (body : A → result B) (l : list A) : result (list B) :=
  match l with
  | [] => Ok []
  | x :: l' => y ← body x; ys ← for_each body l'; Ok (y :: ys)
  end.

(** ** Numbers and strings *)

Definition float := option Qc.
Definition nan : float := None.

(** [np.isnan] *)
Definition isnan (x : float) : bool :=
  match x with
  | None => true
  | Some _ => false
  end.

(** A decimal literal [n / d]. *)
Definition dec (n : Z) (d : positive) : Qc := Q2Qc (n # d).

Fixpoint replicate_str (n : nat) (s : string) : string :=
  match n with
  | O => ""
  | S n' => s ++ replicate_str n' s
  end.

(** Python's [s * n] on a string: empty when [n <= 0]. *)
Definition str_mul (s : string) (n : Z) : string := replicate_str (Z.to_nat n) s.

(** [int(b)] on a boolean. *)
Definition int_of_bool (b : bool) : Z := if b then 1 else 0.

(** ** Covariate keys

    A covariate key is a string (flat index) or a tuple of strings
    (hierarchical index). *)

Inductive Key :=
| KStr (s : string)
| KTup (t : list string).

#[global] Instance Key_eq_dec : EqDecision Key.
Proof. solve_decision. Defined.

#[global] Instance Key_countable : Countable Key :=
  inj_countable'
    (λ k, match k with KStr s => inl s | KTup t => inr t end)
    (λ x, match x with inl s => KStr s | inr t => KTup t end)
    (λ k, match k with KStr _ => eq_refl | KTup _ => eq_refl end).

(** [isinstance(k, tuple)] *)
Definition is_tuple (k : Key) : bool :=
  match k with
  | KStr _ => false
  | KTup _ => true
  end.

(** Python's order on tuples: the first position where the two differ
    decides; a proper prefix is smaller. *)
Fixpoint tuple_leb (a b : list string) : bool :=
  match a, b with
  | [], _ => true
  | _ :: _, [] => false
  | x :: a', y :: b' => if decide (x = y) then tuple_leb a' b' else String.leb x y
  end.

(** The order [sorted] uses on keys of one kind.  Keys of different kinds
    are never compared by it ([py_sorted_keys] raises first); the order is
    made total by putting strings first. *)
Definition key_leb (a b : Key) : bool :=
  match a, b with
  | KStr x, KStr y => String.leb x y
  | KTup x, KTup y => tuple_leb x y
  | KStr _, KTup _ => true
  | KTup _, KStr _ => false
  end.

Definition key_le (a b : Key) : Prop := key_leb a b.
Definition key_lt (a b : Key) : Prop := key_le a b ∧ a ≠ b.

#[global] Instance key_le_dec : RelDecision key_le.
Proof. intros a b. unfold key_le. apply _. Defined.

Definition same_kind (l : list Key) : bool :=
  forallb is_tuple l || forallb (λ k, negb (is_tuple k)) l.

(** [sorted(l)] on keys: comparing a string with a tuple raises. *)
Definition py_sorted_keys (l : list Key) : result (list Key) :=
  if same_kind l then Ok (merge_sort key_le l)
  else Raise (TypeError "'<' not supported between instances of 'str' and 'tuple'").

(** [sorted(set(l))]: the set forgets order and repetitions. *)
Definition py_sorted_set (l : list Key) : result (list Key) :=
  py_sorted_keys (elements (list_to_set l : gset Key)).

(** A pandas Series indexed by covariate keys. *)
Definition Series (A : Type) := list (Key * A).

(** [series[key]]: the entry of the first row labelled [key]. *)
Fixpoint series_get {A} (s : Series A) (k : Key) : result A :=
  match s with
  | [] => Raise (KeyError "key")
  | (k', v) :: s' => if decide (k' = k) then Ok v else series_get s' k
  end.

(** ** Significance stars *)

(** [sorted(levels)] and [sorted(levels, reverse=True)] on floats. *)
Definition py_sorted_floats (l : list Qc) : list Qc := merge_sort Qcle l.
Definition py_sorted_floats_rev (l : list Qc) : list Qc := merge_sort (flip Qcle) l.

(** [sig_bins = [-1] + sorted(self.sig_levels) + [2]] *)
Definition sig_bins (sig_levels : list Qc) : list Qc :=
  [dec (-1) 1] ++ py_sorted_floats sig_levels ++ [dec 2 1].

(** ["*" * (len(self.sig_levels) - i) for i in range(len(self.sig_levels) + 1)] *)
Definition star_labels (sig_levels : list Qc) : list string :=
  (λ i : nat, str_mul "*" (Z.of_nat (length sig_levels) - Z.of_nat i))
    <$> seq 0 (length sig_levels + 1).

(** [np.diff(bins) < 0] nowhere. *)
Fixpoint nondecreasing (l : list Qc) : bool :=
  match l with
  | [] => true
  | x :: l' =>
      match l' with
      | [] => true
      | y :: _ => bool_decide (x ≤ y)%Qc && nondecreasing l'
      end
  end.

Fixpoint nonincreasing (l : list Qc) : bool :=
  match l with
  | [] => true
  | x :: l' =>
      match l' with
      | [] => true
      | y :: _ => bool_decide (y ≤ x)%Qc && nonincreasing l'
      end
  end.

(** [bins.searchsorted(x, side="left")] on increasing edges: the number of
    leading edges strictly below [x]. *)
Fixpoint searchsorted_left (bins : list Qc) (x : Qc) : nat :=
  match bins with
  | [] => O
  | b :: bins' => if bool_decide (b < x)%Qc then S (searchsorted_left bins' x) else O
  end.

(** [bins.searchsorted(x, side="right")]: the number of leading edges not
    above [x]. *)
Fixpoint searchsorted_right (bins : list Qc) (x : Qc) : nat :=
  match bins with
  | [] => O
  | b :: bins' => if bool_decide (b ≤ x)%Qc then S (searchsorted_right bins' x) else O
  end.

(** One value through [pd.cut(..., right=True)]: the label of the interval
    [(bins[i], bins[i+1]]] that holds it, NaN ([None]) outside of all. *)
Definition pd_cut_one (bins : list Qc) (labels : list string) (x : float) : option string :=
  match x with
  | None => None
  | Some v =>
      let ids := searchsorted_left bins v in
      if bool_decide (ids = O) || bool_decide (ids = length bins) then None
      else labels !! (ids - 1)%nat
  end.

(** [pd.cut(series, bins=bins, labels=labels)] with a list of edges: the
    edges must increase and be unique, and there is one label per
    interval. *)
Definition pd_cut (xs : Series float) (bins : list Qc) (labels : list string)
  : result (Series (option string)) :=
  if negb (nondecreasing bins) then
    Raise (ValueError "bins must increase monotonically.")
  else if negb (bool_decide (NoDup bins)) && negb (bool_decide (length bins = 2%nat)) then
    Raise (ValueError "Bin edges must be unique")
  else if negb (bool_decide (length labels = (length bins - 1)%nat)) then
    Raise (ValueError "Bin labels must be one fewer than the number of bin edges")
  else Ok ((λ kx : Key * float, (kx.1, pd_cut_one bins labels kx.2)) <$> xs).

(** [np.digitize(x, bins)] (right=False) on a scalar. *)
Definition np_digitize (x : float) (bins : list Qc) : result Z :=
  if nondecreasing bins then
    Ok (match x with
        | None => Z.of_nat (length bins)
        | Some v => Z.of_nat (searchsorted_right bins v)
        end)
  else if nonincreasing bins then
    Ok (match x with
        | None => 0
        | Some v => Z.of_nat (length bins) - Z.of_nat (searchsorted_right (reverse bins) v)
        end)
  else Raise (ValueError "bins must be monotonically increasing or decreasing").

(** The per-coefficient stars of [extract_model_data] and of
    [significance_levels]. *)
Definition compute_sig_icons (sig_levels : list Qc) (p_values : Series float)
  : result (Series (option string)) :=
  pd_cut p_values (sig_bins sig_levels) (star_labels sig_levels).

(** The stars of the F statistic:
    ["*" * (1 - np.isnan(f_p_value))
         * (len(self.sig_levels) - np.digitize(f_p_value, sig_bins) + 1)] *)
Definition compute_sig_icon_fstat (sig_levels : list Qc) (f_p_value : float)
  : result string :=
  d ← np_digitize f_p_value (sig_bins sig_levels);
  Ok (str_mul (str_mul "*" (1 - int_of_bool (isnan f_p_value)))
              (Z.of_nat (length sig_levels) - d + 1)).

(** ** The Python runtime

    The built-in and numpy functions whose results are only ever printed. *)

Class PyRuntime := {
  (** [str(x)] on a float *)
  str_float : float → string;
  (** [str(t)] on a tuple of strings *)
  str_tuple : list string → string;
  (** [np.round(x, digits)] *)
  np_round : float → Z → float;
  (** [np.sqrt(x)] *)
  np_sqrt : float → float;
  (** [x + y] on floats *)
  float_add : float → float → float
}.

(** [str(n)] on an int. *)
Definition str_int (n : Z) : string := pretty n.

(** [str(k)] on a covariate key. *)
Definition str_key `{PyRuntime} (k : Key) : string :=
  match k with
  | KStr s => s
  | KTup t => str_tuple t
  end.

(** A scalar argument handed to a setter. *)
Inductive pyval :=
| PNone
| PBool (b : bool)
| PInt (n : Z)
| PFloat (x : Qc)
| PStr (s : string)
| PDict (d : gmap string string).

Definition type_is_bool (v : pyval) : bool := match v with PBool _ => true | _ => false end.
Definition type_is_int (v : pyval) : bool := match v with PInt _ => true | _ => false end.
Definition type_is_float (v : pyval) : bool := match v with PFloat _ => true | _ => false end.
Definition type_is_str (v : pyval) : bool := match v with PStr _ => true | _ => false end.
Definition isinstance_dict (v : pyval) : bool := match v with PDict _ => true | _ => false end.

(** The [labels] argument of [custom_columns]: a string, a list of labels,
    or anything else. *)
Inductive labels_arg :=
| LabelStr (s : string)
| LabelList (l : list string)
| LabelOther (v : pyval).

(** The [separators] argument of [custom_columns]: [None] (the default), a
    list, or anything else. *)
Inductive separators_arg :=
| SepNone
| SepList (l : list pyval)
| SepOther (v : pyval).

(** ** Models *)

(** A row of the [params] table. *)
Module coef.
Record t := {
  value : float;
  pvalue : float;
  standard_error : float;
  ci_lower : float;
  ci_upper : float
}.
End coef.

(** The [params] DataFrame: its index (with its number of levels) and one
    row per covariate. *)
Record Params := {
  index_nlevels : nat;
  rows : Series coef.t
}.

(** The [info] dict: named summary scalars and the name of the dependent
    variable. *)
Record Info := {
  scalars : gmap string float;
  dependent_variable : option string
}.

(** A fitted statsmodels result: [params], [pvalues], [bse] and the two
    columns of [conf_int()] share one index, so that [pd.concat(axis=1)]
    puts them side by side row by row. *)
Record SmResults := {
  sm_nlevels : nat;
  sm_table : Series coef.t;
  rsquared : float;
  rsquared_adj : float;
  scale : float;
  fvalue : float;
  f_pvalue : float;
  df_model : float;
  df_resid : float;
  endog_names : string
}.

(** What may be handed to the constructor as a model. *)
Inductive Model :=
| NamedTup (params : Params) (info : Info)
    (** an object with attributes [params] and [info] *)
| DictModel (params : option Params) (info : option Info)
    (** a dict, with or without the keys ["params"] and ["info"] *)
| StatsModel (sm : SmResults)
    (** a statsmodels results object *)
| OtherObject.
    (** anything else *)

(** The constructor's argument: [isinstance(models, list)] or not. *)
Inductive models_arg :=
| OneModel (m : Model)
| ModelList (l : list Model).

Definition extract_params_from_sm (model : SmResults) : Params :=
  {| index_nlevels := sm_nlevels model; rows := sm_table model |}.

Definition extract_info_from_sm (model : SmResults) : Info :=
  {| scalars :=
       <["df_resid" := df_resid model]>
       (<["df_model" := df_model model]>
       (<["f_pvalue" := f_pvalue model]>
       (<["fvalue" := fvalue model]>
       (<["scale" := scale model]>
       (<["rsquared_adj" := rsquared_adj model]>
       (<["rsquared" := rsquared model]> ∅))))));
     dependent_variable := Some (endog_names model) |}.

(** The per-model dict built by [extract_model_data]. *)
Module md.
Record t := {
  param_names : list Key;
  param_values : Series float;
  p_values : Series float;
  param_std_err : Series float;
  ci_lower : Series float;
  ci_upper : Series float;
  r2 : float;
  r2_adj : float;
  resid_std_err : float;
  f_statistic : float;
  f_p_value : float;
  degree_freedom : float;
  degree_freedom_resid : float;
  n_obs : float;
  dependent_variable : option string;
  sig_icons : Series (option string);
  sig_icon_fstat : string
}.

(** [md["sig_icons"] = v] *)
Definition set_sig_icons (v : Series (option string)) (d : t) : t :=
  {| param_names := param_names d;
     param_values := param_values d;
     p_values := p_values d;
     param_std_err := param_std_err d;
     ci_lower := ci_lower d;
     ci_upper := ci_upper d;
     r2 := r2 d;
     r2_adj := r2_adj d;
     resid_std_err := resid_std_err d;
     f_statistic := f_statistic d;
     f_p_value := f_p_value d;
     degree_freedom := degree_freedom d;
     degree_freedom_resid := degree_freedom_resid d;
     n_obs := n_obs d;
     dependent_variable := dependent_variable d;
     sig_icons := v;
     sig_icon_fstat := sig_icon_fstat d |}.

(** [md["sig_icon_fstat"] = v] *)
Definition set_sig_icon_fstat (v : string) (d : t) : t :=
  {| param_names := param_names d;
     param_values := param_values d;
     p_values := p_values d;
     param_std_err := param_std_err d;
     ci_lower := ci_lower d;
     ci_upper := ci_upper d;
     r2 := r2 d;
     r2_adj := r2_adj d;
     resid_std_err := resid_std_err d;
     f_statistic := f_statistic d;
     f_p_value := f_p_value d;
     degree_freedom := degree_freedom d;
     degree_freedom_resid := degree_freedom_resid d;
     n_obs := n_obs d;
     dependent_variable := dependent_variable d;
     sig_icons := sig_icons d;
     sig_icon_fstat := v |}.
End md.

(** The column labels stored by [custom_columns]. *)
Inductive col_labels :=
| OneLabel (s : string)
| ManyLabels (l : list string).

(** [self.first_table_col]: the DataFrame of collapsed index levels, one
    row per covariate. *)
Record FirstCol := {
  columns : nat;
  loc : Series (list string)
}.

(** ** The instance

    The attributes of a [Stargazer] object.  [header] is the one attribute
    that [__init__] does not bind: it is [None] until something assigns
    it. *)
Module attr.
Record t := {
  models : list Model;
  num_models : nat;
  title_text : option string;
  show_header : bool;
  model_name : option string;
  column_labels : option col_labels;
  column_separators : option (list Z);
  show_model_nums : bool;
  original_param_names : option (list Key);
  param_nicer_names : option (gmap string string);
  show_precision : bool;
  show_sig : bool;
  sig_levels : list Qc;
  sig_digits : Z;
  confidence_intervals : bool;
  show_footer : bool;
  custom_footer_text : list string;
  show_n : bool;
  show_r2 : bool;
  show_adj_r2 : bool;
  show_residual_std_err : bool;
  show_f_statistic : bool;
  show_dof : bool;
  show_notes : bool;
  notes_label : string;
  notes_append : bool;
  custom_notes : list string;
  model_data : list md.t;
  param_names : list Key;
  first_table_col : FirstCol;
  header : option bool
}.

(** An attribute together with the value assigned to it. *)
Inductive binding :=
| F_models (v : list Model)
| F_num_models (v : nat)
| F_title_text (v : option string)
| F_show_header (v : bool)
| F_model_name (v : option string)
| F_column_labels (v : option col_labels)
| F_column_separators (v : option (list Z))
| F_show_model_nums (v : bool)
| F_original_param_names (v : option (list Key))
| F_param_nicer_names (v : option (gmap string string))
| F_show_precision (v : bool)
| F_show_sig (v : bool)
| F_sig_levels (v : list Qc)
| F_sig_digits (v : Z)
| F_confidence_intervals (v : bool)
| F_show_footer (v : bool)
| F_custom_footer_text (v : list string)
| F_show_n (v : bool)
| F_show_r2 (v : bool)
| F_show_adj_r2 (v : bool)
| F_show_residual_std_err (v : bool)
| F_show_f_statistic (v : bool)
| F_show_dof (v : bool)
| F_show_notes (v : bool)
| F_notes_label (v : string)
| F_notes_append (v : bool)
| F_custom_notes (v : list string)
| F_model_data (v : list md.t)
| F_param_names (v : list Key)
| F_first_table_col (v : FirstCol)
| F_header (v : option bool).

(** [self.f = v] *)
Definition assign (b : binding) (self : t) : t :=
  {| models := match b with F_models v => v | _ => models self end;
     num_models := match b with F_num_models v => v | _ => num_models self end;
     title_text := match b with F_title_text v => v | _ => title_text self end;
     show_header := match b with F_show_header v => v | _ => show_header self end;
     model_name := match b with F_model_name v => v | _ => model_name self end;
     column_labels := match b with F_column_labels v => v | _ => column_labels self end;
     column_separators := match b with F_column_separators v => v | _ => column_separators self end;
     show_model_nums := match b with F_show_model_nums v => v | _ => show_model_nums self end;
     original_param_names := match b with F_original_param_names v => v | _ => original_param_names self end;
     param_nicer_names := match b with F_param_nicer_names v => v | _ => param_nicer_names self end;
     show_precision := match b with F_show_precision v => v | _ => show_precision self end;
     show_sig := match b with F_show_sig v => v | _ => show_sig self end;
     sig_levels := match b with F_sig_levels v => v | _ => sig_levels self end;
     sig_digits := match b with F_sig_digits v => v | _ => sig_digits self end;
     confidence_intervals := match b with F_confidence_intervals v => v | _ => confidence_intervals self end;
     show_footer := match b with F_show_footer v => v | _ => show_footer self end;
     custom_footer_text := match b with F_custom_footer_text v => v | _ => custom_footer_text self end;
     show_n := match b with F_show_n v => v | _ => show_n self end;
     show_r2 := match b with F_show_r2 v => v | _ => show_r2 self end;
     show_adj_r2 := match b with F_show_adj_r2 v => v | _ => show_adj_r2 self end;
     show_residual_std_err := match b with F_show_residual_std_err v => v | _ => show_residual_std_err self end;
     show_f_statistic := match b with F_show_f_statistic v => v | _ => show_f_statistic self end;
     show_dof := match b with F_show_dof v => v | _ => show_dof self end;
     show_notes := match b with F_show_notes v => v | _ => show_notes self end;
     notes_label := match b with F_notes_label v => v | _ => notes_label self end;
     notes_append := match b with F_notes_append v => v | _ => notes_append self end;
     custom_notes := match b with F_custom_notes v => v | _ => custom_notes self end;
     model_data := match b with F_model_data v => v | _ => model_data self end;
     param_names := match b with F_param_names v => v | _ => param_names self end;
     first_table_col := match b with F_first_table_col v => v | _ => first_table_col self end;
     header := match b with F_header v => v | _ => header self end |}.
End attr.

Abbreviation Stargazer := attr.t.

(** ** Methods

    A method receives the instance, may assign attributes, and returns or
    raises; the instance comes back in both cases. *)

Definition method (A : Type) : Type := Stargazer → result A * Stargazer.

#[global] Instance method_ret : MRet method := λ A a self, (Ok a, self).
#[global] Instance method_bind : MBind method := λ A B f m self,
  match m self with
  | (Ok a, self') => f a self'
  | (Raise e, self') => (Raise e, self')
  end.

Definition raise {A} (e : exn) : method A := λ self, (Raise e, self).

(** [assert cond, msg] *)
Definition assert (cond : bool) (msg : string) : method unit :=
  if cond then mret () else raise (AssertionError msg).

(** [self.f = v] *)
Definition setattr (b : attr.binding) : method unit := λ self, (Ok (), attr.assign b self).

(** [self.f] *)
Definition getattr {A} (f : Stargazer → A) : method A := λ self, (Ok (f self), self).

(** A computation that does not touch the instance. *)
Definition lift {A} (r : result A) : method A := λ self, (r, self).

(** [for i, x in enumerate(l): body], counting from [i]. *)
Fixpoint for_enumerate {A} (body : nat → A → method unit) (i : nat) (l : list A)
  : method unit :=
  match l with
  | [] => mret ()
  | x :: l' => body i x;; for_enumerate body (S i) l'
  end.

(** *** Construction *)

(** One step of [validate_input]: the namedtuple a model is replaced by. *)
Definition validate_model (model : Model) : result Model :=
  match model with
  | NamedTup params info => Ok (NamedTup params info)
  | DictModel params info =>
      match params, info with
      | Some p, Some i => Ok (NamedTup p i)
      | None, _ => Raise (KeyError "params")
      | Some _, None => Raise (KeyError "info")
      end
  | StatsModel sm => Ok (NamedTup (extract_params_from_sm sm) (extract_info_from_sm sm))
  | OtherObject => Raise (TypeError "Model does not have valid format")
  end.

(** The body of the loop of [validate_input]: [self.models[i] = ...]. *)
Definition validate_at (i : nat) (model : Model) : method unit :=
  tup ← lift (validate_model model);
  models ← getattr attr.models;
  setattr (attr.F_models (<[i := tup]> models)).

Definition validate_input : method unit :=
  models ← getattr attr.models;
  for_enumerate validate_at O models.

Definition reset_params : method unit :=
  setattr (attr.F_title_text None);;
  setattr (attr.F_show_header true);;
  setattr (attr.F_model_name None);;
  setattr (attr.F_column_labels None);;
  setattr (attr.F_column_separators None);;
  setattr (attr.F_show_model_nums true);;
  setattr (attr.F_original_param_names None);;
  setattr (attr.F_param_nicer_names None);;
  setattr (attr.F_show_precision true);;
  setattr (attr.F_show_sig true);;
  setattr (attr.F_sig_levels [dec 1 10; dec 5 100; dec 3 100; dec 1 100]);;
  setattr (attr.F_sig_digits 3);;
  setattr (attr.F_confidence_intervals false);;
  setattr (attr.F_show_footer true);;
  setattr (attr.F_custom_footer_text []);;
  setattr (attr.F_show_n true);;
  setattr (attr.F_show_r2 true);;
  setattr (attr.F_show_adj_r2 true);;
  setattr (attr.F_show_residual_std_err false);;
  setattr (attr.F_show_f_statistic true);;
  setattr (attr.F_show_dof false);;
  setattr (attr.F_show_notes true);;
  setattr (attr.F_notes_label "Note:");;
  setattr (attr.F_notes_append true);;
  setattr (attr.F_custom_notes []).

(** The entries of the model's dict that are read off the model alone; the
    stars are filled in by [extract_model_data]. *)
Definition model_data_of `{PyRuntime} (params : Params) (info : Info) : md.t :=
  let get (key : string) : float := default nan (scalars info !! key) in
  let column (f : coef.t → float) : Series float :=
    (λ kr : Key * coef.t, (kr.1, f kr.2)) <$> rows params in
  let degree_freedom := get "df_model" in
  let degree_freedom_resid := get "df_resid" in
  {| md.param_names := fst <$> rows params;
     md.param_values := column coef.value;
     md.p_values := column coef.pvalue;
     md.param_std_err := column coef.standard_error;
     md.ci_lower := column coef.ci_lower;
     md.ci_upper := column coef.ci_upper;
     md.r2 := get "rsquared";
     md.r2_adj := get "rsquared_adj";
     md.resid_std_err := np_sqrt (get "scale");
     md.f_statistic := get "fvalue";
     md.f_p_value := get "f_pvalue";
     md.degree_freedom := degree_freedom;
     md.degree_freedom_resid := degree_freedom_resid;
     md.n_obs :=
       default (float_add (float_add degree_freedom degree_freedom_resid) (Some (dec 1 1)))
               (scalars info !! "n_obs");
     md.dependent_variable := dependent_variable info;
     md.sig_icons := [];
     md.sig_icon_fstat := "" |}.

Definition extract_model_data `{PyRuntime} (model : Model) : method md.t :=
  match model with
  | NamedTup params info =>
      let data := model_data_of params info in
      sig_levels ← getattr attr.sig_levels;
      icons ← lift (compute_sig_icons sig_levels (md.p_values data));
      let data := md.set_sig_icons icons data in
      fstat ← lift (compute_sig_icon_fstat sig_levels (md.f_p_value data));
      mret (md.set_sig_icon_fstat fstat data)
  | _ => raise (TypeError "object has no attribute 'params'")
  end.

(** The body of the first loop of [extract_data]:
    [self.model_data.append(self.extract_model_data(m))]. *)
Definition append_model_data `{PyRuntime} (m : Model) : method unit :=
  data ← extract_model_data m;
  model_data ← getattr attr.model_data;
  setattr (attr.F_model_data (model_data ++ [data])).

(** [p[i]] on a key: a tuple gives its [i]-th component, a string its
    [i]-th character. *)
Definition key_index (p : Key) (i : nat) : result Key :=
  match p with
  | KTup t =>
      match t !! i with
      | Some s => Ok (KStr s)
      | None => Raise (IndexError "tuple index out of range")
      end
  | KStr s =>
      match String.get i s with
      | Some c => Ok (KStr (String c EmptyString))
      | None => Raise (IndexError "string index out of range")
      end
  end.

(** One list of [metalist]: the [i]-th index level of every covariate. *)
Definition metalist_level (pars0 : Key) (param_names : list Key) (i : nat)
  : result (list Key) :=
  for_each (λ p, if is_tuple pars0 then key_index p i else Ok p) param_names.

(** One list of [ulist]: a value that repeats the one above it becomes the
    empty string. *)
Fixpoint collapse_after `{PyRuntime} (above : Key) (l : list Key) : list string :=
  match l with
  | [] => []
  | n :: l' => (if decide (n = above) then "" else str_key n) :: collapse_after n l'
  end.

Definition collapse `{PyRuntime} (l : list Key) : list string :=
  match l with
  | [] => []
  | n :: l' => str_key n :: collapse_after n l'
  end.

(** [pd.DataFrame(ulist).transpose()] with [index] as its index: row [j]
    holds the [j]-th entry of every list. *)
Definition transpose_indexed (ulist : list (list string)) (index : list Key)
  : Series (list string) :=
  imap (λ j p, (p, omap (λ l : list string, l !! j) ulist)) index.

Definition extract_data `{PyRuntime} : method unit :=
  validate_input;;
  setattr (attr.F_model_data []);;
  models ← getattr attr.models;
  for_enumerate (λ _, append_model_data) O models;;
  model_data ← getattr attr.model_data;
  let pars := mjoin (md.param_names <$> model_data) in
  param_names ← lift (py_sorted_set pars);
  setattr (attr.F_param_names param_names);;
  models ← getattr attr.models;
  match models with
  | NamedTup params0 _ :: _ =>
      let nlevels := index_nlevels params0 in
      match pars with
      | [] => raise (IndexError "list index out of range")
      | pars0 :: _ =>
          metalist ← lift (for_each (metalist_level pars0 param_names) (seq 0 nlevels));
          let ulist := collapse <$> metalist in
          if bool_decide (nlevels = O) then
            raise (ValueError "Length mismatch")
          else
            setattr (attr.F_first_table_col
                       {| columns := nlevels; loc := transpose_indexed ulist param_names |})
      end
  | _ :: _ => raise (TypeError "object has no attribute 'params'")
  | [] => raise (IndexError "list index out of range")
  end.

(** The object before [__init__] has bound anything. *)
Definition unbound : Stargazer :=
  {| attr.models := [];
     attr.num_models := O;
     attr.title_text := None;
     attr.show_header := false;
     attr.model_name := None;
     attr.column_labels := None;
     attr.column_separators := None;
     attr.show_model_nums := false;
     attr.original_param_names := None;
     attr.param_nicer_names := None;
     attr.show_precision := false;
     attr.show_sig := false;
     attr.sig_levels := [];
     attr.sig_digits := 0;
     attr.confidence_intervals := false;
     attr.show_footer := false;
     attr.custom_footer_text := [];
     attr.show_n := false;
     attr.show_r2 := false;
     attr.show_adj_r2 := false;
     attr.show_residual_std_err := false;
     attr.show_f_statistic := false;
     attr.show_dof := false;
     attr.show_notes := false;
     attr.notes_label := "";
     attr.notes_append := false;
     attr.custom_notes := [];
     attr.model_data := [];
     attr.param_names := [];
     attr.first_table_col := {| columns := O; loc := [] |};
     attr.header := None |}.

(** [Stargazer.__init__(self, models)] *)
Definition __init__ `{PyRuntime} (models : models_arg) : method unit :=
  match models with
  | ModelList l => setattr (attr.F_models l)
  | OneModel m => setattr (attr.F_models [m])
  end;;
  models ← getattr attr.models;
  setattr (attr.F_num_models (length models));;
  reset_params;;
  extract_data.

(** [Stargazer(models)]: the new instance, or the exception of
    [__init__]. *)
Definition new `{PyRuntime} (models : models_arg) : result Stargazer :=
  match __init__ models unbound with
  | (Ok _, self) => Ok self
  | (Raise e, _) => Raise e
  end.

(** *** Render options *)

Definition title (title : string) : method unit :=
  setattr (attr.F_title_text (Some title)).

Definition show_header (show : pyval) : method unit :=
  match show with
  | PBool b => setattr (attr.F_header (Some b))
  | _ => raise (AssertionError "Please input True/False")
  end.

Definition show_model_numbers (show : pyval) : method unit :=
  match show with
  | PBool b => setattr (attr.F_show_model_nums b)
  | _ => raise (AssertionError "Please input True/False")
  end.

(** The ints of a list of values; all of it once each [type(s) == int]. *)
Definition ints_of (l : list pyval) : list Z :=
  omap (λ v, match v with PInt n => Some n | _ => None end) l.

(** [sum([int(not check(x)) for x in l])] *)
Definition count_failing (check : pyval → bool) (l : list pyval) : Z :=
  foldr Z.add 0 ((λ v, int_of_bool (negb (check v))) <$> l).

(** [sum(l)] on ints *)
Definition sum_ints (l : list Z) : Z := foldr Z.add 0 l.

Definition custom_columns (labels : labels_arg) (separators : separators_arg)
  : method unit :=
  match separators with
  | SepNone =>
      match labels with
      | LabelStr s =>
          setattr (attr.F_column_labels (Some (OneLabel s)));;
          setattr (attr.F_column_separators None)
      | _ => raise (AssertionError "Please input a single string label if no columns specified")
      end
  | _ =>
      match labels, separators with
      | LabelList l, SepList seps =>
          assert (bool_decide (length l = length seps))
                 "Number of labels must match number of columns";;
          assert (bool_decide (count_failing type_is_int seps = 0))
                 "Columns must be ints";;
          num_models ← getattr attr.num_models;
          assert (bool_decide (sum_ints (ints_of seps) = Z.of_nat num_models))
                 "Please set number of columns to number of models";;
          setattr (attr.F_column_labels (Some (ManyLabels l)));;
          setattr (attr.F_column_separators (Some (ints_of seps)))
      | LabelList _, _ => raise (AssertionError "Please input a list of column separators")
      | _, _ => raise (AssertionError "Please input a list of labels or a single label string")
      end
  end.

(** The floats of a list of values; all of it once each
    [type(l) == float]. *)
Definition floats_of (l : list pyval) : list Qc :=
  omap (λ v, match v with PFloat x => Some x | _ => None end) l.

(** [md = self.model_data[i]; md[...] = ...]: the dict is changed in
    place. *)
Definition update_model_data (i : nat) (f : md.t → md.t) : method unit :=
  model_data ← getattr attr.model_data;
  setattr (attr.F_model_data (alter f i model_data)).

(** The body of the loop of [significance_levels], on the [i]-th model. *)
Definition restar_at (i : nat) (data : md.t) : method unit :=
  sig_levels ← getattr attr.sig_levels;
  icons ← lift (compute_sig_icons sig_levels (md.p_values data));
  update_model_data i (md.set_sig_icons icons);;
  fstat ← lift (compute_sig_icon_fstat sig_levels (md.f_p_value data));
  update_model_data i (md.set_sig_icon_fstat fstat).

Definition significance_levels (levels : list pyval) : method unit :=
  assert (bool_decide (count_failing type_is_float levels = 0))
         "Please input floating point values as significance levels";;
  setattr (attr.F_sig_levels (py_sorted_floats_rev (floats_of levels)));;
  model_data ← getattr attr.model_data;
  for_enumerate restar_at O model_data.

Definition significant_digits (digits : pyval) : method unit :=
  match digits with
  | PInt n =>
      assert (bool_decide (n < 10)) "Whoa hold on there bud, maybe use fewer digits";;
      setattr (attr.F_sig_digits n)
  | _ => raise (AssertionError "The number of significant digits must be an int")
  end.

Definition show_confidence_intervals (show : pyval) : method unit :=
  match show with
  | PBool b => setattr (attr.F_confidence_intervals b)
  | _ => raise (AssertionError "Please input True/False")
  end.

Definition model_name (name : pyval) : method unit :=
  match name with
  | PStr s => setattr (attr.F_model_name (Some s))
  | _ => raise (AssertionError "Please input a string to use as the model name")
  end.

Definition covariate_order (param_names : list Key) : method unit :=
  current ← getattr attr.param_names;
  let missing : gset Key := list_to_set param_names ∖ list_to_set current in
  assert (bool_decide (missing = ∅))
         "Parameter order must contain subset of existing parameters";;
  setattr (attr.F_original_param_names (Some current));;
  setattr (attr.F_param_names param_names).

Definition rename_covariates (param_nicer_names : pyval) : method unit :=
  match param_nicer_names with
  | PDict d => setattr (attr.F_param_nicer_names (Some d))
  | _ => raise (AssertionError "Please input a dictionary with parameter names as keys")
  end.

Definition reset_covariate_order : method unit :=
  original ← getattr attr.original_param_names;
  match original with
  | Some names => setattr (attr.F_param_names names)
  | None => mret ()
  end.

Definition show_degrees_of_freedom (show : pyval) : method unit :=
  match show with
  | PBool b => setattr (attr.F_show_dof b)
  | _ => raise (AssertionError "Please input True/False")
  end.

Definition custom_note_label (notes_label : pyval) : method unit :=
  match notes_label with
  | PStr s => setattr (attr.F_notes_label s)
  | _ => raise (AssertionError "Please input a string to use as the note label")
  end.

(** The strings of a list of values; all of it once each
    [type(n) == str]. *)
Definition strs_of (l : list pyval) : list string :=
  omap (λ v, match v with PStr s => Some s | _ => None end) l.

Definition add_custom_notes (notes : list pyval) : method unit :=
  assert (bool_decide (count_failing type_is_str notes = 0)) "Notes must be strings";;
  setattr (attr.F_custom_notes (strs_of notes)).

Definition append_notes (append : pyval) : method unit :=
  match append with
  | PBool b => setattr (attr.F_notes_append b)
  | _ => raise (AssertionError "Please input True/False")
  end.

(** *** Calling a method on an instance

    [self.name(arg)] looks [name] up on the instance first: an attribute
    bound by [__init__] hides the method of the same name of the class,
    and calling the attribute's value (a bool, [None], a list, ...)
    raises. *)

(** The names [__init__] binds on the instance. *)
Definition instance_dict : list string :=
  [ "models"; "num_models"; "title_text"; "show_header"; "model_name";
    "column_labels"; "column_separators"; "show_model_nums";
    "original_param_names"; "param_nicer_names"; "show_precision"; "show_sig";
    "sig_levels"; "sig_digits"; "confidence_intervals"; "show_footer";
    "custom_footer_text"; "show_n"; "show_r2"; "show_adj_r2";
    "show_residual_std_err"; "show_f_statistic"; "show_dof"; "show_notes";
    "notes_label"; "notes_append"; "custom_notes"; "model_data"; "param_names";
    "first_table_col" ].

Definition call {A B} (name : string) (meth : A → method B) (arg : A) : method B :=
  if bool_decide (name ∈ instance_dict) then raise (TypeError "object is not callable")
  else meth arg.

(** ** Rendering *)

(** The double quote and the newline, as one-character strings. *)
Definition dq : string := String (Ascii.ascii_of_nat 34) EmptyString.
Definition nl : string := String (Ascii.ascii_of_nat 10) EmptyString.

(** The backslash. *)
Definition bs : string := String (Ascii.ascii_of_nat 92) EmptyString.

(** [for x in l: text += body(x)] *)
Definition for_str {A} (l : list A) (body : A → string) : string :=
  String.concat "" (body <$> l).

(** The same loop over a body that may raise. *)
Definition for_str_r {A} (l : list A) (body : A → result string) : result string :=
  parts ← for_each body l; Ok (String.concat "" parts).

(** [for i, x in enumerate(l): text += body(i, x)] over a body that may
    raise. *)
Definition for_str_enum {A} (l : list A) (body : nat → A → result string)
  : result string :=
  parts ← for_each (λ ix : nat * A, body ix.1 ix.2) (imap pair l); Ok (String.concat "" parts).

(** [min(a, b)] on two booleans. *)
Definition min_bool (a b : bool) : bool :=
  if bool_decide (int_of_bool b < int_of_bool a) then b else a.

(** [len(self.first_table_col.columns)] *)
Definition ncols (self : Stargazer) : Z := Z.of_nat (columns (attr.first_table_col self)).

(** [self.num_models] as an int *)
Definition nmodels (self : Stargazer) : Z := Z.of_nat (attr.num_models self).

(** [param_name in list(md["param_names"])] *)
Definition has_param (data : md.t) (param_name : Key) : bool :=
  bool_decide (param_name ∈ md.param_names data).

(** [str(x)] on a star label, NaN included. *)
Definition str_icon (icon : option string) : string := default "nan" icon.

(** The display name of a covariate: its last component, renamed if
    [param_nicer_names] says so. *)
Definition param_print_name (self : Stargazer) (param_name : Key) : result string :=
  raw ← match param_name with
        | KStr s => Ok s
        | KTup t =>
            match last t with
            | Some s => Ok s
            | None => Raise (IndexError "tuple index out of range")
            end
        end;
  match attr.param_nicer_names self with
  | Some nicer => Ok (default raw (nicer !! raw))
  | None => Ok raw
  end.

(** [self.first_table_col.loc[param_name][i]] *)
Definition first_table_cell (self : Stargazer) (param_name : Key) (i : nat) : result string :=
  row ← series_get (loc (attr.first_table_col self)) param_name;
  match row !! i with
  | Some cell => Ok cell
  | None => Raise (IndexError "index out of bounds")
  end.

(** [len(param_name) - 1] for a tuple *)
Definition pred_len (t : list string) : nat := (length t - 1)%nat.

(** The empty cell that spans the extra index columns:
    [<td colspan=(ncols - 1)>inner</td>]. *)
Definition span_first_cols (self : Stargazer) (inner : string) : string :=
  "<td colspan=" ++ dq ++ str_int (ncols self - 1) ++ dq ++ ">" ++ inner ++ "</td>".

(** *** HTML *)

Definition generate_header_html (self : Stargazer) : result string :=
  if negb (attr.show_header self) then Ok ""
  else
    let header := "" in
    let header :=
      match attr.title_text self with
      | Some t => header ++ t ++ "<br>"
      | None => header
      end in
    let header := header ++ "<table style=" ++ dq ++ "text-align:center" ++ dq
                         ++ "><tr><td colspan=" ++ dq in
    let header := header ++ str_int (nmodels self + ncols self) ++ dq
                         ++ " style=" ++ dq ++ "border-bottom: 1px solid black" ++ dq
                         ++ "></td></tr>" in
    let header :=
      match attr.model_name self with
      | Some name =>
          header ++ "<tr><td style=" ++ dq ++ "text-align:left" ++ dq ++ "></td><td colspan="
                 ++ dq ++ str_int (nmodels self + ncols self - 1)
                 ++ dq ++ "><em>" ++ name ++ "</em></td></tr>"
      | None => header
      end in
    let header := header ++ "<tr><td style=" ++ dq ++ "text-align:left" ++ dq ++ "></td>" in
    header ←
      match attr.column_labels self with
      | None => Ok header
      | Some (OneLabel label) =>
          let header :=
            if bool_decide (1 < ncols self) then header ++ span_first_cols self " "
            else header in
          let header := header ++ "<td colspan=" ++ dq ++ str_int (nmodels self) ++ dq ++ ">" in
          Ok (header ++ label ++ "</td></tr>")
      | Some (ManyLabels labels) =>
          let header := header ++ "<tr><td></td>" in
          let header :=
            if bool_decide (1 < ncols self) then header ++ span_first_cols self ""
            else header in
          cells ← for_str_enum labels
            (λ i label,
               match attr.column_separators self with
               | None => Raise (TypeError "'NoneType' object is not subscriptable")
               | Some seps =>
                   match seps !! i with
                   | Some sep =>
                       Ok ("<td colspan=" ++ dq ++ str_int sep ++ dq ++ ">" ++ label ++ "</td>")
                   | None => Raise (IndexError "list index out of range")
                   end
               end);
          Ok (header ++ cells ++ "</tr>")
      end;
    let header :=
      if attr.show_model_nums self then
        let header := header ++ "<tr><td style=" ++ dq ++ "text-align:left" ++ dq ++ "></td>" in
        let header :=
          if bool_decide (1 < ncols self) then header ++ span_first_cols self ""
          else header in
        let header := header ++ for_str (seq 1 (attr.num_models self))
                                        (λ num, "<td>(" ++ str_int (Z.of_nat num) ++ ")</td>") in
        header ++ "</tr>"
      else header in
    let header :=
      if bool_decide (1 < ncols self) then
        header ++ "<tr><td colspan=" ++ dq ++ str_int (nmodels self + ncols self + 1)
      else
        header ++ "<tr><td colspan=" ++ dq ++ str_int (nmodels self + 1) in
    Ok (header ++ dq ++ " style=" ++ dq ++ "border-bottom: 1px solid black" ++ dq
               ++ "></td></tr>").

Definition generate_param_main_html `{PyRuntime} (self : Stargazer) (param_name : Key)
  : result string :=
  print_name ← param_print_name self param_name;
  let param_text := "<tr>" in
  let name_cell := "<td style=" ++ dq ++ "text-align:left" ++ dq ++ ">" ++ print_name
                                ++ "&nbsp;</td>" in
  param_text ←
    match param_name with
    | KStr _ => Ok (param_text ++ name_cell)
    | KTup t =>
        cells ← for_str_r (seq 0 (pred_len t))
          (λ i, cell ← first_table_cell self param_name i;
                Ok ("<td style=" ++ dq ++ "text-align:left" ++ dq ++ ">" ++ cell
                                 ++ "&nbsp;</td>"));
        Ok (param_text ++ cells ++ name_cell)
    end;
  values ← for_str_r (attr.model_data self)
    (λ data,
       if has_param data param_name then
         v ← series_get (md.param_values data) param_name;
         let cell := "<td>" ++ str_float (np_round v (attr.sig_digits self)) in
         cell ←
           (if attr.show_sig self then
              icon ← series_get (md.sig_icons data) param_name;
              Ok (cell ++ "<sup>" ++ str_icon icon ++ "</sup>")
            else Ok cell);
         Ok (cell ++ "</td>")
       else Ok "<td></td>");
  Ok (param_text ++ values ++ "</tr>").

(** The parenthesised precision of one covariate in one model: the
    confidence interval or the standard error. *)
Definition precision_text `{PyRuntime} (self : Stargazer) (data : md.t) (param_name : Key)
  : result string :=
  if attr.confidence_intervals self then
    lo ← series_get (md.ci_lower data) param_name;
    hi ← series_get (md.ci_upper data) param_name;
    Ok (str_float (np_round lo (attr.sig_digits self)) ++ " , "
          ++ str_float (np_round hi (attr.sig_digits self)))
  else
    se ← series_get (md.param_std_err data) param_name;
    Ok (str_float (np_round se (attr.sig_digits self))).

Definition generate_param_precision_html `{PyRuntime} (self : Stargazer) (param_name : Key)
  : result string :=
  let param_text := "<tr><td style=" ++ dq ++ "text-align:left" ++ dq ++ "></td>" in
  let param_text :=
    if is_tuple param_name then param_text ++ span_first_cols self "" else param_text in
  values ← for_str_r (attr.model_data self)
    (λ data,
       if has_param data param_name then
         text ← precision_text self data param_name;
         Ok ("<td>&nbsp;(" ++ text ++ ")</td>")
       else Ok "<td></td>");
  Ok (param_text ++ values ++ "</tr>").

Definition generate_param_rows_html `{PyRuntime} (self : Stargazer) (param_name : Key)
  : result string :=
  main ← generate_param_main_html self param_name;
  if attr.show_precision self then
    precision ← generate_param_precision_html self param_name;
    Ok (main ++ precision)
  else Ok (main ++ "<tr></tr>").

Definition generate_body_html `{PyRuntime} (self : Stargazer) : result string :=
  for_str_r (attr.param_names self) (generate_param_rows_html self).

(** The first cell of a footer row, and the cell spanning the extra index
    columns when there are any. *)
Definition footer_row_start_html (self : Stargazer) (label : string) : string :=
  let text := "<tr><td style=" ++ dq ++ "text-align: left" ++ dq ++ ">" ++ label ++ "</td>" in
  if bool_decide (1 < ncols self) then text ++ span_first_cols self "" else text.

Definition generate_observations_html `{PyRuntime} (self : Stargazer) : string :=
  if negb (attr.show_n self) then ""
  else
    let obs_text := footer_row_start_html self "Observations" in
    let obs_text := obs_text ++ for_str (attr.model_data self)
      (λ data,
         if isnan (md.n_obs data) then "<td>  </td>"
         else "<td>" ++ str_float (md.n_obs data) ++ "</td>") in
    obs_text ++ "</tr>".

Definition generate_r2_html `{PyRuntime} (self : Stargazer) : string :=
  if negb (attr.show_r2 self) then ""
  else
    let r2_text := footer_row_start_html self "R<sup>2</sup>" in
    let r2_text := r2_text ++ for_str (attr.model_data self)
      (λ data,
         if isnan (md.r2 data) then "<td> </td>"
         else "<td>" ++ str_float (np_round (md.r2 data) (attr.sig_digits self)) ++ "</td>") in
    r2_text ++ "</tr>".

Definition generate_r2_adj_html `{PyRuntime} (self : Stargazer) : string :=
  if negb (attr.show_r2 self) then ""
  else
    let r2_text := footer_row_start_html self "Adjusted R<sup>2</sup>" in
    let r2_text := r2_text ++ for_str (attr.model_data self)
      (λ data,
         if isnan (md.r2_adj data) then "<td>  </td>"
         else "<td>" ++ str_float (np_round (md.r2_adj data) (attr.sig_digits self))
                     ++ "</td>") in
    r2_text ++ "</tr>".

(** The annotation of the residual standard error:
    [(df = round(degree_freedom_resid))] when asked for and defined. *)
Definition resid_dof_text `{PyRuntime} (self : Stargazer) (data : md.t) : string :=
  if attr.show_dof self && negb (isnan (md.degree_freedom_resid data)) then
    "(df = " ++ str_float (np_round (md.degree_freedom_resid data) 0) ++ ")"
  else "".

Definition generate_resid_std_err_html `{PyRuntime} (self : Stargazer) : string :=
  if negb (attr.show_r2 self) then ""
  else
    let rse_text := footer_row_start_html self "Residual Std. Error" in
    let rse_text := rse_text ++ for_str (attr.model_data self)
      (λ data,
         (if isnan (md.resid_std_err data) then "<td> "
          else "<td>" ++ str_float (np_round (md.resid_std_err data) (attr.sig_digits self))
                      ++ resid_dof_text self data)
         ++ "</td>") in
    rse_text ++ "</tr>".

(** The annotation of the F statistic, written when [show_dof] is set:
    [ind_df], [ind_dfr] tell which of the two degrees of freedom is NaN,
    [ind] is their minimum, and the text is repeated [1 - ind] times. *)
Definition f_dof_text `{PyRuntime} (data : md.t) : string :=
  let ind_df := isnan (md.degree_freedom data) in
  let ind_dfr := isnan (md.degree_freedom_resid data) in
  let ind := min_bool ind_df ind_dfr in
  str_mul
    ("(df = "
       ++ str_mul (str_float (md.degree_freedom data)) (1 - int_of_bool ind_df)
       ++ "; "
       ++ str_mul (str_float (md.degree_freedom_resid data)) (1 - int_of_bool ind_dfr)
       ++ ")")
    (1 - int_of_bool ind).

(** The cell of one model in the F statistic row, without its closing
    tag. *)
Definition f_cell_html `{PyRuntime} (self : Stargazer) (data : md.t) : string :=
  if isnan (md.f_statistic data) then "<td>"
  else
    let f_text := "<td>" ++ str_float (np_round (md.f_statistic data) (attr.sig_digits self)) in
    let f_text := f_text ++ "<sup>" ++ md.sig_icon_fstat data ++ "</sup>" in
    if attr.show_dof self then f_text ++ f_dof_text data else f_text.

Definition generate_f_statistic_html `{PyRuntime} (self : Stargazer) : string :=
  if negb (attr.show_r2 self) then ""
  else
    let f_text := footer_row_start_html self "F Statistic" in
    let f_text := f_text ++ for_str (attr.model_data self)
      (λ data, f_cell_html self data ++ "</td>") in
    f_text ++ "</tr>".

(** [sig_levels[-1]] *)
Definition last_level (sig_levels : list Qc) : result Qc :=
  match last sig_levels with
  | Some x => Ok x
  | None => Raise (IndexError "list index out of range")
  end.

Definition generate_p_value_section_html `{PyRuntime} (self : Stargazer) : result string :=
  let sig_levels := py_sorted_floats (attr.sig_levels self) in
  let notes_text := nl ++ " <td colspan=" ++ dq ++ str_int (nmodels self + ncols self - 1)
                       ++ dq ++ " style=" ++ dq ++ "text-align: right" ++ dq ++ ">" in
  let notes_text := notes_text ++ for_str (imap pair (take (length sig_levels - 1) sig_levels))
    (λ il : nat * Qc,
       "<sup>" ++ str_mul "*" (Z.of_nat (length sig_levels) - Z.of_nat il.1)
               ++ "</sup>p&lt;" ++ str_float (Some il.2) ++ "; ") in
  lowest ← last_level sig_levels;
  Ok (notes_text ++ "<sup>*</sup>p&lt;" ++ str_float (Some lowest) ++ " </td>").

Definition generate_additional_notes_html (self : Stargazer) : string :=
  if bool_decide (length (attr.custom_notes self) = O) then ""
  else
    for_str (imap pair (attr.custom_notes self))
      (λ inote : nat * string,
         (if negb (bool_decide (inote.1 = O)) || attr.notes_append self then "<tr>" else "")
         ++ "<td></td><td colspan=" ++ dq ++ str_int (nmodels self + ncols self - 1) ++ dq
         ++ " style=" ++ dq ++ "text-align: right" ++ dq ++ ">" ++ inote.2 ++ "</td></tr>").

Definition generate_notes_html `{PyRuntime} (self : Stargazer) : result string :=
  if negb (attr.show_notes self) then Ok ""
  else
    let notes_text := "<tr><td style=" ++ dq ++ "text-align: left" ++ dq ++ ">"
                        ++ attr.notes_label self ++ "</td>" in
    notes_text ←
      (if attr.notes_append self then
         section ← generate_p_value_section_html self; Ok (notes_text ++ section)
       else Ok notes_text);
    let notes_text := notes_text ++ "</tr>" in
    Ok (notes_text ++ generate_additional_notes_html self).

(** The rule that closes the body and the one that closes the footer. *)
Definition rule_html (self : Stargazer) : string :=
  "<td colspan=" ++ dq ++ str_int (nmodels self + ncols self) ++ dq
    ++ " style=" ++ dq ++ "border-bottom: 1px solid black" ++ dq ++ "></td></tr>".

Definition generate_footer_html `{PyRuntime} (self : Stargazer) : result string :=
  let footer := rule_html self in
  if negb (attr.show_footer self) then Ok footer
  else
    let footer := footer ++ generate_observations_html self in
    let footer := footer ++ generate_r2_html self in
    let footer := footer ++ generate_r2_adj_html self in
    let footer :=
      if attr.show_residual_std_err self then footer ++ generate_resid_std_err_html self
      else footer in
    let footer :=
      if attr.show_f_statistic self then footer ++ generate_f_statistic_html self
      else footer in
    let footer := footer ++ "<tr>" ++ rule_html self in
    notes ← generate_notes_html self;
    Ok (footer ++ notes ++ "</table>").

Definition render_html `{PyRuntime} (self : Stargazer) : result string :=
  header ← generate_header_html self;
  body ← generate_body_html self;
  footer ← generate_footer_html self;
  Ok ("" ++ header ++ body ++ footer).

(** *** LaTeX *)

(** Two backslashes and a newline: the end of a table row. *)
Definition row_end : string := bs ++ bs ++ nl.

Definition generate_header_latex (self : Stargazer) (only_tabular : bool) : result string :=
  let ncol := ncols self in
  let preamble :=
    if negb only_tabular then
      let header := "\begin{table}[!htbp] \centering" ++ nl in
      if negb (attr.show_header self) then inl header
      else
        let header :=
          match attr.title_text self with
          | Some t => header ++ "  \caption{" ++ t ++ "}" ++ nl
          | None => header
          end in
        inr (header ++ "  \label{}" ++ nl)
    else inr "" in
  match preamble with
  | inl header => Ok header
  | inr header =>
      let header := header ++ "\begin{tabularx}{\textwidth}{" ++ str_mul "l" ncol
                           ++ str_mul "X" (nmodels self) ++ "}" ++ nl in
      let header := header ++ "\\[-1.8ex]\hline" ++ nl in
      let header := header ++ "\hline \\[-1.8ex]" ++ nl in
      let header :=
        match attr.model_name self with
        | Some name =>
            header ++ str_mul "&" ncol ++ "\multicolumn{" ++ str_int (nmodels self) ++ "}{c}"
                   ++ "{\textit{" ++ name ++ "}} " ++ bs ++ nl
                   ++ "\cr \cline{" ++ str_int (nmodels self + 1) ++ "-"
                   ++ str_int (nmodels self + ncol) ++ "}" ++ nl
        | None => header
        end in
      header ←
        match attr.column_labels self with
        | None => Ok header
        | Some (OneLabel label) =>
            Ok (header ++ "\\[-1.8ex]" ++ str_mul "&" ncol ++ "\multicolumn{"
                       ++ str_int (nmodels self) ++ "}{c}{" ++ label ++ "} " ++ bs ++ bs)
        | Some (ManyLabels labels) =>
            let header := header ++ "\\[-1.8ex]" ++ str_mul "&" (ncol - 1) in
            cells ← for_str_enum labels
              (λ i label,
                 match attr.column_separators self with
                 | None => Raise (TypeError "'NoneType' object is not subscriptable")
                 | Some seps =>
                     match seps !! i with
                     | Some sep =>
                         Ok ("& \multicolumn{" ++ str_int sep ++ "}{l}{" ++ label ++ "} ")
                     | None => Raise (IndexError "list index out of range")
                     end
                 end);
            Ok (header ++ cells ++ " " ++ row_end)
        end;
      let header :=
        if attr.show_model_nums self then
          header ++ "\\[-1.8ex]" ++ str_mul " &" (ncol - 1)
                 ++ for_str (seq 1 (attr.num_models self))
                            (λ num, "& (" ++ str_int (Z.of_nat num) ++ ") ")
                 ++ row_end
        else header in
      Ok (header ++ "\hline \\[-1.8ex]" ++ nl)
  end.

Definition generate_param_main_latex `{PyRuntime} (self : Stargazer) (param_name : Key)
  : result string :=
  print_name ← param_print_name self param_name;
  param_text ←
    match param_name with
    | KStr _ => Ok (" " ++ print_name ++ " ")
    | KTup t =>
        cells ← for_str_r (seq 0 (pred_len t))
          (λ i, cell ← first_table_cell self param_name i; Ok (cell ++ "&"));
        Ok (" " ++ cells ++ print_name)
    end;
  values ← for_str_r (attr.model_data self)
    (λ data,
       if has_param data param_name then
         v ← series_get (md.param_values data) param_name;
         let cell := "& " ++ str_float (np_round v (attr.sig_digits self)) in
         cell ←
           (if attr.show_sig self then
              icon ← series_get (md.sig_icons data) param_name;
              Ok (cell ++ "$^{" ++ str_icon icon ++ "}$")
            else Ok cell);
         Ok (cell ++ " ")
       else Ok "& ");
  Ok (param_text ++ values ++ row_end).

Definition generate_param_precision_latex `{PyRuntime} (self : Stargazer) (param_name : Key)
  : result string :=
  let param_text := str_mul "&" (ncols self - 1) in
  values ← for_str_r (attr.model_data self)
    (λ data,
       if has_param data param_name then
         text ← precision_text self data param_name;
         Ok ("&(" ++ text ++ ")")
       else Ok "& ");
  Ok (param_text ++ values ++ row_end).

Definition generate_param_rows_latex `{PyRuntime} (self : Stargazer) (param_name : Key)
  : result string :=
  main ← generate_param_main_latex self param_name;
  if attr.show_precision self then
    precision ← generate_param_precision_latex self param_name;
    Ok (main ++ precision)
  else Ok (main ++ "& ").

Definition generate_body_latex `{PyRuntime} (self : Stargazer) : result string :=
  for_str_r (attr.param_names self)
    (λ param_name,
       rows ← generate_param_rows_latex self param_name;
       Ok (rows ++ "  " ++ for_str (seq 0 (attr.num_models self)) (λ _, "& ") ++ row_end)).

(** The label of a footer row followed by the separators of the extra
    index columns. *)
Definition footer_row_start_latex (self : Stargazer) (label : string) : string :=
  label ++ str_mul "&" (ncols self - 1).

Definition generate_observations_latex `{PyRuntime} (self : Stargazer) : string :=
  if negb (attr.show_n self) then ""
  else
    let obs_text := footer_row_start_latex self " Observations\quad\quad " in
    let obs_text := obs_text ++ for_str (attr.model_data self)
      (λ data,
         if isnan (md.n_obs data) then "&   "
         else "& " ++ str_float (md.n_obs data) ++ " ") in
    obs_text ++ row_end.

Definition generate_r2_latex `{PyRuntime} (self : Stargazer) : string :=
  if negb (attr.show_r2 self) then ""
  else
    let r2_text := footer_row_start_latex self " R${2}$\quad\quad " in
    let r2_text := r2_text ++ for_str (attr.model_data self)
      (λ data,
         if isnan (md.r2 data) then "&   "
         else "& " ++ str_float (np_round (md.r2 data) (attr.sig_digits self)) ++ " ") in
    r2_text ++ row_end.

Definition generate_r2_adj_latex `{PyRuntime} (self : Stargazer) : string :=
  if negb (attr.show_r2 self) then ""
  else
    let r2_text := footer_row_start_latex self " Adjusted R${2}$\quad\quad" in
    let r2_text := r2_text ++ for_str (attr.model_data self)
      (λ data,
         if isnan (md.r2_adj data) then "&   "
         else "& " ++ str_float (np_round (md.r2_adj data) (attr.sig_digits self)) ++ " ") in
    r2_text ++ row_end.

Definition generate_resid_std_err_latex `{PyRuntime} (self : Stargazer) : string :=
  if negb (attr.show_r2 self) then ""
  else
    let rse_text := footer_row_start_latex self " Residual Std. Error \quad\quad" in
    let rse_text := rse_text ++ for_str (attr.model_data self)
      (λ data,
         (if isnan (md.resid_std_err data) then "&  "
          else "& " ++ str_float (np_round (md.resid_std_err data) (attr.sig_digits self))
                    ++ resid_dof_text self data)
         ++ " ") in
    rse_text ++ " " ++ row_end.

(** The cell of one model in the F statistic row, without the blank that
    ends it. *)
Definition f_cell_latex `{PyRuntime} (self : Stargazer) (data : md.t) : string :=
  if isnan (md.f_statistic data) then "&    "
  else
    let f_text := "& " ++ str_float (np_round (md.f_statistic data) (attr.sig_digits self)) in
    let f_text := f_text ++ "$^{" ++ md.sig_icon_fstat data ++ "}$ " in
    if attr.show_dof self then f_text ++ f_dof_text data else f_text.

Definition generate_f_statistic_latex `{PyRuntime} (self : Stargazer) : string :=
  if negb (attr.show_r2 self) then ""
  else
    let f_text := footer_row_start_latex self " F Statistic\quad\quad " in
    let f_text := f_text ++ for_str (attr.model_data self)
      (λ data, f_cell_latex self data ++ " ") in
    f_text ++ row_end.

Definition generate_p_value_section_latex `{PyRuntime} (self : Stargazer) : result string :=
  let sig_levels := py_sorted_floats (attr.sig_levels self) in
  let notes_text := " & \multicolumn{" ++ str_int (nmodels self + ncols self - 1) ++ "}{r}{" in
  let notes_text := notes_text ++ for_str (imap pair (take (length sig_levels - 1) sig_levels))
    (λ il : nat * Qc,
       "$^{" ++ str_mul "*" (Z.of_nat (length sig_levels) - Z.of_nat il.1)
             ++ "}$p$<$" ++ str_float (Some il.2) ++ "; ") in
  lowest ← last_level sig_levels;
  Ok (notes_text ++ "$^{*}$p$<$" ++ str_float (Some lowest) ++ "} " ++ row_end).

Definition generate_additional_notes_latex (self : Stargazer) : string :=
  for_str (attr.custom_notes self)
    (λ note,
       str_mul " &" (ncols self) ++ "\multicolumn{" ++ str_int (nmodels self)
         ++ "}{r}\textit{" ++ note ++ "} " ++ row_end).

Definition generate_notes_latex `{PyRuntime} (self : Stargazer) : result string :=
  if negb (attr.show_notes self) then Ok ""
  else
    let notes_text := "\textit{" ++ attr.notes_label self ++ "}" in
    notes_text ←
      (if attr.notes_append self then
         section ← generate_p_value_section_latex self; Ok (notes_text ++ section)
       else Ok notes_text);
    Ok (notes_text ++ generate_additional_notes_latex self).

Definition generate_footer_latex `{PyRuntime} (self : Stargazer) (only_tabular : bool)
  : result string :=
  let footer := "\hline \\[-1.8ex]" ++ nl in
  if negb (attr.show_footer self) then Ok footer
  else
    let footer := footer ++ generate_observations_latex self in
    let footer := footer ++ generate_r2_latex self in
    let footer := footer ++ generate_r2_adj_latex self in
    let footer :=
      if attr.show_residual_std_err self then footer ++ generate_resid_std_err_latex self
      else footer in
    let footer :=
      if attr.show_f_statistic self then footer ++ generate_f_statistic_latex self
      else footer in
    let footer := footer ++ "\hline" ++ nl ++ "\hline \\[-1.8ex]" ++ nl in
    notes ← generate_notes_latex self;
    let footer := footer ++ notes ++ "\end{tabularx}" in
    Ok (if negb only_tabular then footer ++ nl ++ "\end{table}" else footer).

Definition render_latex `{PyRuntime} (self : Stargazer) (only_tabular : bool) : result string :=
  header ← generate_header_latex self only_tabular;
  body ← generate_body_latex self;
  footer ← generate_footer_latex self only_tabular;
  Ok ("" ++ header ++ body ++ footer).

(** ** Vocabulary of the specification *)

(** The number of thresholds strictly below [p], and the number of
    thresholds not above it. *)
Definition count_below (T : list Qc) (p : Qc) : nat :=
  length (filter (λ t, (t < p)%Qc) T).

Definition count_not_above (T : list Qc) (p : Qc) : nat :=
  length (filter (λ t, (t ≤ p)%Qc) T).

(** The stars of a model agree with the thresholds [T]: they are what the
    two binning rules compute from its p-values under [T]. *)
Definition stars_consistent (T : list Qc) (data : md.t) : Prop :=
  compute_sig_icons T (md.p_values data) = Ok (md.sig_icons data)
  ∧ compute_sig_icon_fstat T (md.f_p_value data) = Ok (md.sig_icon_fstat data).

(** How one model's dict is related to itself after its stars were
    recomputed under [T]: its two star entries agree with [T], everything
    else is as before. *)
Definition restarred (T : list Qc) (data data' : md.t) : Prop :=
  stars_consistent T data'
  ∧ data' = md.set_sig_icon_fstat (md.sig_icon_fstat data')
              (md.set_sig_icons (md.sig_icons data') data).

(** The degrees-of-freedom annotation of the F statistic, case by case:
    nothing when both values are NaN, otherwise the two values between
    [(df = ] and [)], a NaN being left out. *)
Definition dof_annotation `{PyRuntime} (df dfr : float) : string :=
  match df, dfr with
  | None, None => ""
  | _, _ =>
      "(df = " ++ (if isnan df then "" else str_float df)
               ++ "; " ++ (if isnan dfr then "" else str_float dfr) ++ ")"
  end.

(** The string of [n] stars. *)
Definition stars (n : nat) : string := replicate_str n "*".

(** Thresholds that [pd.cut] accepts as bin edges between the sentinels
    [-1] and [2]: pairwise different and strictly between the two. *)
Definition valid_thresholds (T : list Qc) : Prop :=
  NoDup T ∧ Forall (λ t, (dec (-1) 1 < t)%Qc ∧ (t < dec 2 1)%Qc) T.

(** Follows the specification's words: "the index of the first threshold
    [<= p], or the number of thresholds if there is none", in a list of
    thresholds sorted descending. *)
Fixpoint spec_first_index_le (T : list Qc) (p : Qc) : nat :=
  match T with
  | [] => O
  | t :: T' => if bool_decide (t ≤ p)%Qc then O else S (spec_first_index_le T' p)
  end.

(** The covariate keys of a model as it is handed to the constructor. *)
Definition model_keys (m : Model) : list Key :=
  match m with
  | NamedTup params _ => fst <$> rows params
  | DictModel (Some params) _ => fst <$> rows params
  | DictModel None _ => []
  | StatsModel sm => fst <$> sm_table sm
  | OtherObject => []
  end.

(** The models behind the constructor's argument. *)
Definition models_of (models : models_arg) : list Model :=
  match models with
  | OneModel m => [m]
  | ModelList l => l
  end.

(** A runtime to evaluate examples with: a float is printed as the
    fraction it is, rounding and the square root leave it alone. *)
Definition example_runtime : PyRuntime :=
  {| str_float := λ x,
       match x with
       | None => "nan"
       | Some q => pretty (Qnum (this q)) ++ "/" ++ pretty (Zpos (Qden (this q)))
       end;
     str_tuple := λ t, "(" ++ String.concat ", " t ++ ")";
     np_round := λ x _, x;
     np_sqrt := λ x, x;
     float_add := λ x y,
       match x, y with
       | Some a, Some b => Some (a + b)%Qc
       | _, _ => None
       end |}.

(** A row of coefficients with the given p-value. *)
Definition example_row (p : float) : coef.t :=
  {| coef.value := Some (dec 1 1);
     coef.pvalue := p;
     coef.standard_error := Some (dec 1 2);
     coef.ci_lower := Some (dec 0 1);
     coef.ci_upper := Some (dec 2 1) |}.

(** A model with one covariate ["x"], its p-value and the entries of its
    [info] dict. *)
Definition example_model (p : float) (info : list (string * float)) : Model :=
  NamedTup {| index_nlevels := 1; rows := [(KStr "x", example_row p)] |}
           {| scalars := list_to_map info; dependent_variable := Some "y" |}.

(** The thresholds of the specification's example, and an instance that
    holds them. *)
Definition example_thresholds : list Qc := [dec 1 10; dec 5 100; dec 1 100].

Definition example_self : Stargazer :=
  attr.assign (attr.F_sig_levels example_thresholds) unbound.

(** The instance as [__init__] has it when it calls [extract_data]: the
    models are bound and every render option has its default. *)
Definition initial (models : list Model) : Stargazer :=
  (reset_params
     (attr.assign (attr.F_num_models (length models))
        (attr.assign (attr.F_models models) unbound))).2.

(** The instance built from [models] under [example_runtime]. *)
Definition example_instance (models : models_arg) : Stargazer :=
  match new (H := example_runtime) models with
  | Ok self => self
  | Raise _ => unbound
  end.

(** Two models that share the covariate ["x"]. *)
Definition example_models : models_arg :=
  ModelList
    [ example_model (Some (dec 2 100)) [("f_pvalue", Some (dec 2 100)); ("fvalue", Some (dec 7 1))];
      DictModel
        (Some {| index_nlevels := 1;
                 rows := [(KStr "z", example_row (Some (dec 5 10)));
                          (KStr "x", example_row None)] |})
        (Some {| scalars := ∅; dependent_variable := None |}) ].

(** New thresholds for the examples. *)
Definition example_levels : list pyval := [PFloat (dec 5 100); PFloat (dec 2 10)].

(** A model whose F statistic is defined, with residual degrees of freedom
    but without model degrees of freedom, on an instance that shows
    degrees of freedom. *)
Definition example_dof_instance : Stargazer :=
  attr.assign (attr.F_show_dof true)
    (example_instance
       (OneModel (example_model (Some (dec 2 100))
                    [("fvalue", Some (dec 7 1)); ("df_resid", Some (dec 10 1))]))).

(** The dict of the model of [example_dof_instance]. *)
Definition example_dof_data : md.t :=
  match attr.model_data example_dof_instance with
  | data :: _ => data
  | [] => model_data_of (H := example_runtime)
            {| index_nlevels := 1; rows := [] |}
            {| scalars := ∅; dependent_variable := None |}
  end.

(** ** Further vocabulary *)

(** The number of index levels of a model as it is handed to the
    constructor. *)
Definition model_nlevels (m : Model) : nat :=
  match m with
  | NamedTup params _ => index_nlevels params
  | DictModel (Some params) _ => index_nlevels params
  | DictModel None _ => O
  | StatsModel sm => sm_nlevels sm
  | OtherObject => O
  end.

(** The table of collapsed index levels as [extract_data] builds it from
    the number of levels [nlevels] of the first model, the first collected
    key [pars0] and the sorted keys. *)
Definition build_first_table_col `{PyRuntime} (nlevels : nat) (pars0 : Key)
    (param_names : list Key) : result FirstCol :=
  metalist ← for_each (metalist_level pars0 param_names) (seq 0 nlevels);
  if bool_decide (nlevels = O) then Raise (ValueError "Length mismatch")
  else Ok {| columns := nlevels;
             loc := transpose_indexed (collapse <$> metalist) param_names |}.

(** The thresholds that [reset_params] sets. *)
Definition default_sig_levels : list Qc := [dec 1 10; dec 5 100; dec 3 100; dec 1 100].

(** A dict with its two star entries blanked. *)
Definition without_stars (data : md.t) : md.t :=
  md.set_sig_icon_fstat "" (md.set_sig_icons [] data).

(** A statsmodels results object with the covariate ["x"]. *)
Definition example_sm : SmResults :=
  {| sm_nlevels := 1;
     sm_table := [(KStr "x", example_row (Some (dec 2 100)))];
     rsquared := Some (dec 8 10);
     rsquared_adj := Some (dec 7 10);
     scale := Some (dec 4 1);
     fvalue := Some (dec 7 1);
     f_pvalue := Some (dec 2 100);
     df_model := Some (dec 1 1);
     df_resid := Some (dec 10 1);
     endog_names := "y" |}.

(** A model whose index holds a string and a tuple. *)
Definition example_mixed_model : Model :=
  NamedTup {| index_nlevels := 1;
              rows := [(KStr "x", example_row None);
                       (KTup ["a"; "b"], example_row None)] |}
           {| scalars := ∅; dependent_variable := None |}.

(** The two models of [example_models], the second first. *)
Definition example_models_swapped : models_arg :=
  match example_models with
  | ModelList [m1; m2] => ModelList [m2; m1]
  | models => models
  end.

(** A dict model whose [info] holds no statistic. *)
Definition example_bare_params : Params :=
  {| index_nlevels := 1; rows := [(KStr "x", example_row None)] |}.

Definition example_bare_info : Info :=
  {| scalars := ∅; dependent_variable := None |}.

Definition example_bare_model : Model :=
  DictModel (Some example_bare_params) (Some example_bare_info).

(** The stars of every model agree with the thresholds of the instance. *)
Definition stars_ok (self : Stargazer) : Prop :=
  Forall (stars_consistent (attr.sig_levels self)) (attr.model_data self).

(** A key has at least [n] components; a string counts for any number. *)
Definition key_has_levels (n : nat) (k : Key) : Prop :=
  match k with
  | KStr _ => True
  | KTup t => (n ≤ length t)%nat
  end.

(** What the constructor needs of its models: each has an accepted shape,
    the first has at least one index level, there is at least one
    covariate, and the keys are all strings, or all tuples with a
    component at every level of the first model. *)
Definition constructible (models : list Model) : Prop :=
  Forall (λ m, ∃ m', validate_model m = Ok m') models
  ∧ ∃ m0 rest,
      models = m0 :: rest
      ∧ model_nlevels m0 ≠ O
      ∧ mjoin (model_keys <$> models) ≠ []
      ∧ (Forall (λ k, is_tuple k = false) (mjoin (model_keys <$> models))
         ∨ (Forall (λ k, is_tuple k = true) (mjoin (model_keys <$> models))
            ∧ Forall (key_has_levels (model_nlevels m0)) (mjoin (model_keys <$> models)))).

(** The Series of a model's dict all carry the index of its covariates. *)
Definition aligned (data : md.t) : Prop :=
  fst <$> md.param_values data = md.param_names data
  ∧ fst <$> md.p_values data = md.param_names data
  ∧ fst <$> md.param_std_err data = md.param_names data
  ∧ fst <$> md.ci_lower data = md.param_names data
  ∧ fst <$> md.ci_upper data = md.param_names data
  ∧ fst <$> md.sig_icons data = md.param_names data.

(** The rows of covariate [k] can be written from the table of collapsed
    index levels: a tuple key has a last component, a row in the table and
    there a cell for each of its other components. *)
Definition key_renders (table : FirstCol) (k : Key) : Prop :=
  match k with
  | KStr _ => True
  | KTup t =>
      t ≠ [] ∧ ∃ row, series_get (loc table) k = Ok row ∧ (length t - 1 ≤ length row)%nat
  end.

(** What the two renderers need of an instance. *)
Definition renderable (self : Stargazer) : Prop :=
  Forall aligned (attr.model_data self)
  ∧ Forall (key_renders (attr.first_table_col self)) (attr.param_names self)
  ∧ match attr.original_param_names self with
    | Some names => Forall (key_renders (attr.first_table_col self)) names
    | None => True
    end
  ∧ match attr.column_labels self with
    | Some (ManyLabels labels) =>
        ∃ seps, attr.column_separators self = Some seps
                ∧ (length labels ≤ length seps)%nat
    | _ => True
    end
  ∧ attr.sig_levels self ≠ [].

(** The calls that set a render option and touch neither the thresholds
    nor the models' dicts: every setter of the class but
    [significance_levels], reached as the function of the class, and the
    two calls that bring the order of the covariates back. *)
Inductive option_setter : method unit → Prop :=
| set_title (t : string) : option_setter (title t)
| set_show_header (v : pyval) : option_setter (show_header v)
| set_show_model_numbers (v : pyval) : option_setter (show_model_numbers v)
| set_custom_columns (labels : labels_arg) (separators : separators_arg) :
    option_setter (custom_columns labels separators)
| set_significant_digits (v : pyval) : option_setter (significant_digits v)
| set_show_confidence_intervals (v : pyval) : option_setter (show_confidence_intervals v)
| set_model_name (v : pyval) : option_setter (model_name v)
| set_covariate_order (names : list Key) : option_setter (covariate_order names)
| set_rename_covariates (v : pyval) : option_setter (rename_covariates v)
| set_reset_covariate_order : option_setter reset_covariate_order
| set_show_degrees_of_freedom (v : pyval) : option_setter (show_degrees_of_freedom v)
| set_custom_note_label (v : pyval) : option_setter (custom_note_label v)
| set_add_custom_notes (notes : list pyval) : option_setter (add_custom_notes notes)
| set_append_notes (v : pyval) : option_setter (append_notes v).

(** * Properties *)

Open Scope list_scope.

Open Scope list_scope.

(** ** Sorted floats *)

Lemma py_sorted_floats_sorted (l : list Qc) : StronglySorted Qcle (py_sorted_floats l).
Proof. apply (StronglySorted_merge_sort _). Qed.

Lemma py_sorted_floats_perm (l : list Qc) : py_sorted_floats l ≡ₚ l.
Proof. apply merge_sort_Permutation. Qed.

Lemma py_sorted_floats_length (l : list Qc) : length (py_sorted_floats l) = length l.
Proof. by rewrite py_sorted_floats_perm. Qed.

Lemma nondecreasing_sorted (l : list Qc) : StronglySorted Qcle l → nondecreasing l = true.
Proof.
  induction 1 as [|x l Hl IH Hx]; [done|].
  destruct l as [|y l]; [done|].
  change (bool_decide (x ≤ y)%Qc && nondecreasing (y :: l) = true).
  rewrite IH, andb_true_r. apply bool_decide_eq_true. by inversion Hx.
Qed.

Lemma filter_none_length {A} (P : A → Prop) `{∀ x, Decision (P x)} (l : list A) :
  Forall (λ x, ¬ P x) l → length (filter P l) = O.
Proof.
  induction 1 as [|x l Hx Hl IH]; [done|].
  rewrite filter_cons, decide_False by done. done.
Qed.

Lemma filter_all_length {A} (P : A → Prop) `{∀ x, Decision (P x)} (l : list A) :
  Forall P l → length (filter P l) = length l.
Proof.
  induction 1 as [|x l Hx Hl IH]; [done|].
  rewrite filter_cons, decide_True by done. cbn. by rewrite IH.
Qed.

Lemma searchsorted_left_count (l : list Qc) (x : Qc) :
  StronglySorted Qcle l → searchsorted_left l x = count_below l x.
Proof.
  unfold count_below. induction 1 as [|b l Hl IH Hb]; [done|].
  cbn [searchsorted_left]. rewrite filter_cons. case_bool_decide as Hlt.
  - rewrite decide_True by done. cbn. by rewrite IH.
  - rewrite decide_False by done.
    symmetry. apply filter_none_length.
    eapply Forall_impl; [exact Hb|]. cbn. intros y Hy Hyx.
    apply Hlt. eapply Qcle_lt_trans; eauto.
Qed.

Lemma searchsorted_right_count (l : list Qc) (x : Qc) :
  StronglySorted Qcle l → searchsorted_right l x = count_not_above l x.
Proof.
  unfold count_not_above. induction 1 as [|b l Hl IH Hb]; [done|].
  cbn [searchsorted_right]. rewrite filter_cons. case_bool_decide as Hle.
  - rewrite decide_True by done. cbn. by rewrite IH.
  - rewrite decide_False by done.
    symmetry. apply filter_none_length.
    eapply Forall_impl; [exact Hb|]. cbn. intros y Hy Hyx.
    apply Hle. eapply Qcle_trans; eauto.
Qed.

Lemma count_below_perm (l l' : list Qc) (x : Qc) :
  l ≡ₚ l' → count_below l x = count_below l' x.
Proof. unfold count_below. by intros ->. Qed.

Lemma count_not_above_perm (l l' : list Qc) (x : Qc) :
  l ≡ₚ l' → count_not_above l x = count_not_above l' x.
Proof. unfold count_not_above. by intros ->. Qed.

Lemma count_below_app (l l' : list Qc) (x : Qc) :
  count_below (l ++ l') x = (count_below l x + count_below l' x)%nat.
Proof. unfold count_below. by rewrite filter_app, length_app. Qed.

Lemma count_not_above_app (l l' : list Qc) (x : Qc) :
  count_not_above (l ++ l') x = (count_not_above l x + count_not_above l' x)%nat.
Proof. unfold count_not_above. by rewrite filter_app, length_app. Qed.

Lemma count_below_le (l : list Qc) (x : Qc) : (count_below l x ≤ length l)%nat.
Proof. apply length_filter. Qed.

Lemma count_not_above_le (l : list Qc) (x : Qc) : (count_not_above l x ≤ length l)%nat.
Proof. apply length_filter. Qed.

Lemma count_below_not_above (l : list Qc) (x : Qc) :
  (count_below l x ≤ count_not_above l x)%nat.
Proof.
  unfold count_below, count_not_above. induction l as [|t l IH]; [done|].
  rewrite !filter_cons. destruct (decide (t < x)%Qc) as [Hlt|Hlt].
  - rewrite decide_True by by apply Qclt_le_weak. cbn. lia.
  - destruct (decide (t ≤ x)%Qc); cbn; lia.
Qed.

(** ** The bin edges *)

Lemma replicate_str_empty (n : nat) : replicate_str n "" = "".
Proof. induction n; [done|]. done. Qed.

Lemma sentinels_lt : (dec (-1) 1 < dec 2 1)%Qc.
Proof. reflexivity. Qed.

Section bins.
Context (T : list Qc) (HT : valid_thresholds T).

Lemma sorted_thresholds_bounds :
  Forall (λ t, (dec (-1) 1 < t)%Qc ∧ (t < dec 2 1)%Qc) (py_sorted_floats T).
Proof. rewrite py_sorted_floats_perm. apply HT. Qed.

Lemma sig_bins_sorted : StronglySorted Qcle (sig_bins T).
Proof.
  pose proof sorted_thresholds_bounds as Hb. rewrite Forall_forall in Hb.
  unfold sig_bins. apply StronglySorted_app_2.
  - intros x1 x2 ->%list_elem_of_singleton [Hx2| ->%list_elem_of_singleton]%elem_of_app.
    + apply Qclt_le_weak, Hb, Hx2.
    + done.
  - repeat constructor.
  - apply StronglySorted_app_2; [|apply py_sorted_floats_sorted|repeat constructor].
    intros x1 x2 Hx1 ->%list_elem_of_singleton.
    apply Qclt_le_weak, Hb, Hx1.
Qed.

Lemma sig_bins_length : length (sig_bins T) = (length T + 2)%nat.
Proof.
  unfold sig_bins. rewrite !length_app, py_sorted_floats_length. cbn. lia.
Qed.

Lemma sig_bins_NoDup : NoDup (sig_bins T).
Proof.
  pose proof sorted_thresholds_bounds as Hb. rewrite Forall_forall in Hb.
  unfold sig_bins. apply NoDup_app. split_and!.
  - apply NoDup_singleton.
  - intros x ->%list_elem_of_singleton [Hx|Hx%list_elem_of_singleton]%elem_of_app.
    + destruct (Hb _ Hx) as [Hlt _]. by apply Qclt_not_eq in Hlt.
    + by apply (Qclt_not_eq _ _ sentinels_lt).
  - apply NoDup_app. split_and!.
    + rewrite py_sorted_floats_perm. apply HT.
    + intros x Hx ->%list_elem_of_singleton.
      destruct (Hb _ Hx) as [_ Hlt]. by apply Qclt_not_eq in Hlt.
    + apply NoDup_singleton.
Qed.

Lemma star_labels_length : length (star_labels T) = (length T + 1)%nat.
Proof. unfold star_labels. by rewrite length_fmap, length_seq. Qed.

Lemma star_labels_lookup (i : nat) :
  (i ≤ length T)%nat → star_labels T !! i = Some (stars (length T - i)).
Proof.
  intros Hi. unfold star_labels. rewrite list_lookup_fmap, lookup_seq_lt by lia.
  cbn. unfold stars, str_mul. do 2 f_equal. lia.
Qed.

(** Between the sentinels, [searchsorted] counts the lower sentinel and
    the thresholds below the value. *)
Lemma searchsorted_left_bins (p : Qc) :
  (dec (-1) 1 < p)%Qc → (p ≤ dec 2 1)%Qc →
  searchsorted_left (sig_bins T) p = S (count_below T p).
Proof.
  intros Hlo Hhi. rewrite searchsorted_left_count by apply sig_bins_sorted.
  unfold sig_bins. rewrite !count_below_app.
  rewrite (count_below_perm _ _ _ (py_sorted_floats_perm T)).
  unfold count_below at 1 3. rewrite !filter_cons, !filter_nil.
  rewrite decide_True by done.
  rewrite decide_False by by apply Qcle_not_lt. cbn. lia.
Qed.

Lemma searchsorted_right_bins (p : Qc) :
  (dec (-1) 1 ≤ p)%Qc → (p < dec 2 1)%Qc →
  searchsorted_right (sig_bins T) p = S (count_not_above T p).
Proof.
  intros Hlo Hhi. rewrite searchsorted_right_count by apply sig_bins_sorted.
  unfold sig_bins. rewrite !count_not_above_app.
  rewrite (count_not_above_perm _ _ _ (py_sorted_floats_perm T)).
  unfold count_not_above at 1 3. rewrite !filter_cons, !filter_nil.
  rewrite decide_True by done.
  rewrite decide_False by by apply Qclt_not_le. cbn. lia.
Qed.

(** The label [pd.cut] gives to a value between the sentinels. *)
Lemma pd_cut_one_stars (p : Qc) :
  (dec (-1) 1 < p)%Qc → (p ≤ dec 2 1)%Qc →
  pd_cut_one (sig_bins T) (star_labels T) (Some p)
  = Some (stars (length T - count_below T p)).
Proof.
  intros Hlo Hhi. unfold pd_cut_one.
  rewrite searchsorted_left_bins, sig_bins_length by done.
  pose proof (count_below_le T p).
  rewrite bool_decide_eq_false_2 by done.
  rewrite bool_decide_eq_false_2 by lia. cbn [orb].
  replace (S (count_below T p) - 1)%nat with (count_below T p) by lia.
  by apply star_labels_lookup.
Qed.

(** [pd.cut] accepts the edges and labels every value. *)
Lemma compute_sig_icons_ok (p_values : Series float) :
  compute_sig_icons T p_values
  = Ok ((λ kx : Key * float,
           (kx.1, pd_cut_one (sig_bins T) (star_labels T) kx.2)) <$> p_values).
Proof.
  unfold compute_sig_icons, pd_cut.
  rewrite (nondecreasing_sorted _ sig_bins_sorted). cbn [negb].
  rewrite (bool_decide_eq_true_2 _ sig_bins_NoDup). cbn [negb andb].
  rewrite bool_decide_eq_true_2; [done|].
  rewrite star_labels_length, sig_bins_length. lia.
Qed.

Lemma np_digitize_bins (p : Qc) :
  np_digitize (Some p) (sig_bins T) = Ok (Z.of_nat (searchsorted_right (sig_bins T) p)).
Proof. unfold np_digitize. by rewrite (nondecreasing_sorted _ sig_bins_sorted). Qed.

(** The stars of an F statistic whose p-value lies between the
    sentinels. *)
Lemma compute_sig_icon_fstat_stars (p : Qc) :
  (dec (-1) 1 ≤ p)%Qc → (p < dec 2 1)%Qc →
  compute_sig_icon_fstat T (Some p)
  = Ok (stars (length T - count_not_above T p)).
Proof.
  intros Hlo Hhi. unfold compute_sig_icon_fstat.
  rewrite np_digitize_bins, searchsorted_right_bins by done. cbn.
  f_equal. unfold str_mul, stars.
  change (replicate_str (Z.to_nat (1 - 0)) "*") with "*".
  f_equal. lia.
Qed.

(** An undefined p-value gives no star at all. *)
Lemma compute_sig_icon_fstat_nan : compute_sig_icon_fstat T nan = Ok "".
Proof.
  unfold compute_sig_icon_fstat, np_digitize.
  rewrite (nondecreasing_sorted _ sig_bins_sorted). cbn.
  unfold str_mul. change (Z.to_nat (1 - 1)) with O.
  f_equal. apply replicate_str_empty.
Qed.
End bins.

(** ** Series *)

Lemma series_get_fmap {A B} (g : A → B) (xs : Series A) (k : Key) :
  series_get ((λ kx : Key * A, (kx.1, g kx.2)) <$> xs) k = g <$> series_get xs k.
Proof.
  induction xs as [|[k' v] xs IH]; [done|].
  cbn. destruct (decide (k' = k)); [done|]. apply IH.
Qed.

(** ** Stars of the coefficients and of the F statistic *)

Section stars.
Context `{PyRuntime}.

(** With thresholds that [pd.cut] accepts, [extract_model_data] returns
    and leaves the instance alone. *)
Lemma extract_model_data_ok (self : Stargazer) (params : Params) (info : Info) :
  valid_thresholds (attr.sig_levels self) →
  ∃ data,
    extract_model_data (NamedTup params info) self = (Ok data, self)
    ∧ compute_sig_icons (attr.sig_levels self) (md.p_values data) = Ok (md.sig_icons data)
    ∧ compute_sig_icon_fstat (attr.sig_levels self) (md.f_p_value data)
      = Ok (md.sig_icon_fstat data)
    ∧ md.p_values data = (λ kr : Key * coef.t, (kr.1, coef.pvalue kr.2)) <$> rows params.
Proof.
  intros HT. unfold extract_model_data.
  set (d := model_data_of params info).
  destruct (compute_sig_icon_fstat (attr.sig_levels self) (md.f_p_value d))
    as [fstat|e] eqn:Hf.
  2:{ exfalso. destruct (md.f_p_value d) as [p|].
      - unfold compute_sig_icon_fstat in Hf. by rewrite np_digitize_bins in Hf.
      - by rewrite compute_sig_icon_fstat_nan in Hf. }
  eexists. split_and!.
  - unfold mbind, method_bind, getattr, lift, mret, method_ret.
    rewrite (compute_sig_icons_ok _ HT). cbn [md.set_sig_icons md.f_p_value].
    fold d. rewrite Hf. reflexivity.
  - cbn. by rewrite (compute_sig_icons_ok _ HT).
  - cbn. exact Hf.
  - reflexivity.
Qed.

(** C1 (as amended): with thresholds [T] that are pairwise different and
    lie strictly between -1 and 2, a coefficient whose p-value [p] lies in
    (-1, 2] is given [|T|] minus the number of thresholds strictly below [p]
    stars by [extract_model_data]; in particular it is given no star when
    every threshold is below [p]. *)
Theorem coefficient_star_count (self : Stargazer) (params : Params) (info : Info)
    (k : Key) (row : coef.t) (p : Qc) :
  valid_thresholds (attr.sig_levels self) →
  series_get (rows params) k = Ok row →
  coef.pvalue row = Some p →
  (dec (-1) 1 < p)%Qc →
  (p ≤ dec 2 1)%Qc →
  ∃ data,
    extract_model_data (NamedTup params info) self = (Ok data, self)
    ∧ series_get (md.sig_icons data) k
      = Ok (Some (stars (length (attr.sig_levels self)
                         - count_below (attr.sig_levels self) p)))
    ∧ (Forall (λ t, (t < p)%Qc) (attr.sig_levels self) →
       series_get (md.sig_icons data) k = Ok (Some "")).
Proof.
  intros HT Hrow Hp Hlo Hhi.
  destruct (extract_model_data_ok self params info HT) as (data & Hrun & Hicons & _ & Hpv).
  exists data. split; [done|].
  rewrite (compute_sig_icons_ok _ HT) in Hicons. injection Hicons as <-.
  assert (series_get
            ((λ kx : Key * float,
                (kx.1, pd_cut_one (sig_bins (attr.sig_levels self))
                                  (star_labels (attr.sig_levels self)) kx.2))
               <$> md.p_values data) k
          = Ok (Some (stars (length (attr.sig_levels self)
                             - count_below (attr.sig_levels self) p)))) as Hget.
  { rewrite series_get_fmap, Hpv, series_get_fmap, Hrow. cbn. rewrite Hp.
    by rewrite (pd_cut_one_stars _ HT). }
  split; [done|].
  intros Hall. rewrite Hget. do 2 f_equal.
  unfold count_below. rewrite filter_all_length by done.
  by rewrite Nat.sub_diag.
Qed.
End stars.

Lemma example_thresholds_valid : valid_thresholds example_thresholds.
Proof.
  split.
  - apply (bool_decide_unpack _). vm_compute. exact I.
  - repeat constructor.
Qed.

Lemma coefficient_star_count_witness :
  valid_thresholds (attr.sig_levels example_self)
  ∧ ∃ data,
      extract_model_data (H := example_runtime)
        (NamedTup {| index_nlevels := 1; rows := [(KStr "x", example_row (Some (dec 2 100)))] |}
                  {| scalars := ∅; dependent_variable := None |})
        example_self = (Ok data, example_self)
      ∧ series_get (md.sig_icons data) (KStr "x")
        = Ok (Some (stars (length (attr.sig_levels example_self)
                           - count_below (attr.sig_levels example_self) (dec 2 100))))
      ∧ (Forall (λ t, (t < dec 2 100)%Qc) (attr.sig_levels example_self) →
         series_get (md.sig_icons data) (KStr "x") = Ok (Some "")).
Proof.
  split; [exact example_thresholds_valid|].
  apply (coefficient_star_count (H := example_runtime) example_self _ _
           (KStr "x") (example_row (Some (dec 2 100))) (dec 2 100)).
  - exact example_thresholds_valid.
  - reflexivity.
  - reflexivity.
  - reflexivity.
  - vm_compute. discriminate.
Defined.

(** The examples of the specification: with thresholds 0.1, 0.05 and 0.01,
    a p-value of 0.02 is given two stars, 0.5 none and 0.005 three. *)
Example stars_of_examples :
  compute_sig_icons example_thresholds
    [(KStr "a", Some (dec 2 100)); (KStr "b", Some (dec 5 10)); (KStr "c", Some (dec 5 1000))]
  = Ok [(KStr "a", Some "**"); (KStr "b", Some ""); (KStr "c", Some "***")].
Proof. vm_compute. reflexivity. Qed.

(** C1, as the specification words it, fails: with thresholds 0.1, 0.05,
    0.01 and the p-value 0.02 the first threshold not above the p-value has
    index 2, so that the formula of the specification gives one star, where
    the code gives two. *)
Lemma spec_star_formula_counterexample :
  spec_first_index_le example_thresholds (dec 2 100) = 2%nat
  ∧ compute_sig_icons example_thresholds [(KStr "x", Some (dec 2 100))]
    = Ok [(KStr "x", Some (stars 2))]
  ∧ compute_sig_icons example_thresholds [(KStr "x", Some (dec 2 100))]
    ≠ Ok [(KStr "x", Some (stars (length example_thresholds
                                  - spec_first_index_le example_thresholds (dec 2 100))))].
Proof.
  split_and!.
  - vm_compute. reflexivity.
  - vm_compute. reflexivity.
  - vm_compute. discriminate.
Qed.

(** The two binning rules agree wherever the p-value is not itself a
    threshold ... *)
Lemma count_not_above_off (T : list Qc) (p : Qc) :
  p ∉ T → count_not_above T p = count_below T p.
Proof.
  unfold count_not_above, count_below. induction T as [|t T IH]; [done|].
  intros [Hne HT]%not_elem_of_cons. rewrite !filter_cons.
  destruct (decide (t ≤ p)%Qc) as [Hle|Hle].
  - rewrite decide_True.
    + cbn. by rewrite IH.
    + apply Qcle_lt_or_eq in Hle as [?| ->]; [done|by destruct Hne].
  - rewrite decide_False; [by apply IH|].
    intros Hlt. by apply Hle, Qclt_le_weak.
Qed.

(** ... and differ by one where it is. *)
Lemma count_not_above_on (T : list Qc) (t : Qc) :
  NoDup T → t ∈ T → count_not_above T t = S (count_below T t).
Proof.
  unfold count_not_above, count_below. induction 1 as [|x T Hx HT IH]; [by intros ?%elem_of_nil|].
  intros [->|Hin]%elem_of_cons.
  - rewrite !filter_cons, decide_True by done.
    rewrite decide_False by apply irreflexivity, _.
    cbn. f_equal. by apply (count_not_above_off T x).
  - rewrite !filter_cons.
    destruct (decide (x ≤ t)%Qc) as [Hle|Hle].
    + rewrite decide_True.
      * cbn. by rewrite IH.
      * apply Qcle_lt_or_eq in Hle as [?| ->]; [done|by destruct Hx].
    + rewrite decide_False; [by apply IH|].
      intros Hlt. by apply Hle, Qclt_le_weak.
Qed.

(** X1: off the thresholds the two binning rules agree: for valid
    thresholds [T] and a p-value strictly between -1 and 2 that is none of
    them, the F statistic and a coefficient are both given [|T|] minus the
    number of thresholds below the p-value stars. *)
Lemma fstat_stars_off_thresholds (T : list Qc) (p : Qc) :
  valid_thresholds T → (dec (-1) 1 < p)%Qc → (p < dec 2 1)%Qc → p ∉ T →
  compute_sig_icon_fstat T (Some p) = Ok (stars (length T - count_below T p))
  ∧ pd_cut_one (sig_bins T) (star_labels T) (Some p)
    = Some (stars (length T - count_below T p)).
Proof.
  intros HT Hlo Hhi Hp. split.
  - rewrite (compute_sig_icon_fstat_stars _ HT) by (by try apply Qclt_le_weak).
    by rewrite count_not_above_off.
  - apply (pd_cut_one_stars _ HT); by try apply Qclt_le_weak.
Qed.

(** X2: on a threshold the two binning rules part: a p-value equal to one
    of the valid thresholds [T] earns a coefficient the star of that
    threshold and the F statistic one star fewer. *)
Lemma fstat_stars_on_threshold (T : list Qc) (t : Qc) :
  valid_thresholds T → t ∈ T →
  compute_sig_icon_fstat T (Some t) = Ok (stars (length T - count_below T t - 1))
  ∧ pd_cut_one (sig_bins T) (star_labels T) (Some t)
    = Some (stars (length T - count_below T t)).
Proof.
  intros HT Ht.
  destruct HT as [Hnd Hb]. pose proof Hb as Hb'. rewrite Forall_forall in Hb'.
  destruct (Hb' _ Ht) as [Hlo Hhi]. split.
  - rewrite (compute_sig_icon_fstat_stars _ (conj Hnd Hb)) by (by try apply Qclt_le_weak).
    rewrite count_not_above_on by done. do 2 f_equal. lia.
  - apply (pd_cut_one_stars _ (conj Hnd Hb)); by try apply Qclt_le_weak.
Qed.

(** An undefined F p-value leaves the star string empty, whatever the
    thresholds. *)
Lemma fstat_stars_nan (T : list Qc) (s : string) :
  compute_sig_icon_fstat T nan = Ok s → s = "".
Proof.
  unfold compute_sig_icon_fstat. destruct (np_digitize nan (sig_bins T)) as [d|e]; [|done].
  cbn. intros [= <-]. unfold str_mul. change (Z.to_nat (1 - 1)) with O.
  apply replicate_str_empty.
Qed.

Section fstat.
Context `{PyRuntime}.

(** C2 (the code departs from it): under the default thresholds 0.1, 0.05,
    0.03 and 0.01, a model whose only coefficient and whose F statistic
    both have the p-value 0.05 is given two stars on the coefficient and
    one on the F statistic. *)
Theorem fstat_stars_differ_at_threshold :
  (λ self, (λ data, (md.sig_icons data, md.sig_icon_fstat data)) <$> attr.model_data self)
    <$> new (OneModel (example_model (Some (dec 5 100)) [("f_pvalue", Some (dec 5 100))]))
  = Ok [([(KStr "x", Some "**")], "*")].
Proof. vm_compute. reflexivity. Qed.
End fstat.

(** ** The order on keys *)

Lemma tuple_leb_total (a b : list string) : tuple_leb a b = true ∨ tuple_leb b a = true.
Proof.
  revert b. induction a as [|x a IH]; intros [|y b]; cbn; auto.
  repeat case_decide; subst; first [done|apply IH|apply String.leb_total].
Qed.

Lemma tuple_leb_trans (a b c : list string) :
  tuple_leb a b = true → tuple_leb b c = true → tuple_leb a c = true.
Proof.
  revert b c. induction a as [|x a IH]; intros [|y b] [|z c]; cbn; try done.
  repeat case_decide; subst; try done.
  - apply IH.
  - intros Hle1 Hle2. exfalso. by apply String.leb_antisym in Hle1.
  - intros Hle1 Hle2. apply Is_true_true. trans y; by apply Is_true_true.
Qed.

Lemma tuple_leb_antisym (a b : list string) :
  tuple_leb a b = true → tuple_leb b a = true → a = b.
Proof.
  revert b. induction a as [|x a IH]; intros [|y b]; cbn; try done.
  repeat case_decide; subst; try done.
  - intros ??. f_equal. by apply IH.
  - intros Hle1 Hle2. exfalso. by apply String.leb_antisym in Hle1.
Qed.

#[global] Instance key_le_total : Total key_le.
Proof.
  intros [x|x] [y|y]; unfold key_le; cbn; auto.
  - destruct (String.leb_total x y) as [->| ->]; auto.
  - destruct (tuple_leb_total x y) as [->| ->]; auto.
Qed.

#[global] Instance key_le_trans : Transitive key_le.
Proof.
  intros [x|x] [y|y] [z|z]; unfold key_le; cbn; try done.
  - intros ??. by trans y.
  - intros ?%Is_true_true ?%Is_true_true. apply Is_true_true. by eapply tuple_leb_trans.
Qed.

#[global] Instance key_le_antisym : AntiSymm (=) key_le.
Proof.
  intros [x|x] [y|y]; unfold key_le; cbn; try done.
  - intros ?%Is_true_true ?%Is_true_true. f_equal. by apply String.leb_antisym.
  - intros ?%Is_true_true ?%Is_true_true. f_equal. by apply tuple_leb_antisym.
Qed.

(** A list sorted by [key_le] that repeats no key is strictly sorted. *)
Lemma strictly_sorted (l : list Key) :
  StronglySorted key_le l → NoDup l → StronglySorted key_lt l.
Proof.
  induction 1 as [|x l Hl IH Hx]; [constructor|].
  intros [Hnin Hnd]%NoDup_cons. constructor; [by apply IH|].
  rewrite Forall_forall in Hx. apply Forall_forall. intros y Hy. split; [by apply Hx|].
  intros ->. done.
Qed.

(** What [sorted(set(l))] returns: the keys of [l], each once, in strictly
    increasing order. *)
Lemma py_sorted_set_spec (l r : list Key) :
  py_sorted_set l = Ok r →
  StronglySorted key_lt r ∧ NoDup r ∧ ∀ k, k ∈ r ↔ k ∈ l.
Proof.
  unfold py_sorted_set, py_sorted_keys.
  destruct (same_kind _); [|done]. intros [= <-].
  assert (merge_sort key_le (elements (list_to_set l : gset Key))
          ≡ₚ elements (list_to_set l : gset Key)) as Hperm
    by apply merge_sort_Permutation.
  assert (NoDup (merge_sort key_le (elements (list_to_set l : gset Key)))) as Hnd.
  { rewrite Hperm. apply NoDup_elements. }
  split_and!.
  - apply strictly_sorted; [|done]. apply (StronglySorted_merge_sort _).
  - done.
  - intros k. rewrite Hperm, elem_of_elements, elem_of_list_to_set. done.
Qed.

(** [sorted] succeeds on keys that are all strings or all tuples. *)
Lemma py_sorted_set_ok (l : list Key) :
  Forall (λ k, is_tuple k = false) l ∨ Forall (λ k, is_tuple k = true) l →
  ∃ r, py_sorted_set l = Ok r.
Proof.
  intros Hkind. unfold py_sorted_set, py_sorted_keys.
  assert (same_kind (elements (list_to_set l : gset Key)) = true) as ->; [|by eexists].
  unfold same_kind. apply orb_true_iff.
  destruct Hkind as [Hk|Hk]; [right|left]; apply forallb_forall;
    intros k Hk'%list_elem_of_In%elem_of_elements%elem_of_list_to_set;
    rewrite Forall_forall in Hk; specialize (Hk _ Hk'); by rewrite Hk.
Qed.

(** ** Assignments *)

Lemma assign_models_same (s : Stargazer) : attr.assign (attr.F_models (attr.models s)) s = s.
Proof. by destruct s. Qed.

Lemma assign_models_twice (a b : list Model) (s : Stargazer) :
  attr.assign (attr.F_models b) (attr.assign (attr.F_models a) s)
  = attr.assign (attr.F_models b) s.
Proof. by destruct s. Qed.

Lemma assign_model_data_same (s : Stargazer) :
  attr.assign (attr.F_model_data (attr.model_data s)) s = s.
Proof. by destruct s. Qed.

Lemma assign_model_data_twice (a b : list md.t) (s : Stargazer) :
  attr.assign (attr.F_model_data b) (attr.assign (attr.F_model_data a) s)
  = attr.assign (attr.F_model_data b) s.
Proof. by destruct s. Qed.

(** Unfolds one layer of the method monad. *)
Ltac step_method :=
  unfold assert in *;
  unfold mbind, method_bind, mret, method_ret, setattr, getattr, lift, raise in *.

(** ** The loops of the constructor *)

Lemma for_enumerate_nil {A} (body : nat → A → method unit) (i : nat) (s : Stargazer) :
  for_enumerate body i [] s = (Ok (), s).
Proof. reflexivity. Qed.

Lemma for_enumerate_cons {A} (body : nat → A → method unit) (i : nat) (x : A)
    (l : list A) (s : Stargazer) :
  for_enumerate body i (x :: l) s
  = match body i x s with
    | (Ok _, s1) => for_enumerate body (S i) l s1
    | (Raise e, s1) => (Raise e, s1)
    end.
Proof. reflexivity. Qed.

Lemma validate_at_run (i : nat) (m : Model) (s : Stargazer) :
  validate_at i m s
  = match validate_model m with
    | Ok tup => (Ok (), attr.assign (attr.F_models (<[i := tup]> (attr.models s))) s)
    | Raise e => (Raise e, s)
    end.
Proof. unfold validate_at. step_method. by destruct (validate_model m). Qed.

Lemma validate_loop (done l : list Model) (s s' : Stargazer) :
  attr.models s = done ++ l →
  for_enumerate validate_at (length done) l s = (Ok (), s') →
  ∃ l', for_each validate_model l = Ok l'
        ∧ s' = attr.assign (attr.F_models (done ++ l')) s.
Proof.
  revert done s. induction l as [|m l IH]; intros done s Hs Hrun.
  - rewrite for_enumerate_nil in Hrun. injection Hrun as <-. exists []. split; [done|].
    by rewrite <- Hs, assign_models_same.
  - rewrite for_enumerate_cons, validate_at_run in Hrun.
    destruct (validate_model m) as [tup|e] eqn:Hm; [|done].
    rewrite Hs in Hrun.
    replace (<[length done := tup]> (done ++ m :: l)) with ((done ++ [tup]) ++ l) in Hrun.
    2:{ rewrite insert_app_r_alt, Nat.sub_diag by done. cbn. by rewrite <- app_assoc. }
    replace (S (length done)) with (length (done ++ [tup])) in Hrun
      by (rewrite length_app; cbn; lia).
    apply IH in Hrun as (l' & Hl' & ->); [|done].
    exists (tup :: l'). split.
    + cbn. rewrite Hm. cbn. by rewrite Hl'.
    + rewrite assign_models_twice. by rewrite <- app_assoc.
Qed.

Lemma validate_input_ok (s s' : Stargazer) :
  validate_input s = (Ok (), s') →
  ∃ models, for_each validate_model (attr.models s) = Ok models
            ∧ s' = attr.assign (attr.F_models models) s.
Proof.
  unfold validate_input. step_method. intros Hrun.
  by apply (validate_loop []) in Hrun.
Qed.

(** A validated model is a namedtuple over the same covariates. *)
Lemma validate_model_keys (m m' : Model) :
  validate_model m = Ok m' →
  ∃ params info, m' = NamedTup params info ∧ model_keys m = fst <$> rows params.
Proof.
  destruct m as [p i|[p|] [i|]|sm|]; cbn; try done; intros [= <-]; by eexists _, _.
Qed.

Lemma for_each_Forall2 {A B} (f : A → result B) (l : list A) (r : list B) :
  for_each f l = Ok r → Forall2 (λ x y, f x = Ok y) l r.
Proof.
  revert r. induction l as [|x l IH]; intros r; cbn.
  - intros [= <-]. constructor.
  - destruct (f x) as [y|] eqn:Hx; [|done]. cbn.
    destruct (for_each f l) as [ys|]; [|done]. cbn. intros [= <-].
    constructor; [done|]. by apply IH.
Qed.

Section construction.
Context `{PyRuntime}.

Lemma extract_model_data_inv (m : Model) (s s' : Stargazer) (data : md.t) :
  extract_model_data m s = (Ok data, s') →
  s' = s
  ∧ stars_consistent (attr.sig_levels s) data
  ∧ ∃ params info, m = NamedTup params info ∧ md.param_names data = fst <$> rows params.
Proof.
  destruct m as [params info| | |]; cbn; try done. step_method.
  destruct (compute_sig_icons _ _) as [icons|] eqn:Hicons; [|done].
  cbn [md.set_sig_icons md.f_p_value].
  destruct (compute_sig_icon_fstat _ _) as [fstat|] eqn:Hf; [|done].
  intros [= <- <-]. split_and!; [done|by split|by eexists _, _].
Qed.

Lemma append_model_data_run (m : Model) (s : Stargazer) :
  append_model_data m s
  = match extract_model_data m s with
    | (Ok data, s1) =>
        (Ok (), attr.assign (attr.F_model_data (attr.model_data s1 ++ [data])) s1)
    | (Raise e, s1) => (Raise e, s1)
    end.
Proof.
  unfold append_model_data. step_method.
  by destruct (extract_model_data m s) as [[data|e] s1].
Qed.

Lemma extract_loop (i : nat) (l : list Model) (s s' : Stargazer) :
  for_enumerate (λ _, append_model_data) i l s = (Ok (), s') →
  ∃ ds, Forall2 (λ m data, stars_consistent (attr.sig_levels s) data
                           ∧ ∃ params info, m = NamedTup params info
                                ∧ md.param_names data = fst <$> rows params) l ds
        ∧ s' = attr.assign (attr.F_model_data (attr.model_data s ++ ds)) s.
Proof.
  revert i s. induction l as [|m l IH]; intros i s Hrun.
  - rewrite for_enumerate_nil in Hrun. injection Hrun as <-.
    exists []. split; [constructor|].
    by rewrite app_nil_r, assign_model_data_same.
  - rewrite for_enumerate_cons, append_model_data_run in Hrun.
    destruct (extract_model_data m s) as [[data|e] s1] eqn:Hm; [|done].
    apply extract_model_data_inv in Hm as (-> & Hstars & Hkeys).
    apply IH in Hrun as (ds & Hds & ->).
    exists (data :: ds). split.
    + constructor; [done|]. exact Hds.
    + rewrite assign_model_data_twice. cbn. by rewrite <- app_assoc.
Qed.

(** What a successful [extract_data] leaves on the instance. *)
Lemma extract_data_inv (s s' : Stargazer) :
  extract_data s = (Ok (), s') →
  ∃ models ds names table,
    for_each validate_model (attr.models s) = Ok models
    ∧ Forall2 (λ m data, stars_consistent (attr.sig_levels s) data
                         ∧ ∃ params info, m = NamedTup params info
                              ∧ md.param_names data = fst <$> rows params)
              models ds
    ∧ py_sorted_set (mjoin (md.param_names <$> ds)) = Ok names
    ∧ s' = attr.assign (attr.F_first_table_col table)
             (attr.assign (attr.F_param_names names)
                (attr.assign (attr.F_model_data ds)
                   (attr.assign (attr.F_models models) s))).
Proof.
  unfold extract_data. step_method.
  destruct (validate_input s) as [[[]|e] s1] eqn:Hv; [|done].
  apply validate_input_ok in Hv as (models & Hmodels & ->).
  destruct (for_enumerate _ _ _ _) as [[[]|e] s2] eqn:Hloop; [|done].
  apply extract_loop in Hloop as (ds & Hds & ->).
  rewrite assign_model_data_twice.
  cbn [attr.models attr.model_data attr.sig_levels attr.assign app] in *.
  destruct (py_sorted_set _) as [names|e] eqn:Hsort; [|done].
  cbn [attr.models attr.model_data attr.sig_levels attr.assign app] in *.
  intros Hrun. exists models, ds, names.
  destruct models as [|[params0 info0| | |] ?]; try done.
  destruct (mjoin (md.param_names <$> ds)) as [|pars0 ?]; [done|].
  destruct (for_each (metalist_level _ _) _); [|done].
  case_bool_decide; [done|]. injection Hrun as <-.
  eexists. split_and!; done.
Qed.

Lemma new_run (models : models_arg) :
  new models
  = match extract_data (initial (models_of models)) with
    | (Ok _, self) => Ok self
    | (Raise e, _) => Raise e
    end.
Proof. by destruct models. Qed.

(** What a successful construction leaves on the instance. *)
Lemma new_inv (models : models_arg) (self : Stargazer) :
  new models = Ok self →
  ∃ validated ds names table,
    Forall2 (λ m m', validate_model m = Ok m') (models_of models) validated
    ∧ Forall2 (λ m data, stars_consistent (attr.sig_levels (initial [])) data
                         ∧ ∃ params info, m = NamedTup params info
                              ∧ md.param_names data = fst <$> rows params)
              validated ds
    ∧ py_sorted_set (mjoin (md.param_names <$> ds)) = Ok names
    ∧ self = attr.assign (attr.F_first_table_col table)
               (attr.assign (attr.F_param_names names)
                  (attr.assign (attr.F_model_data ds)
                     (attr.assign (attr.F_models validated)
                        (initial (models_of models))))).
Proof.
  rewrite new_run.
  destruct (extract_data _) as [[[]|e] s] eqn:Hrun; [|done]. intros [= ->].
  apply extract_data_inv in Hrun as (validated & ds & names & table & Hv & Hdata & Hsort & ->).
  exists validated, ds, names, table. split_and!; try done.
  by apply for_each_Forall2 in Hv.
Qed.

(** The keys collected from the models' dicts are the keys of the models
    handed to the constructor. *)
Lemma new_keys (models : models_arg) (self : Stargazer) :
  new models = Ok self →
  md.param_names <$> attr.model_data self = model_keys <$> models_of models.
Proof.
  intros (validated & ds & names & table & Hv & Hdata & _ & ->)%new_inv.
  cbn [attr.model_data attr.assign].
  revert ds Hdata. clear names table. revert Hv.
  generalize (models_of models). clear.
  intros ms Hv. induction Hv as [|m m' ms validated Hm Hv IH]; intros ds Hds.
  - by inversion Hds.
  - inversion Hds as [|? data ? ds' [_ (params & info & -> & Hkeys)] Hds']; subst.
    cbn. f_equal; [|by apply IH].
    apply validate_model_keys in Hm as (params' & info' & [= <- <-] & ->). done.
Qed.

(** C3: after a successful construction the union covariate index holds
    exactly the covariate keys of the models, each once, in strictly
    increasing order (strings by code point, tuples lexicographically). *)
Theorem union_covariate_index (models : models_arg) (self : Stargazer) :
  new models = Ok self →
  StronglySorted key_lt (attr.param_names self)
  ∧ NoDup (attr.param_names self)
  ∧ ∀ k, k ∈ attr.param_names self ↔ ∃ m, m ∈ models_of models ∧ k ∈ model_keys m.
Proof.
  intros Hnew. pose proof (new_keys _ _ Hnew) as Hkeys.
  apply new_inv in Hnew as (validated & ds & names & table & _ & _ & Hsort & ->).
  cbn [attr.model_data attr.param_names attr.assign] in *.
  apply py_sorted_set_spec in Hsort as (Hsorted & Hnd & Hin).
  split_and!; [done..|].
  intros k. rewrite Hin, Hkeys, list_elem_of_join. split.
  - intros (keys & Hk & (m & -> & Hm)%list_elem_of_fmap). eauto.
  - intros (m & Hm & Hk). exists (model_keys m). split; [done|].
    apply list_elem_of_fmap. eauto.
Qed.
End construction.

Lemma union_covariate_index_witness :
  new (H := example_runtime) example_models = Ok (example_instance example_models)
  ∧ StronglySorted key_lt (attr.param_names (example_instance example_models))
  ∧ NoDup (attr.param_names (example_instance example_models))
  ∧ ∀ k, k ∈ attr.param_names (example_instance example_models)
         ↔ ∃ m, m ∈ models_of example_models ∧ k ∈ model_keys m.
Proof.
  split; [vm_compute; reflexivity|].
  apply (union_covariate_index (H := example_runtime)).
  vm_compute. reflexivity.
Defined.

Example example_param_names :
  attr.param_names (example_instance example_models) = [KStr "x"; KStr "z"].
Proof. vm_compute. reflexivity. Qed.

(** ** Replacing the thresholds *)

Lemma restar_at_run (i : nat) (data : md.t) (s : Stargazer) :
  restar_at i data s
  = match compute_sig_icons (attr.sig_levels s) (md.p_values data) with
    | Ok icons =>
        let s1 := attr.assign
                    (attr.F_model_data (alter (md.set_sig_icons icons) i (attr.model_data s))) s in
        match compute_sig_icon_fstat (attr.sig_levels s) (md.f_p_value data) with
        | Ok fstat =>
            (Ok (),
             attr.assign
               (attr.F_model_data
                  (alter (md.set_sig_icon_fstat fstat) i
                     (alter (md.set_sig_icons icons) i (attr.model_data s)))) s)
        | Raise e => (Raise e, s1)
        end
    | Raise e => (Raise e, s)
    end.
Proof.
  unfold restar_at, update_model_data. step_method.
  destruct (compute_sig_icons _ _); [|done]. cbn.
  destruct (compute_sig_icon_fstat _ _); [|done].
  by rewrite assign_model_data_twice.
Qed.

Lemma restar_loop (done l : list md.t) (s s' : Stargazer) :
  attr.model_data s = done ++ l →
  for_enumerate restar_at (length done) l s = (Ok (), s') →
  ∃ l', Forall2 (restarred (attr.sig_levels s)) l l'
        ∧ s' = attr.assign (attr.F_model_data (done ++ l')) s.
Proof.
  revert done s. induction l as [|d l IH]; intros done s Hs Hrun.
  - rewrite for_enumerate_nil in Hrun. injection Hrun as <-. exists []. split; [constructor|].
    by rewrite <- Hs, assign_model_data_same.
  - rewrite for_enumerate_cons, restar_at_run in Hrun.
    destruct (compute_sig_icons _ _) as [icons|] eqn:Hicons; [|done].
    destruct (compute_sig_icon_fstat _ _) as [fstat|] eqn:Hf; [|done].
    cbn zeta in Hrun. rewrite Hs in Hrun.
    set (d' := md.set_sig_icon_fstat fstat (md.set_sig_icons icons d)) in *.
    replace (alter (md.set_sig_icon_fstat fstat) (length done)
               (alter (md.set_sig_icons icons) (length done) (done ++ d :: l)))
      with ((done ++ [d']) ++ l) in Hrun.
    2:{ rewrite !alter_app_r_alt, Nat.sub_diag by done. cbn. by rewrite <- app_assoc. }
    replace (S (length done)) with (length (done ++ [d'])) in Hrun
      by (rewrite length_app; cbn; lia).
    apply IH in Hrun as (l' & Hl' & ->); [|done].
    exists (d' :: l'). split.
    + constructor; [|exact Hl']. by split; [split|].
    + rewrite assign_model_data_twice. by rewrite <- app_assoc.
Qed.

(** C7: after a successful call of [significance_levels] the thresholds are
    the given levels in descending order, and every model's dict is the one
    it was with both star entries, of the coefficients and of the F
    statistic, recomputed under the new thresholds. *)
Theorem significance_levels_restars (levels : list pyval) (self self' : Stargazer) :
  significance_levels levels self = (Ok (), self') →
  attr.sig_levels self' = py_sorted_floats_rev (floats_of levels)
  ∧ Forall2 (restarred (attr.sig_levels self'))
            (attr.model_data self) (attr.model_data self').
Proof.
  unfold significance_levels. step_method.
  case_bool_decide; [|done]. cbn.
  intros Hrun. apply (restar_loop []) in Hrun as (l' & Hl' & ->); [|done].
  split; [done|]. exact Hl'.
Qed.

Lemma significance_levels_restars_witness :
  significance_levels example_levels (example_instance example_models)
  = (Ok (), (significance_levels example_levels (example_instance example_models)).2)
  ∧ attr.sig_levels (significance_levels example_levels (example_instance example_models)).2
    = py_sorted_floats_rev (floats_of example_levels)
  ∧ Forall2
      (restarred
         (attr.sig_levels
            (significance_levels example_levels (example_instance example_models)).2))
      (attr.model_data (example_instance example_models))
      (attr.model_data
         (significance_levels example_levels (example_instance example_models)).2).
Proof.
  split; [vm_compute; reflexivity|].
  apply significance_levels_restars. vm_compute. reflexivity.
Defined.

Example significance_levels_example :
  (λ data, (md.sig_icons data, md.sig_icon_fstat data))
    <$> attr.model_data
          (significance_levels example_levels (example_instance example_models)).2
  = [([(KStr "x", Some "**")], "**"); ([(KStr "z", Some ""); (KStr "x", None)], "")].
Proof. vm_compute. reflexivity. Qed.

(** ** Column labels *)

(** C8: [custom_columns] with a list of separators whose sum is not the
    number of models raises an assertion error, and the instance it leaves
    is the one it was given: [column_labels] and [column_separators], like
    every other attribute, are unchanged. *)
Theorem custom_columns_rejects (labels : labels_arg) (separators : list pyval)
    (self : Stargazer) :
  sum_ints (ints_of separators) ≠ Z.of_nat (attr.num_models self) →
  ∃ msg self',
    custom_columns labels (SepList separators) self = (Raise (AssertionError msg), self')
    ∧ attr.column_labels self' = attr.column_labels self
    ∧ attr.column_separators self' = attr.column_separators self
    ∧ self' = self.
Proof.
  intros Hsum. unfold custom_columns.
  destruct labels as [s|l|v]; [by eexists _, _|..|by eexists _, _].
  step_method.
  case_bool_decide; [|by eexists _, _].
  case_bool_decide; [|by eexists _, _].
  rewrite bool_decide_eq_false_2 by done. by eexists _, _.
Qed.

Lemma custom_columns_rejects_witness :
  sum_ints (ints_of [PInt 1; PInt 2]) ≠ Z.of_nat (attr.num_models (example_instance example_models))
  ∧ ∃ msg self',
      custom_columns (LabelList ["a"; "b"]) (SepList [PInt 1; PInt 2])
        (example_instance example_models)
      = (Raise (AssertionError msg), self')
      ∧ attr.column_labels self' = attr.column_labels (example_instance example_models)
      ∧ attr.column_separators self' = attr.column_separators (example_instance example_models)
      ∧ self' = example_instance example_models.
Proof.
  split; [vm_compute; discriminate|].
  apply custom_columns_rejects. vm_compute. discriminate.
Defined.

Lemma ints_of_ints (l : list Z) : ints_of (PInt <$> l) = l.
Proof. unfold ints_of. induction l as [|n l IH]; [done|]. cbn. by rewrite IH. Qed.

Lemma count_failing_ints (l : list Z) : count_failing type_is_int (PInt <$> l) = 0.
Proof. unfold count_failing. induction l as [|n l IH]; [done|]. cbn. by rewrite IH. Qed.

(** A call that passes every check stores both attributes. *)
Lemma custom_columns_accepts (labels : list string) (separators : list Z)
    (self : Stargazer) :
  length labels = length separators →
  sum_ints separators = Z.of_nat (attr.num_models self) →
  custom_columns (LabelList labels) (SepList (PInt <$> separators)) self
  = (Ok (),
     attr.assign (attr.F_column_separators (Some separators))
       (attr.assign (attr.F_column_labels (Some (ManyLabels labels))) self)).
Proof.
  intros Hlen Hsum. unfold custom_columns. step_method.
  rewrite ints_of_ints, count_failing_ints, length_fmap.
  by rewrite !bool_decide_eq_true_2 by done.
Qed.

(** ** The order of the covariates *)

(** C9: [covariate_order] with names among the current ones, followed by
    [reset_covariate_order], returns and brings the row order back to what
    it was before the two calls; the table of collapsed index levels, and
    every attribute but the remembered order, is untouched throughout. *)
Theorem covariate_order_then_reset (names : list Key) (self : Stargazer) :
  (list_to_set names : gset Key) ⊆ list_to_set (attr.param_names self) →
  ∃ self',
    (covariate_order names ;; reset_covariate_order) self = (Ok (), self')
    ∧ attr.param_names self' = attr.param_names self
    ∧ attr.first_table_col self' = attr.first_table_col self
    ∧ self' = attr.assign (attr.F_original_param_names (Some (attr.param_names self))) self.
Proof.
  intros Hsub. unfold covariate_order, reset_covariate_order. step_method.
  rewrite bool_decide_eq_true_2 by set_solver. cbn.
  eexists. split; [reflexivity|]. by destruct self.
Qed.

Lemma covariate_order_then_reset_witness :
  (list_to_set [KStr "z"; KStr "x"] : gset Key)
    ⊆ list_to_set (attr.param_names (example_instance example_models))
  ∧ ∃ self',
      (covariate_order [KStr "z"; KStr "x"] ;; reset_covariate_order)
        (example_instance example_models) = (Ok (), self')
      ∧ attr.param_names self' = attr.param_names (example_instance example_models)
      ∧ attr.first_table_col self' = attr.first_table_col (example_instance example_models)
      ∧ self' = attr.assign
                  (attr.F_original_param_names
                     (Some (attr.param_names (example_instance example_models))))
                  (example_instance example_models).
Proof.
  assert ((list_to_set [KStr "z"; KStr "x"] : gset Key)
            ⊆ list_to_set (attr.param_names (example_instance example_models))) as Hsub.
  { change (attr.param_names (example_instance example_models)) with [KStr "x"; KStr "z"].
    set_solver. }
  split; [exact Hsub|].
  apply covariate_order_then_reset. exact Hsub.
Defined.

(** In between the two calls the rows are in the order asked for. *)
Lemma covariate_order_applies (names : list Key) (self : Stargazer) :
  (list_to_set names : gset Key) ⊆ list_to_set (attr.param_names self) →
  covariate_order names self
  = (Ok (),
     attr.assign (attr.F_param_names names)
       (attr.assign (attr.F_original_param_names (Some (attr.param_names self))) self)).
Proof.
  intros Hsub. unfold covariate_order. step_method.
  by rewrite bool_decide_eq_true_2 by set_solver.
Qed.

(** X3: [covariate_order] refuses a list that holds a name which is not a
    current covariate: it raises an [AssertionError] and nothing is
    assigned. *)
Lemma covariate_order_rejects (names : list Key) (self : Stargazer) (k : Key) :
  k ∈ names → k ∉ attr.param_names self →
  ∃ msg, covariate_order names self = (Raise (AssertionError msg), self).
Proof.
  intros Hin Hnin. unfold covariate_order. step_method.
  rewrite bool_decide_eq_false_2; [by eexists|].
  intros Hempty. assert (k ∈ (∅ : gset Key)) as Hk; [|set_solver].
  rewrite <- Hempty. set_solver.
Qed.



(** ** One model or a list of one model *)

Section single_model.
Context `{PyRuntime}.

Lemma new_num_models (models : models_arg) (self : Stargazer) :
  new models = Ok self → attr.num_models self = length (models_of models).
Proof.
  intros (validated & ds & names & table & _ & _ & _ & ->)%new_inv.
  reflexivity.
Qed.

Lemma new_one_model (m : Model) : new (OneModel m) = new (ModelList [m]).
Proof. rewrite !new_run. cbn [models_of]. reflexivity. Qed.
(** C10: a constructor handed one model does what it does when handed
    the list of that one model: the same exception or the same instance,
    hence the same normalised data and the same output of both render
    operations; and the instance counts one model. *)
Theorem single_model_as_list (m : Model) :
  new (OneModel m) = new (ModelList [m])
  ∧ attr.num_models <$> new (OneModel m) = (λ _, 1%nat) <$> new (OneModel m)
  ∧ attr.model_data <$> new (OneModel m) = attr.model_data <$> new (ModelList [m])
  ∧ attr.param_names <$> new (OneModel m) = attr.param_names <$> new (ModelList [m])
  ∧ attr.first_table_col <$> new (OneModel m)
    = attr.first_table_col <$> new (ModelList [m])
  ∧ (new (OneModel m) ≫= render_html) = (new (ModelList [m]) ≫= render_html)
  ∧ ∀ only_tabular,
      (new (OneModel m) ≫= λ self, render_latex self only_tabular)
      = (new (ModelList [m]) ≫= λ self, render_latex self only_tabular).
Proof.
  pose proof (new_one_model m) as Heq.
  split_and!; try (rewrite Heq; reflexivity).
  destruct (new (OneModel m)) as [self|e] eqn:Hnew; [|reflexivity].
  cbn. f_equal. apply (new_num_models _ _ Hnew).
Qed.
End single_model.

Example single_model_example :
  attr.num_models <$> new (H := example_runtime) (OneModel (example_model (Some (dec 2 100)) []))
  = Ok 1%nat.
Proof. vm_compute. reflexivity. Qed.



(** ** The setters that the instance hides *)

(** C5 (the code departs from it): on an instance, [show_header] and
    [model_name] name the attributes that [__init__] bound, not the
    setters, so that calling either raises a type error and changes
    nothing; and the function [show_header] of the class, were it reached,
    assigns [header], which no renderer reads, and leaves [show_header] as
    it was. *)
Theorem hidden_setters (v : pyval) (b : bool) (self : Stargazer) :
  call "show_header" show_header v self = (Raise (TypeError "object is not callable"), self)
  ∧ call "model_name" model_name v self = (Raise (TypeError "object is not callable"), self)
  ∧ show_header (PBool b) self = (Ok (), attr.assign (attr.F_header (Some b)) self)
  ∧ attr.show_header (attr.assign (attr.F_header (Some b)) self) = attr.show_header self
  ∧ generate_header_html (attr.assign (attr.F_header (Some b)) self)
    = generate_header_html self
  ∧ ∀ only_tabular,
      generate_header_latex (attr.assign (attr.F_header (Some b)) self) only_tabular
      = generate_header_latex self only_tabular.
Proof. destruct self. split_and!; reflexivity. Qed.

(** The setters whose name no attribute shares go through. *)
Lemma visible_setters (b : bool) (self : Stargazer) :
  call "show_model_numbers" show_model_numbers (PBool b) self
  = (Ok (), attr.assign (attr.F_show_model_nums b) self)
  ∧ call "show_confidence_intervals" show_confidence_intervals (PBool b) self
    = (Ok (), attr.assign (attr.F_confidence_intervals b) self)
  ∧ call "show_degrees_of_freedom" show_degrees_of_freedom (PBool b) self
    = (Ok (), attr.assign (attr.F_show_dof b) self)
  ∧ call "append_notes" append_notes (PBool b) self
    = (Ok (), attr.assign (attr.F_notes_append b) self).
Proof. split_and!; reflexivity. Qed.

(** ** The rows of the footer *)

Section footer.
Context `{PyRuntime}.

(** C4 (the code departs from it): the rows of the adjusted R2, of the
    residual standard error and of the F statistic are all written under
    the test of [show_r2]: with [show_r2] off the three are empty in both
    encodings whatever their own flags say, and [show_adj_r2] is read
    nowhere, so that setting it changes neither footer. *)
Theorem footer_rows_gated_by_show_r2 (b : bool) (only_tabular : bool) (self : Stargazer) :
  generate_r2_adj_html (attr.assign (attr.F_show_r2 false) self) = ""
  ∧ generate_resid_std_err_html (attr.assign (attr.F_show_r2 false) self) = ""
  ∧ generate_f_statistic_html (attr.assign (attr.F_show_r2 false) self) = ""
  ∧ generate_r2_adj_latex (attr.assign (attr.F_show_r2 false) self) = ""
  ∧ generate_resid_std_err_latex (attr.assign (attr.F_show_r2 false) self) = ""
  ∧ generate_f_statistic_latex (attr.assign (attr.F_show_r2 false) self) = ""
  ∧ generate_footer_html (attr.assign (attr.F_show_adj_r2 b) self)
    = generate_footer_html self
  ∧ generate_footer_latex (attr.assign (attr.F_show_adj_r2 b) self) only_tabular
    = generate_footer_latex self only_tabular.
Proof. destruct self. split_and!; reflexivity. Qed.

(** The rows that do obey their own flag: the observations follow
    [show_n] and the R2 follows [show_r2]. *)
Lemma footer_rows_own_flag (self : Stargazer) :
  generate_observations_html (attr.assign (attr.F_show_n false) self) = ""
  ∧ generate_observations_latex (attr.assign (attr.F_show_n false) self) = ""
  ∧ generate_r2_html (attr.assign (attr.F_show_r2 false) self) = ""
  ∧ generate_r2_latex (attr.assign (attr.F_show_r2 false) self) = "".
Proof. destruct self. split_and!; reflexivity. Qed.
End footer.

(** With the defaults but [show_r2] off, the footer of the example keeps
    the observations and loses the adjusted R2 and the F statistic along
    with the R2. *)
Example footer_without_r2 :
  generate_footer_html (H := example_runtime)
    (attr.assign (attr.F_show_notes false)
       (attr.assign (attr.F_show_r2 false)
          (example_instance (OneModel (example_model (Some (dec 2 100))
                                         [("fvalue", Some (dec 7 1))])))))
  = Ok ("<td colspan=" ++ dq ++ "2" ++ dq ++ " style=" ++ dq
          ++ "border-bottom: 1px solid black" ++ dq ++ "></td></tr>"
          ++ "<tr><td style=" ++ dq ++ "text-align: left" ++ dq
          ++ ">Observations</td><td>  </td></tr>"
          ++ "<tr><td colspan=" ++ dq ++ "2" ++ dq ++ " style=" ++ dq
          ++ "border-bottom: 1px solid black" ++ dq ++ "></td></tr></table>")%string.
Proof. vm_compute. reflexivity. Qed.


(** ** The degrees of freedom of the F statistic *)

Lemma string_app_empty (s : string) : (s ++ "")%string = s.
Proof.
  induction s as [|c s IH]; [done|].
  change (String c (s ++ "")%string = String c s). by rewrite IH.
Qed.

Lemma string_app_assoc (a b c : string) : ((a ++ b) ++ c)%string = (a ++ (b ++ c))%string.
Proof.
  induction a as [|x a IH]; [done|].
  change (String x ((a ++ b) ++ c)%string = String x (a ++ (b ++ c))%string). by rewrite IH.
Qed.

Lemma str_mul_one (s : string) : str_mul s 1 = s.
Proof. change (str_mul s 1) with (s ++ "")%string. apply string_app_empty. Qed.

Lemma str_mul_zero (s : string) : str_mul s 0 = "".
Proof. reflexivity. Qed.

Section degrees_of_freedom.
Context `{PyRuntime}.

(** The text that the arithmetic on [ind_df], [ind_dfr] and their minimum
    produces. *)
Lemma f_dof_text_cases (data : md.t) :
  f_dof_text data = dof_annotation (md.degree_freedom data) (md.degree_freedom_resid data).
Proof.
  unfold f_dof_text, dof_annotation.
  destruct (md.degree_freedom data) as [df|], (md.degree_freedom_resid data) as [dfr|];
    cbn [isnan min_bool int_of_bool];
    repeat (rewrite bool_decide_eq_true_2 by done);
    repeat (rewrite bool_decide_eq_false_2 by done);
    cbn [int_of_bool];
    change (1 - 0) with 1; change (1 - 1) with 0;
    rewrite ?str_mul_one, ?str_mul_zero; reflexivity.
Qed.

(** C6 (as amended): with [show_dof] set and the F statistic of a model
    defined, its cell ends, in both encodings, with the annotation
    [dof_annotation]: empty only when both degrees of freedom are
    undefined, and otherwise written from [(df = ] to [)] with an
    undefined value left blank. *)
Theorem f_statistic_dof_annotation (self : Stargazer) (data : md.t) :
  attr.show_dof self = true →
  isnan (md.f_statistic data) = false →
  f_cell_html self data
  = ("<td>" ++ str_float (np_round (md.f_statistic data) (attr.sig_digits self))
       ++ "<sup>" ++ md.sig_icon_fstat data ++ "</sup>"
       ++ dof_annotation (md.degree_freedom data) (md.degree_freedom_resid data))%string
  ∧ f_cell_latex self data
    = ("& " ++ str_float (np_round (md.f_statistic data) (attr.sig_digits self))
         ++ "$^{" ++ md.sig_icon_fstat data ++ "}$ "
         ++ dof_annotation (md.degree_freedom data) (md.degree_freedom_resid data))%string
  ∧ (dof_annotation (md.degree_freedom data) (md.degree_freedom_resid data) = ""
     ↔ isnan (md.degree_freedom data) = true ∧ isnan (md.degree_freedom_resid data) = true).
Proof.
  intros Hdof Hf. unfold f_cell_html, f_cell_latex.
  rewrite Hdof, Hf, f_dof_text_cases. split_and!.
  - by rewrite !string_app_assoc.
  - by rewrite !string_app_assoc.
  - unfold dof_annotation.
    destruct (md.degree_freedom data), (md.degree_freedom_resid data); cbn; naive_solver.
Qed.
End degrees_of_freedom.

Lemma f_statistic_dof_annotation_witness :
  attr.show_dof example_dof_instance = true
  ∧ isnan (md.f_statistic example_dof_data) = false
  ∧ @f_cell_html example_runtime example_dof_instance example_dof_data
    = ("<td>"
         ++ @str_float example_runtime
              (@np_round example_runtime (md.f_statistic example_dof_data)
                 (attr.sig_digits example_dof_instance))
         ++ "<sup>" ++ md.sig_icon_fstat example_dof_data ++ "</sup>"
         ++ @dof_annotation example_runtime (md.degree_freedom example_dof_data)
              (md.degree_freedom_resid example_dof_data))%string
  ∧ @f_cell_latex example_runtime example_dof_instance example_dof_data
    = ("& "
         ++ @str_float example_runtime
              (@np_round example_runtime (md.f_statistic example_dof_data)
                 (attr.sig_digits example_dof_instance))
         ++ "$^{" ++ md.sig_icon_fstat example_dof_data ++ "}$ "
         ++ @dof_annotation example_runtime (md.degree_freedom example_dof_data)
              (md.degree_freedom_resid example_dof_data))%string
  ∧ (@dof_annotation example_runtime (md.degree_freedom example_dof_data)
       (md.degree_freedom_resid example_dof_data) = ""
     ↔ isnan (md.degree_freedom example_dof_data) = true
       ∧ isnan (md.degree_freedom_resid example_dof_data) = true).
Proof.
  split; [reflexivity|]. split; [reflexivity|].
  apply (@f_statistic_dof_annotation example_runtime); reflexivity.
Defined.

(** C6, as the specification words it, fails: a model whose F statistic is
    defined and whose model degrees of freedom are undefined, while its
    residual degrees of freedom are 10, has its annotation written in both
    encodings, with the undefined value left blank. *)
Lemma dof_annotation_counterexample :
  attr.show_dof example_dof_instance = true
  ∧ isnan (md.f_statistic example_dof_data) = false
  ∧ isnan (md.degree_freedom example_dof_data) = true
  ∧ f_cell_html (H := example_runtime) example_dof_instance example_dof_data
    = "<td>7/1<sup></sup>(df = ; 10/1)"
  ∧ f_cell_latex (H := example_runtime) example_dof_instance example_dof_data
    = "& 7/1$^{}$ (df = ; 10/1)"
  ∧ f_dof_text (H := example_runtime) example_dof_data ≠ "".
Proof. split_and!; try (vm_compute; reflexivity). vm_compute. discriminate. Qed.

(** * Further properties *)

(** ** Which thresholds the binning accepts *)

Lemma sorted_nondecreasing (l : list Qc) : nondecreasing l = true → StronglySorted Qcle l.
Proof.
  intros Hl. apply (Sorted_StronglySorted _).
  induction l as [|x l IH]; [constructor|].
  destruct l as [|y l]; [repeat constructor|].
  change (bool_decide (x ≤ y)%Qc && nondecreasing (y :: l) = true) in Hl.
  apply andb_true_iff in Hl as [Hxy Hl]. apply bool_decide_eq_true in Hxy.
  constructor; [by apply IH|]. by constructor.
Qed.

(** Edges that increase and do not repeat leave the thresholds strictly
    between the sentinels and pairwise different. *)
Lemma sig_bins_valid (T : list Qc) :
  nondecreasing (sig_bins T) = true → NoDup (sig_bins T) → valid_thresholds T.
Proof.
  intros Hs%sorted_nondecreasing Hnd. unfold sig_bins in *.
  apply NoDup_app in Hnd as (_ & Hlo & Hnd).
  apply NoDup_app in Hnd as (Hnd & Hhi & _).
  apply StronglySorted_app in Hs as (Hle1 & _ & Hs).
  apply StronglySorted_app in Hs as (Hle2 & _ & _).
  split.
  - by rewrite <- (py_sorted_floats_perm T).
  - rewrite <- (py_sorted_floats_perm T). apply Forall_forall. intros t Ht. split.
    + assert (dec (-1) 1 ≤ t)%Qc as [?|Heq]%Qcle_lt_or_eq
        by (apply Hle1; set_solver); [done|].
      exfalso. apply (Hlo (dec (-1) 1)); [set_solver|]. rewrite Heq. set_solver.
    + assert (t ≤ dec 2 1)%Qc as [?|Heq]%Qcle_lt_or_eq
        by (apply Hle2; set_solver); [done|].
      exfalso. apply (Hhi t Ht). rewrite Heq. set_solver.
Qed.

Lemma compute_sig_icons_invalid (T : list Qc) (p_values : Series float) :
  ¬ valid_thresholds T → ∃ msg, compute_sig_icons T p_values = Raise (ValueError msg).
Proof.
  intros Hinvalid. unfold compute_sig_icons, pd_cut.
  destruct (nondecreasing (sig_bins T)) eqn:Hs; [|by eexists].
  cbn [negb]. case_bool_decide as Hnd.
  - destruct Hinvalid. by apply sig_bins_valid.
  - cbn [negb andb]. case_bool_decide as Hlen; [|by eexists].
    exfalso. apply Hnd. unfold sig_bins in *. rewrite !length_app in Hlen. cbn in Hlen.
    destruct (py_sorted_floats T); [|cbn in Hlen; lia].
    apply (bool_decide_unpack _). vm_compute. exact I.
Qed.

(** X4: [pd.cut] accepts the bin edges built from the thresholds exactly
    when the thresholds are pairwise different and lie strictly between the
    sentinels -1 and 2; otherwise it raises a [ValueError]. *)
Theorem thresholds_accepted_iff_valid (T : list Qc) (p_values : Series float) :
  ((∃ icons, compute_sig_icons T p_values = Ok icons) ↔ valid_thresholds T)
  ∧ (¬ valid_thresholds T → ∃ msg, compute_sig_icons T p_values = Raise (ValueError msg)).
Proof.
  split; [|apply compute_sig_icons_invalid]. split.
  - intros [icons Hok]. destruct (decide (valid_thresholds T)) as [|Hinvalid]; [done|].
    apply (compute_sig_icons_invalid _ p_values) in Hinvalid as [msg Hmsg]. congruence.
  - intros HT. eexists. by apply compute_sig_icons_ok.
Qed.

(** ** How the stars vary with the p-value *)

Lemma count_below_mono (T : list Qc) (p q : Qc) :
  (p ≤ q)%Qc → (count_below T p ≤ count_below T q)%nat.
Proof.
  intros Hpq. unfold count_below. induction T as [|t T IH]; [done|].
  rewrite !filter_cons. destruct (decide (t < p)%Qc) as [Hlt|Hlt].
  - rewrite decide_True by by eapply Qclt_le_trans. cbn. lia.
  - destruct (decide (t < q)%Qc); cbn; lia.
Qed.

(** X5: the smaller the p-value, the more stars: for valid thresholds and
    two p-values [p <= q] in (-1, 2], the coefficient with p-value [p] is
    given at least as many stars as the one with p-value [q], and never
    more than there are thresholds. *)
Theorem coefficient_stars_monotone (T : list Qc) (p q : Qc) :
  valid_thresholds T →
  (dec (-1) 1 < p)%Qc → (p ≤ q)%Qc → (q ≤ dec 2 1)%Qc →
  ∃ a b : nat,
    pd_cut_one (sig_bins T) (star_labels T) (Some p) = Some (stars a)
    ∧ pd_cut_one (sig_bins T) (star_labels T) (Some q) = Some (stars b)
    ∧ (b ≤ a)%nat ∧ (a ≤ length T)%nat.
Proof.
  intros HT Hlo Hpq Hhi.
  exists (length T - count_below T p)%nat, (length T - count_below T q)%nat.
  pose proof (count_below_mono T p q Hpq).
  split_and!; [| |lia..].
  - apply (pd_cut_one_stars _ HT); [done|]. by etrans.
  - apply (pd_cut_one_stars _ HT); [|done]. by eapply Qclt_le_trans.
Qed.

Lemma coefficient_stars_monotone_witness :
  valid_thresholds example_thresholds
  ∧ ∃ a b : nat,
      pd_cut_one (sig_bins example_thresholds) (star_labels example_thresholds)
        (Some (dec 2 100)) = Some (stars a)
      ∧ pd_cut_one (sig_bins example_thresholds) (star_labels example_thresholds)
          (Some (dec 7 100)) = Some (stars b)
      ∧ (b ≤ a)%nat ∧ (a ≤ length example_thresholds)%nat.
Proof.
  split; [exact example_thresholds_valid|].
  apply coefficient_stars_monotone.
  - exact example_thresholds_valid.
  - reflexivity.
  - vm_compute. discriminate.
  - vm_compute. discriminate.
Defined.

(** X6: a p-value that is NaN, at most -1 or above 2 falls in no bin: the
    coefficient is given the NaN label, which is printed as [nan] between
    the superscript tags. *)
Theorem coefficient_stars_out_of_range (T : list Qc) (x : float) :
  valid_thresholds T →
  match x with
  | None => True
  | Some p => (p ≤ dec (-1) 1)%Qc ∨ (dec 2 1 < p)%Qc
  end →
  pd_cut_one (sig_bins T) (star_labels T) x = None
  ∧ str_icon (pd_cut_one (sig_bins T) (star_labels T) x) = "nan".
Proof.
  intros HT Hx. assert (pd_cut_one (sig_bins T) (star_labels T) x = None) as ->; [|done].
  destruct x as [p|]; [|done]. unfold pd_cut_one.
  rewrite (searchsorted_left_count _ _ (sig_bins_sorted T HT)).
  destruct Hx as [Hlo|Hhi].
  - assert (count_below (sig_bins T) p = O) as ->; [|done].
    apply filter_none_length, Forall_forall. intros b Hb Hbp.
    pose proof (sig_bins_sorted T HT) as Hs. unfold sig_bins in Hs, Hb.
    apply StronglySorted_app in Hs as (Hle & _ & _).
    apply elem_of_app in Hb as [->%list_elem_of_singleton|Hb].
    + by apply Qcle_not_lt in Hlo.
    + assert (dec (-1) 1 ≤ b)%Qc by (apply Hle; set_solver).
      apply (Qcle_not_lt p (dec (-1) 1)); [done|]. by eapply Qcle_lt_trans.
  - assert (count_below (sig_bins T) p = length (sig_bins T)) as ->.
    { apply filter_all_length, Forall_forall. intros b Hb.
      pose proof (sig_bins_sorted T HT) as Hs. unfold sig_bins in Hs, Hb.
      rewrite app_assoc in Hs, Hb.
      apply StronglySorted_app in Hs as (Hle & _ & _).
      apply elem_of_app in Hb as [Hb| ->%list_elem_of_singleton]; [|done].
      eapply Qcle_lt_trans; [|exact Hhi]. apply Hle; set_solver. }
    rewrite (bool_decide_eq_true_2 (_ = length _)) by done. by rewrite orb_true_r.
Qed.

Lemma coefficient_stars_out_of_range_witness :
  valid_thresholds example_thresholds
  ∧ True
  ∧ pd_cut_one (sig_bins example_thresholds) (star_labels example_thresholds) None = None
  ∧ str_icon (pd_cut_one (sig_bins example_thresholds) (star_labels example_thresholds) None)
    = "nan".
Proof.
  split; [exact example_thresholds_valid|]. split; [exact I|].
  apply (coefficient_stars_out_of_range example_thresholds None).
  - exact example_thresholds_valid.
  - exact I.
Defined.

(** X7: an F statistic whose p-value is 2 or more is given no star, and one
    whose p-value is below -1 is given one star more than there are
    thresholds. *)
Theorem fstat_stars_out_of_range (T : list Qc) (p : Qc) :
  valid_thresholds T →
  ((dec 2 1 ≤ p)%Qc → compute_sig_icon_fstat T (Some p) = Ok "")
  ∧ ((p < dec (-1) 1)%Qc → compute_sig_icon_fstat T (Some p) = Ok (stars (S (length T)))).
Proof.
  intros HT. unfold compute_sig_icon_fstat.
  rewrite (np_digitize_bins _ HT), (searchsorted_right_count _ _ (sig_bins_sorted T HT)).
  pose proof (sig_bins_sorted T HT) as Hs. split.
  - intros Hhi.
    assert (count_not_above (sig_bins T) p = length (sig_bins T)) as ->.
    { apply filter_all_length, Forall_forall. intros b Hb.
      unfold sig_bins in Hs, Hb. rewrite app_assoc in Hs, Hb.
      apply StronglySorted_app in Hs as (Hle & _ & _).
      apply elem_of_app in Hb as [Hb| ->%list_elem_of_singleton]; [|done].
      etrans; [|exact Hhi]. apply Hle; set_solver. }
    rewrite (sig_bins_length T). cbn. f_equal. unfold str_mul.
    replace (Z.to_nat _) with O by lia. done.
  - intros Hlo.
    assert (count_not_above (sig_bins T) p = O) as ->.
    { apply filter_none_length, Forall_forall. intros b Hb Hbp.
      unfold sig_bins in Hs, Hb.
      apply StronglySorted_app in Hs as (Hle & _ & _).
      apply elem_of_app in Hb as [->%list_elem_of_singleton|Hb].
      - by apply Qclt_not_le in Hlo.
      - assert (dec (-1) 1 ≤ b)%Qc by (apply Hle; set_solver).
        apply (Qclt_not_le p (dec (-1) 1)); [done|]. by etrans. }
    cbn. f_equal. unfold str_mul, stars.
    change (replicate_str (Z.to_nat (1 - 0)) "*") with "*".
    transitivity (replicate_str (S (length T)) "*"); [|reflexivity].
    f_equal. lia.
Qed.

Lemma fstat_stars_out_of_range_witness :
  valid_thresholds example_thresholds
  ∧ (dec 2 1 ≤ dec 3 1)%Qc
  ∧ compute_sig_icon_fstat example_thresholds (Some (dec 3 1)) = Ok ""
  ∧ (dec (-2) 1 < dec (-1) 1)%Qc
  ∧ compute_sig_icon_fstat example_thresholds (Some (dec (-2) 1))
    = Ok (stars (S (length example_thresholds))).
Proof.
  assert (dec 2 1 ≤ dec 3 1)%Qc as Hhi by (vm_compute; discriminate).
  assert (dec (-2) 1 < dec (-1) 1)%Qc as Hlo by reflexivity.
  split; [exact example_thresholds_valid|]. split; [exact Hhi|].
  split;
    [exact (proj1 (fstat_stars_out_of_range _ (dec 3 1) example_thresholds_valid) Hhi)|].
  split; [exact Hlo|].
  exact (proj2 (fstat_stars_out_of_range _ (dec (-2) 1) example_thresholds_valid) Hlo).
Defined.

Lemma fstat_stars_off_thresholds_witness :
  valid_thresholds example_thresholds
  ∧ (dec 2 100 ∉ example_thresholds)
  ∧ compute_sig_icon_fstat example_thresholds (Some (dec 2 100))
    = Ok (stars (length example_thresholds - count_below example_thresholds (dec 2 100)))
  ∧ pd_cut_one (sig_bins example_thresholds) (star_labels example_thresholds)
      (Some (dec 2 100))
    = Some (stars (length example_thresholds - count_below example_thresholds (dec 2 100))).
Proof.
  assert (dec 2 100 ∉ example_thresholds) as Hnin.
  { apply (bool_decide_unpack _). vm_compute. exact I. }
  split; [exact example_thresholds_valid|]. split; [exact Hnin|].
  apply fstat_stars_off_thresholds.
  - exact example_thresholds_valid.
  - reflexivity.
  - reflexivity.
  - exact Hnin.
Defined.

Lemma fstat_stars_on_threshold_witness :
  valid_thresholds example_thresholds
  ∧ (dec 5 100 ∈ example_thresholds)
  ∧ compute_sig_icon_fstat example_thresholds (Some (dec 5 100))
    = Ok (stars (length example_thresholds - count_below example_thresholds (dec 5 100) - 1))
  ∧ pd_cut_one (sig_bins example_thresholds) (star_labels example_thresholds)
      (Some (dec 5 100))
    = Some (stars (length example_thresholds - count_below example_thresholds (dec 5 100))).
Proof.
  assert (dec 5 100 ∈ example_thresholds) as Hin.
  { apply (bool_decide_unpack _). vm_compute. exact I. }
  split; [exact example_thresholds_valid|]. split; [exact Hin|].
  apply fstat_stars_on_threshold.
  - exact example_thresholds_valid.
  - exact Hin.
Defined.

(** ** The constructor, forwards *)

Lemma default_sig_levels_valid : valid_thresholds default_sig_levels.
Proof.
  split.
  - apply (bool_decide_unpack _). vm_compute. exact I.
  - repeat constructor.
Qed.

Lemma for_each_cons {A B} (f : A → result B) (x : A) (l : list A) :
  for_each f (x :: l)
  = match f x with
    | Ok y => match for_each f l with Ok ys => Ok (y :: ys) | Raise e => Raise e end
    | Raise e => Raise e
    end.
Proof. cbn. by destruct (f x). Qed.

Lemma validate_loop_ok (done l l' : list Model) (s : Stargazer) :
  attr.models s = done ++ l →
  for_each validate_model l = Ok l' →
  for_enumerate validate_at (length done) l s
  = (Ok (), attr.assign (attr.F_models (done ++ l')) s).
Proof.
  revert done l' s. induction l as [|m l IH]; intros done l' s Hs Hl.
  - injection Hl as <-. rewrite for_enumerate_nil, <- Hs. by rewrite assign_models_same.
  - rewrite for_each_cons in Hl. rewrite for_enumerate_cons, validate_at_run.
    destruct (validate_model m) as [tup|] eqn:Hm; [|done].
    destruct (for_each validate_model l) as [l0|] eqn:Hl0; [|done]. injection Hl as <-.
    rewrite Hs.
    replace (<[length done := tup]> (done ++ m :: l)) with ((done ++ [tup]) ++ l).
    2:{ rewrite insert_app_r_alt, Nat.sub_diag by done. cbn. by rewrite <- app_assoc. }
    replace (S (length done)) with (length (done ++ [tup]))
      by (rewrite length_app; cbn; lia).
    rewrite (IH _ l0) by done. rewrite assign_models_twice. by rewrite <- app_assoc.
Qed.

Lemma validate_loop_raise (i : nat) (l : list Model) (e : exn) (s : Stargazer) :
  for_each validate_model l = Raise e →
  ∃ s', for_enumerate validate_at i l s = (Raise e, s').
Proof.
  revert i s. induction l as [|m l IH]; intros i s Hl; [done|].
  rewrite for_each_cons in Hl. rewrite for_enumerate_cons, validate_at_run.
  destruct (validate_model m) as [tup|e'] eqn:Hm.
  - destruct (for_each validate_model l) as [l0|e'] eqn:Hl0; [done|]. injection Hl as ->.
    by apply IH.
  - injection Hl as ->. by eexists.
Qed.

Lemma validate_input_run_ok (validated : list Model) (s : Stargazer) :
  for_each validate_model (attr.models s) = Ok validated →
  validate_input s = (Ok (), attr.assign (attr.F_models validated) s).
Proof.
  intros Hv. unfold validate_input. step_method.
  by apply (validate_loop_ok [] _ validated).
Qed.

Lemma validate_input_raise (e : exn) (s : Stargazer) :
  for_each validate_model (attr.models s) = Raise e →
  ∃ s', validate_input s = (Raise e, s').
Proof. intros Hv. unfold validate_input. step_method. by apply validate_loop_raise. Qed.

(** What validation turns a list of models into: namedtuples over the same
    covariates and index levels. *)
Lemma validated_models (l l' : list Model) :
  for_each validate_model l = Ok l' →
  Forall (λ m, ∃ params info, m = NamedTup params info) l'
  ∧ model_keys <$> l' = model_keys <$> l
  ∧ model_nlevels <$> l' = model_nlevels <$> l.
Proof.
  revert l'. induction l as [|m l IH]; intros l' Hl.
  - injection Hl as <-. by split_and!.
  - rewrite for_each_cons in Hl.
    destruct (validate_model m) as [tup|] eqn:Hm; [|done].
    destruct (for_each validate_model l) as [l0|] eqn:Hl0; [|done]. injection Hl as <-.
    destruct (IH _ eq_refl) as (Hall & Hkeys & Hlev).
    assert (∃ params info, tup = NamedTup params info
            ∧ model_keys m = model_keys tup ∧ model_nlevels m = model_nlevels tup)
      as (params & info & -> & Hk & Hn).
    { destruct m as [p i|[p|] [i|]|sm|]; cbn in Hm; try done;
        injection Hm as <-; by eexists _, _. }
    split_and!.
    + constructor; [by eexists _, _|done].
    + cbn [fmap list_fmap]. by rewrite Hk, <- Hkeys.
    + cbn [fmap list_fmap]. by rewrite Hn, <- Hlev.
Qed.

Lemma compute_sig_icons_index (T : list Qc) (p_values : Series float)
    (icons : Series (option string)) :
  compute_sig_icons T p_values = Ok icons → icons.*1 = p_values.*1.
Proof.
  unfold compute_sig_icons, pd_cut. repeat case_match; try done. intros [= <-].
  rewrite <- list_fmap_compose. by apply list_fmap_ext.
Qed.

Section construction_forwards.
Context `{PyRuntime}.

Lemma extract_model_data_aligned (m : Model) (s s' : Stargazer) (data : md.t) :
  extract_model_data m s = (Ok data, s') → aligned data.
Proof.
  destruct m as [params info| | |]; cbn; try done. step_method.
  destruct (compute_sig_icons _ _) as [icons|] eqn:Hicons; [|done].
  cbn [md.set_sig_icons md.f_p_value].
  destruct (compute_sig_icon_fstat _ _) as [fstat|]; [|done].
  intros [= <- <-]. apply compute_sig_icons_index in Hicons. cbn in Hicons.
  unfold aligned. cbn. rewrite Hicons, <- !list_fmap_compose.
  split_and!; by apply list_fmap_ext.
Qed.

Lemma extract_loop_ok (i : nat) (l : list Model) (s : Stargazer) :
  valid_thresholds (attr.sig_levels s) →
  Forall (λ m, ∃ params info, m = NamedTup params info) l →
  ∃ ds,
    for_enumerate (λ _, append_model_data) i l s
    = (Ok (), attr.assign (attr.F_model_data (attr.model_data s ++ ds)) s)
    ∧ md.param_names <$> ds = model_keys <$> l
    ∧ Forall (stars_consistent (attr.sig_levels s)) ds
    ∧ Forall aligned ds.
Proof.
  intros HT Hl. revert i s HT. induction Hl as [|m l (params & info & ->) Hl IH]; intros i s HT.
  - exists []. rewrite for_enumerate_nil, app_nil_r, assign_model_data_same. by split_and!.
  - destruct (extract_model_data_ok s params info HT) as (data & Hrun & Hi & Hf & _).
    pose proof (extract_model_data_aligned _ _ _ _ Hrun) as Haligned.
    pose proof (extract_model_data_inv _ _ _ _ Hrun) as (_ & _ & p' & i' & [= <- <-] & Hkeys).
    rewrite for_enumerate_cons, append_model_data_run, Hrun.
    destruct (IH (S i) (attr.assign (attr.F_model_data (attr.model_data s ++ [data])) s))
      as (ds & -> & Hk & Hstars & Hal); [by destruct s|].
    exists (data :: ds). split_and!.
    + rewrite assign_model_data_twice. cbn [attr.model_data attr.assign].
      by rewrite <- app_assoc.
    + cbn [fmap list_fmap model_keys]. by rewrite Hkeys, <- Hk.
    + constructor; [by split|]. by destruct s.
    + by constructor.
Qed.

(** [extract_data] in closed form, once the models validate and the
    thresholds are accepted. *)
Lemma extract_data_run (validated : list Model) (s : Stargazer) :
  valid_thresholds (attr.sig_levels s) →
  for_each validate_model (attr.models s) = Ok validated →
  ∃ ds,
    md.param_names <$> ds = model_keys <$> validated
    ∧ Forall (stars_consistent (attr.sig_levels s)) ds
    ∧ Forall aligned ds
    ∧ extract_data s
      = let s2 := attr.assign (attr.F_model_data ds)
                    (attr.assign (attr.F_models validated) s) in
        let pars := mjoin (model_keys <$> validated) in
        match py_sorted_set pars with
        | Raise e => (Raise e, s2)
        | Ok names =>
            let s3 := attr.assign (attr.F_param_names names) s2 in
            match validated, pars with
            | NamedTup params0 _ :: _, pars0 :: _ =>
                match build_first_table_col (index_nlevels params0) pars0 names with
                | Ok table => (Ok (), attr.assign (attr.F_first_table_col table) s3)
                | Raise e => (Raise e, s3)
                end
            | NamedTup _ _ :: _, [] => (Raise (IndexError "list index out of range"), s3)
            | _ :: _, _ => (Raise (TypeError "object has no attribute 'params'"), s3)
            | [], _ => (Raise (IndexError "list index out of range"), s3)
            end
        end.
Proof.
  intros HT Hv. pose proof (validated_models _ _ Hv) as (Hnt & _ & _).
  destruct (extract_loop_ok O validated
              (attr.assign (attr.F_model_data [])
                 (attr.assign (attr.F_models validated) s)))
    as (ds & Hloop & Hkeys & Hstars & Hal); [by destruct s|done|].
  exists ds. split; [done|]. split; [by destruct s|]. split; [done|].
  unfold extract_data. step_method.
  rewrite (validate_input_run_ok validated) by done.
  cbn [attr.models attr.assign]. rewrite Hloop.
  rewrite assign_model_data_twice. cbn [attr.model_data attr.models attr.assign app].
  rewrite Hkeys. cbn zeta.
  destruct (py_sorted_set _) as [names|e]; [|done].
  cbn [attr.model_data attr.models attr.assign app].
  destruct validated as [|[params0 info0| | |] rest]; try done.
  destruct (mjoin _) as [|pars0 pars]; [done|].
  unfold build_first_table_col.
  destruct (for_each (metalist_level _ _) _); [|done]. cbn.
  by case_bool_decide.
Qed.
End construction_forwards.

Lemma for_each_ok {A B} (f : A → result B) (l : list A) :
  Forall (λ x, ∃ y, f x = Ok y) l → ∃ r, for_each f l = Ok r.
Proof.
  induction 1 as [|x l [y Hy] _ [r Hr]]; [by eexists|].
  rewrite for_each_cons, Hy, Hr. by eexists.
Qed.

Lemma for_each_raise_at {A B} (f : A → result B) (good : list A) (x : A) (rest : list A)
    (e : exn) :
  Forall (λ x, ∃ y, f x = Ok y) good → f x = Raise e →
  for_each f (good ++ x :: rest) = Raise e.
Proof.
  intros Hgood Hx. induction Hgood as [|g good [y Hy] _ IH].
  - cbn [app]. by rewrite for_each_cons, Hx.
  - cbn [app]. by rewrite for_each_cons, Hy, IH.
Qed.

Lemma for_each_length {A B} (f : A → result B) (l : list A) (r : list B) :
  for_each f l = Ok r → length r = length l.
Proof. intros Hr%for_each_Forall2. by apply Forall2_length in Hr. Qed.

Section constructor_outcomes.
Context `{PyRuntime}.

(** [Stargazer(models)] in closed form, once the models validate. *)
Lemma new_closed (models : models_arg) (validated : list Model) :
  for_each validate_model (models_of models) = Ok validated →
  ∃ ds,
    md.param_names <$> ds = model_keys <$> validated
    ∧ Forall (stars_consistent default_sig_levels) ds
    ∧ Forall aligned ds
    ∧ new models
      = let pars := mjoin (model_keys <$> validated) in
        match py_sorted_set pars with
        | Raise e => Raise e
        | Ok names =>
            match validated, pars with
            | NamedTup params0 _ :: _, pars0 :: _ =>
                match build_first_table_col (index_nlevels params0) pars0 names with
                | Ok table =>
                    Ok (attr.assign (attr.F_first_table_col table)
                          (attr.assign (attr.F_param_names names)
                             (attr.assign (attr.F_model_data ds)
                                (attr.assign (attr.F_models validated)
                                   (initial (models_of models))))))
                | Raise e => Raise e
                end
            | NamedTup _ _ :: _, [] => Raise (IndexError "list index out of range")
            | _ :: _, _ => Raise (TypeError "object has no attribute 'params'")
            | [], _ => Raise (IndexError "list index out of range")
            end
        end.
Proof.
  intros Hv.
  destruct (extract_data_run validated (initial (models_of models)))
    as (ds & Hkeys & Hstars & Hal & Hrun); [exact default_sig_levels_valid|done|].
  exists ds. split; [done|]. split; [done|]. split; [done|].
  rewrite new_run, Hrun. cbn zeta.
  destruct (py_sorted_set _); [|done].
  destruct validated as [|[params0 info0| | |] rest]; try done.
  destruct (mjoin _); [done|].
  by destruct (build_first_table_col _ _ _).
Qed.

(** X8: the constructor raises what validation raises on the first model
    that is not accepted: a [TypeError] for an object of no accepted shape,
    a [KeyError] for a dict without ["params"] or ["info"]. *)
Theorem construction_rejects_model (models : models_arg) (good : list Model) (m : Model)
    (rest : list Model) (e : exn) :
  models_of models = good ++ m :: rest →
  Forall (λ m, ∃ m', validate_model m = Ok m') good →
  validate_model m = Raise e →
  new models = Raise e
  ∧ (m = OtherObject → e = TypeError "Model does not have valid format")
  ∧ (∀ info, m = DictModel None info → e = KeyError "params")
  ∧ (∀ params, m = DictModel (Some params) None → e = KeyError "info").
Proof.
  intros Hms Hgood Hm. split.
  - rewrite new_run.
    destruct (validate_input_raise e (initial (models_of models))) as [s' Hs'].
    { cbn [attr.models initial]. change (attr.models (initial (models_of models)))
        with (models_of models). rewrite Hms. by apply for_each_raise_at. }
    unfold extract_data. step_method. by rewrite Hs'.
  - split_and!; intros; subst; cbn in Hm; congruence.
Qed.
End constructor_outcomes.

Lemma construction_rejects_model_witness :
  models_of (ModelList [example_model None []; OtherObject])
  = [example_model None []] ++ OtherObject :: []
  ∧ Forall (λ m, ∃ m', validate_model m = Ok m') [example_model None []]
  ∧ validate_model OtherObject = Raise (TypeError "Model does not have valid format")
  ∧ @new example_runtime (ModelList [example_model None []; OtherObject])
    = Raise (TypeError "Model does not have valid format")
  ∧ (OtherObject = OtherObject
     → TypeError "Model does not have valid format"
       = TypeError "Model does not have valid format")
  ∧ (∀ info, OtherObject = DictModel None info
     → TypeError "Model does not have valid format" = KeyError "params")
  ∧ (∀ params, OtherObject = DictModel (Some params) None
     → TypeError "Model does not have valid format" = KeyError "info").
Proof.
  assert (Forall (λ m, ∃ m', validate_model m = Ok m') [example_model None []]) as Hgood.
  { repeat constructor. by eexists. }
  split; [reflexivity|]. split; [exact Hgood|]. split; [reflexivity|].
  apply (@construction_rejects_model example_runtime
           (ModelList [example_model None []; OtherObject])
           [example_model None []] OtherObject []); [reflexivity|exact Hgood|reflexivity].
Defined.

Lemma py_sorted_set_nil : py_sorted_set [] = Ok [].
Proof. reflexivity. Qed.

(** Keys of both kinds make [sorted] raise. *)
Lemma py_sorted_set_mixed (l : list Key) (a b : Key) :
  a ∈ l → b ∈ l → is_tuple a = false → is_tuple b = true →
  py_sorted_set l = Raise (TypeError "'<' not supported between instances of 'str' and 'tuple'").
Proof.
  intros Ha Hb Hfa Htb. unfold py_sorted_set, py_sorted_keys.
  assert (same_kind (elements (list_to_set l : gset Key)) = false) as ->; [|done].
  unfold same_kind. apply orb_false_iff. split.
  - apply not_true_is_false. intros Hall. rewrite forallb_forall in Hall.
    specialize (Hall a). rewrite Hfa in Hall.
    assert (false = true); [|done]. apply Hall.
    apply list_elem_of_In, elem_of_elements, elem_of_list_to_set. done.
  - apply not_true_is_false. intros Hall. rewrite forallb_forall in Hall.
    specialize (Hall b). rewrite Htb in Hall. cbn in Hall.
    assert (false = true); [|done]. apply Hall.
    apply list_elem_of_In, elem_of_elements, elem_of_list_to_set. done.
Qed.

(** When [sorted] returns, the keys were all of one kind. *)
Lemma py_sorted_set_same_kind (l r : list Key) :
  py_sorted_set l = Ok r →
  Forall (λ k, is_tuple k = false) l ∨ Forall (λ k, is_tuple k = true) l.
Proof.
  unfold py_sorted_set, py_sorted_keys.
  destruct (same_kind _) eqn:Hkind; [|done]. intros _.
  unfold same_kind in Hkind. apply orb_true_iff in Hkind as [Hall|Hall];
    rewrite forallb_forall in Hall; [right|left]; apply Forall_forall; intros k Hk.
  - apply Hall, list_elem_of_In, elem_of_elements, elem_of_list_to_set. done.
  - apply negb_true_iff, Hall, list_elem_of_In, elem_of_elements, elem_of_list_to_set. done.
Qed.

Lemma validation_ok (l : list Model) :
  Forall (λ m, ∃ m', validate_model m = Ok m') l → ∃ l', for_each validate_model l = Ok l'.
Proof. apply for_each_ok. Qed.

Section constructor_errors.
Context `{PyRuntime}.

(** X9: models that validate but bring no covariate at all, the empty list
    of models among them, make the constructor raise an [IndexError]. *)
Theorem construction_without_covariates (models : models_arg) :
  Forall (λ m, ∃ m', validate_model m = Ok m') (models_of models) →
  Forall (λ m, model_keys m = []) (models_of models) →
  new models = Raise (IndexError "list index out of range").
Proof.
  intros [validated Hv]%validation_ok Hempty.
  destruct (new_closed models validated Hv) as (ds & _ & _ & _ & ->).
  pose proof (validated_models _ _ Hv) as (Hnt & Hkeys & _).
  assert (mjoin (model_keys <$> validated) = []) as Hnil.
  { rewrite Hkeys. apply join_nil_2, Forall_fmap. exact Hempty. }
  cbv zeta. rewrite !Hnil, py_sorted_set_nil.
  destruct Hnt as [|m l (params & info & ->) _]; [done|]. by rewrite Hnil.
Qed.

(** X10: models that validate and bring both a string key and a tuple key
    make the constructor raise the [TypeError] of [sorted]. *)
Theorem construction_with_mixed_keys (models : models_arg) (m1 m2 : Model) (a b : Key) :
  Forall (λ m, ∃ m', validate_model m = Ok m') (models_of models) →
  m1 ∈ models_of models → a ∈ model_keys m1 → is_tuple a = false →
  m2 ∈ models_of models → b ∈ model_keys m2 → is_tuple b = true →
  new models
  = Raise (TypeError "'<' not supported between instances of 'str' and 'tuple'").
Proof.
  intros [validated Hv]%validation_ok Hm1 Ha Hfa Hm2 Hb Htb.
  destruct (new_closed models validated Hv) as (ds & _ & _ & _ & ->).
  pose proof (validated_models _ _ Hv) as (_ & Hkeys & _).
  cbn zeta. rewrite Hkeys.
  rewrite (py_sorted_set_mixed _ a b); [done| | |done..].
  - apply list_elem_of_join. exists (model_keys m1). split; [done|].
    apply list_elem_of_fmap. eauto.
  - apply list_elem_of_join. exists (model_keys m2). split; [done|].
    apply list_elem_of_fmap. eauto.
Qed.
End constructor_errors.

Lemma construction_without_covariates_witness :
  Forall (λ m, ∃ m', validate_model m = Ok m') (models_of (ModelList []))
  ∧ Forall (λ m, model_keys m = []) (models_of (ModelList []))
  ∧ @new example_runtime (ModelList []) = Raise (IndexError "list index out of range").
Proof.
  split; [constructor|]. split; [constructor|].
  apply (@construction_without_covariates example_runtime (ModelList [])); constructor.
Defined.

(** ** When the constructor returns *)

Lemma Forall2_for_each {A B} (f : A → result B) (l : list A) (r : list B) :
  Forall2 (λ x y, f x = Ok y) l r → for_each f l = Ok r.
Proof.
  induction 1 as [|x y l r Hx _ IH]; [done|]. by rewrite for_each_cons, Hx, IH.
Qed.

Lemma for_each_inv_ok {A B} (f : A → result B) (l : list A) (r : list B) :
  for_each f l = Ok r → Forall (λ x, ∃ y, f x = Ok y) l.
Proof.
  intros Hr%for_each_Forall2. induction Hr; constructor; eauto.
Qed.

Section first_column.
Context `{PyRuntime}.

Lemma metalist_level_flat (pars0 : Key) (names : list Key) (i : nat) :
  is_tuple pars0 = false → metalist_level pars0 names i = Ok names.
Proof.
  intros Hflat. unfold metalist_level. rewrite Hflat.
  induction names as [|p names IH]; [done|]. by rewrite for_each_cons, IH.
Qed.

Lemma metalist_level_tuple_ok (pars0 : Key) (names : list Key) (i nlevels : nat) :
  (i < nlevels)%nat → Forall (key_has_levels nlevels) names →
  Forall (λ k, is_tuple k = true) names →
  ∃ level, metalist_level pars0 names i = Ok level.
Proof.
  intros Hi Hlev Htup. unfold metalist_level. apply for_each_ok.
  apply Forall_forall. intros p Hp.
  destruct (is_tuple pars0); [|by eexists].
  rewrite Forall_forall in Hlev, Htup. specialize (Hlev p Hp). specialize (Htup p Hp).
  destruct p as [s|t]; [done|]. cbn in *.
  destruct (t !! i) eqn:Hti; [by eexists|].
  apply lookup_ge_None in Hti. lia.
Qed.

(** The table of collapsed index levels is built exactly when the first
    model has at least one index level and, for tuple keys, every key has
    a component at each of these levels. *)
Lemma build_first_table_col_ok (nlevels : nat) (pars0 : Key) (names : list Key) :
  nlevels ≠ O →
  is_tuple pars0 = false
  ∨ (Forall (key_has_levels nlevels) names ∧ Forall (λ k, is_tuple k = true) names) →
  ∃ table, build_first_table_col nlevels pars0 names = Ok table.
Proof.
  intros Hn Hkeys. unfold build_first_table_col.
  assert (∃ metalist, for_each (metalist_level pars0 names) (seq 0 nlevels) = Ok metalist)
    as [metalist ->].
  { apply for_each_ok, Forall_forall. intros i Hi%elem_of_seq.
    destruct Hkeys as [Hflat|[Hlev Htup]].
    - rewrite metalist_level_flat by done. by eexists.
    - apply (metalist_level_tuple_ok _ _ _ nlevels); [lia|done..]. }
  cbn. rewrite bool_decide_eq_false_2 by done. by eexists.
Qed.

Lemma build_first_table_col_inv (nlevels : nat) (pars0 : Key) (names : list Key)
    (table : FirstCol) :
  build_first_table_col nlevels pars0 names = Ok table →
  nlevels ≠ O
  ∧ (is_tuple pars0 = true → Forall (λ k, is_tuple k = true) names →
     Forall (key_has_levels nlevels) names).
Proof.
  unfold build_first_table_col.
  destruct (for_each _ _) as [metalist|] eqn:Hmeta; [|done]. cbn.
  case_bool_decide as Hn; [done|]. intros _. split; [done|].
  intros Htup Hall. apply Forall_forall. intros p Hp.
  rewrite Forall_forall in Hall. specialize (Hall p Hp).
  destruct p as [s|t]; [done|]. cbn.
  apply for_each_inv_ok in Hmeta. rewrite Forall_forall in Hmeta.
  destruct (decide (nlevels ≤ length t)%nat) as [|Hshort]; [done|]. exfalso.
  destruct (Hmeta (length t)) as [level Hlevel]; [apply elem_of_seq; lia|].
  unfold metalist_level in Hlevel. rewrite Htup in Hlevel.
  apply for_each_inv_ok in Hlevel. rewrite Forall_forall in Hlevel.
  destruct (Hlevel _ Hp) as [y Hy]. cbn in Hy.
  rewrite (lookup_ge_None_2 t (length t)) in Hy by done. done.
Qed.
End first_column.

Section constructor_returns.
Context `{PyRuntime}.

(** X11: the constructor returns an instance exactly when its models are
    [constructible]. *)
Theorem construction_succeeds_iff (models : models_arg) :
  (∃ self, new models = Ok self) ↔ constructible (models_of models).
Proof.
  split.
  - intros [self Hnew].
    pose proof (new_inv _ _ Hnew) as (validated & _ & _ & _ & Hv%Forall2_for_each & _).
    destruct (new_closed models validated Hv) as (ds & _ & _ & _ & Hclosed).
    rewrite Hnew in Hclosed. cbv zeta in Hclosed.
    pose proof (validated_models _ _ Hv) as (_ & Hkeys & Hlev).
    rewrite Hkeys in Hclosed.
    destruct (py_sorted_set _) as [names|] eqn:Hsort; [|done].
    pose proof (py_sorted_set_same_kind _ _ Hsort) as Hkind.
    apply py_sorted_set_spec in Hsort as (_ & _ & Hin).
    destruct validated as [|[params0 info0| | |] validated]; try done.
    destruct (models_of models) as [|m0 rest] eqn:Hms; [done|].
    injection Hlev as Hlev0 _. cbn in Hlev0. rewrite ?Hkeys in Hclosed.
    destruct (mjoin (model_keys <$> m0 :: rest)) as [|pars0 pars] eqn:Hpars; [done|].
    destruct (build_first_table_col _ _ _) as [table|] eqn:Hbuild; [|done].
    apply build_first_table_col_inv in Hbuild as (Hn & Htuples).
    split; [by eapply for_each_inv_ok|].
    exists m0, rest. rewrite Hpars, <- Hlev0. split_and!; try done.
    destruct Hkind as [Hflat|Htup]; [by left|right]. split; [done|].
    assert (Forall (λ k, is_tuple k = true) names) as Hnames.
    { apply Forall_forall. intros k Hk%Hin. rewrite Forall_forall in Htup. by apply Htup. }
    specialize (Htuples (Forall_inv Htup) Hnames).
    apply Forall_forall. intros k Hk%Hin. rewrite Forall_forall in Htuples. by apply Htuples.
  - intros (Hvalid & m0 & rest & Hms & Hn & Hne & Hkind).
    destruct (validation_ok _ Hvalid) as [validated Hv].
    destruct (new_closed models validated Hv) as (ds & _ & _ & _ & ->). cbv zeta.
    pose proof (validated_models _ _ Hv) as (Hnt & Hkeys & Hlev).
    rewrite Hkeys.
    destruct (py_sorted_set_ok (mjoin (model_keys <$> models_of models))) as [names Hsort].
    { destruct Hkind as [?|[? _]]; auto. }
    rewrite Hsort. apply py_sorted_set_spec in Hsort as (_ & _ & Hin).
    rewrite Hms in Hlev.
    destruct validated as [|v0 validated]; [done|].
    injection Hlev as Hlev0 _.
    apply Forall_inv in Hnt as (params0 & info0 & ->). cbn in Hlev0.
    rewrite ?Hkeys.
    destruct (mjoin (model_keys <$> models_of models)) as [|pars0 pars] eqn:Hpars; [done|].
    destruct (build_first_table_col_ok (index_nlevels params0) pars0 names) as [table ->].
    + by rewrite Hlev0.
    + destruct Hkind as [Hflat|[Htup Hlevels]].
      * left. by apply Forall_inv in Hflat.
      * right. rewrite Hlev0. split; apply Forall_forall; intros k Hk%Hin.
        -- rewrite Forall_forall in Hlevels. by apply Hlevels.
        -- rewrite Forall_forall in Htup. by apply Htup.
    + by eexists.
Qed.
End constructor_returns.

(** ** Rendering returns *)

Lemma series_get_ok {A} (s : Series A) (k : Key) :
  k ∈ s.*1 → ∃ v, series_get s k = Ok v.
Proof.
  induction s as [|[k' v] s IH]; [by intros ?%elem_of_nil|].
  cbn. destruct (decide (k' = k)); [by eexists|].
  intros [?|?]%elem_of_cons; [done|by apply IH].
Qed.

Lemma for_str_r_ok {A} (l : list A) (body : A → result string) :
  Forall (λ x, ∃ text, body x = Ok text) l → ∃ text, for_str_r l body = Ok text.
Proof.
  intros [parts Hparts]%for_each_ok. unfold for_str_r. rewrite Hparts. by eexists.
Qed.

Lemma for_str_enum_ok {A} (l : list A) (body : nat → A → result string) :
  (∀ i x, l !! i = Some x → ∃ text, body i x = Ok text) →
  ∃ text, for_str_enum l body = Ok text.
Proof.
  intros Hbody. unfold for_str_enum.
  destruct (for_each_ok (λ ix : nat * A, body ix.1 ix.2) (imap pair l)) as [parts ->];
    [|by eexists].
  apply Forall_forall. intros [i x] Hix.
  apply list_elem_of_lookup in Hix as [j Hj].
  rewrite list_lookup_imap in Hj.
  destruct (l !! j) eqn:Hlj; [|done]. injection Hj as <- <-. by apply Hbody.
Qed.

Section rendering.
Context `{PyRuntime}.

Lemma header_html_ok (self : Stargazer) :
  match attr.column_labels self with
  | Some (ManyLabels labels) =>
      ∃ seps, attr.column_separators self = Some seps ∧ (length labels ≤ length seps)%nat
  | _ => True
  end →
  ∃ text, generate_header_html self = Ok text.
Proof.
  intros Hlabels. unfold generate_header_html.
  destruct (attr.show_header self); cbn [negb]; [|by eexists].
  destruct (attr.column_labels self) as [[label|labels]|]; cbn; try by eexists.
  destruct Hlabels as (seps & -> & Hlen).
  destruct (for_str_enum_ok labels
              (λ i label,
                 match seps !! i with
                 | Some sep =>
                     Ok ("<td colspan=" +:+ dq +:+ str_int sep +:+ dq +:+ ">" +:+ label
                           +:+ "</td>")
                 | None => Raise (IndexError "list index out of range")
                 end)) as [cells ->]; [|by eexists].
  intros i label Hi. apply lookup_lt_Some in Hi.
  destruct (seps !! i) eqn:Hsep; [by eexists|].
  apply lookup_ge_None in Hsep. lia.
Qed.

Lemma header_latex_ok (self : Stargazer) (only_tabular : bool) :
  match attr.column_labels self with
  | Some (ManyLabels labels) =>
      ∃ seps, attr.column_separators self = Some seps ∧ (length labels ≤ length seps)%nat
  | _ => True
  end →
  ∃ text, generate_header_latex self only_tabular = Ok text.
Proof.
  intros Hlabels. unfold generate_header_latex.
  destruct (if negb only_tabular then _ else _) as [header|header]; [by eexists|].
  destruct (attr.column_labels self) as [[label|labels]|]; cbn; try by eexists.
  destruct Hlabels as (seps & -> & Hlen).
  destruct (for_str_enum_ok labels
              (λ i label,
                 match seps !! i with
                 | Some sep =>
                     Ok ("& \multicolumn{" +:+ str_int sep +:+ "}{l}{" +:+ label +:+ "} ")
                 | None => Raise (IndexError "list index out of range")
                 end)) as [cells ->]; [|by eexists].
  intros i label Hi. apply lookup_lt_Some in Hi.
  destruct (seps !! i) eqn:Hsep; [by eexists|].
  apply lookup_ge_None in Hsep. lia.
Qed.

Lemma param_print_name_ok (self : Stargazer) (k : Key) :
  key_renders (attr.first_table_col self) k → ∃ name, param_print_name self k = Ok name.
Proof.
  intros Hk. unfold param_print_name.
  assert (∃ raw, match k with
                 | KStr s => Ok s
                 | KTup t =>
                     match last t with
                     | Some s => Ok s
                     | None => Raise (IndexError "tuple index out of range")
                     end
                 end = Ok raw) as [raw ->].
  { destruct k as [s|t]; [by eexists|]. destruct Hk as [Hne _].
    destruct (last t) eqn:Hlast; [by eexists|]. by apply last_None in Hlast. }
  cbn. destruct (attr.param_nicer_names self); by eexists.
Qed.

Lemma first_table_cells_ok (self : Stargazer) (t : list string)
    (wrap : string → string) :
  key_renders (attr.first_table_col self) (KTup t) →
  ∃ text, for_str_r (seq 0 (pred_len t))
            (λ i, cell ← first_table_cell self (KTup t) i; Ok (wrap cell)) = Ok text.
Proof.
  intros (_ & row & Hrow & Hlen). apply for_str_r_ok, Forall_forall.
  intros i Hi%elem_of_seq. unfold first_table_cell, pred_len in *. rewrite Hrow. cbn.
  destruct (row !! i) eqn:Hcell; [by eexists|].
  apply lookup_ge_None in Hcell. lia.
Qed.

Lemma aligned_get (data : md.t) (k : Key) :
  aligned data → has_param data k = true →
  (∃ v, series_get (md.param_values data) k = Ok v)
  ∧ (∃ v, series_get (md.param_std_err data) k = Ok v)
  ∧ (∃ v, series_get (md.ci_lower data) k = Ok v)
  ∧ (∃ v, series_get (md.ci_upper data) k = Ok v)
  ∧ (∃ v, series_get (md.sig_icons data) k = Ok v).
Proof.
  intros (H1 & _ & H3 & H4 & H5 & H6) Hk%bool_decide_eq_true.
  split_and!; apply series_get_ok; congruence.
Qed.

Lemma precision_text_ok (self : Stargazer) (data : md.t) (k : Key) :
  aligned data → has_param data k = true → ∃ text, precision_text self data k = Ok text.
Proof.
  intros Hd Hk.
  destruct (aligned_get data k Hd Hk) as (_ & [se Hse] & [lo Hlo] & [hi Hhi] & _).
  unfold precision_text. rewrite Hse, Hlo, Hhi. destruct (attr.confidence_intervals self);
    by eexists.
Qed.

Lemma param_rows_html_ok (self : Stargazer) (k : Key) :
  Forall aligned (attr.model_data self) →
  key_renders (attr.first_table_col self) k →
  ∃ text, generate_param_rows_html self k = Ok text.
Proof.
  intros Hdata Hk. rewrite Forall_forall in Hdata.
  assert (∃ main, generate_param_main_html self k = Ok main) as [main Hmain].
  { unfold generate_param_main_html.
    destruct (param_print_name_ok self k Hk) as [name ->]. cbn.
    assert (∃ text,
              match k with
              | KStr _ =>
                  Ok ("<tr>" +:+ "<td style=" +:+ dq +:+ "text-align:left" +:+ dq +:+ ">"
                        +:+ name +:+ "&nbsp;</td>")
              | KTup t =>
                  cells ← for_str_r (seq 0 (pred_len t))
                    (λ i, cell ← first_table_cell self k i;
                          Ok ("<td style=" +:+ dq +:+ "text-align:left" +:+ dq +:+ ">"
                                +:+ cell +:+ "&nbsp;</td>"));
                  Ok ("<tr>" +:+ cells +:+ "<td style=" +:+ dq +:+ "text-align:left"
                        +:+ dq +:+ ">" +:+ name +:+ "&nbsp;</td>")
              end = Ok text) as [text ->].
    { destruct k as [s|t]; [by eexists|].
      destruct (first_table_cells_ok self t
                  (λ cell, "<td style=" +:+ dq +:+ "text-align:left" +:+ dq +:+ ">"
                             +:+ cell +:+ "&nbsp;</td>") Hk) as [cells ->].
      by eexists. }
    cbn.
    match goal with
    | |- context [for_str_r (attr.model_data self) ?body] =>
        destruct (for_str_r_ok (attr.model_data self) body) as [values ->]; [|by eexists]
    end.
    apply Forall_forall. intros data Hd. cbn beta.
    destruct (has_param data k) eqn:Hhas; [|by eexists].
    destruct (aligned_get data k (Hdata _ Hd) Hhas) as ([v ->] & _ & _ & _ & [icon ->]).
    cbn. destruct (attr.show_sig self); by eexists. }
  unfold generate_param_rows_html. rewrite Hmain. cbn.
  destruct (attr.show_precision self); [|by eexists].
  unfold generate_param_precision_html.
  match goal with
  | |- context [for_str_r (attr.model_data self) ?body] =>
      destruct (for_str_r_ok (attr.model_data self) body) as [values ->]; [|by eexists]
  end.
  apply Forall_forall. intros data Hd. cbn beta.
  destruct (has_param data k) eqn:Hhas; [|by eexists].
  destruct (precision_text_ok self data k (Hdata _ Hd) Hhas) as [text ->]. by eexists.
Qed.

Lemma param_rows_latex_ok (self : Stargazer) (k : Key) :
  Forall aligned (attr.model_data self) →
  key_renders (attr.first_table_col self) k →
  ∃ text, generate_param_rows_latex self k = Ok text.
Proof.
  intros Hdata Hk. rewrite Forall_forall in Hdata.
  assert (∃ main, generate_param_main_latex self k = Ok main) as [main Hmain].
  { unfold generate_param_main_latex.
    destruct (param_print_name_ok self k Hk) as [name ->]. cbn.
    assert (∃ text,
              match k with
              | KStr _ => Ok (" " +:+ name +:+ " ")
              | KTup t =>
                  cells ← for_str_r (seq 0 (pred_len t))
                    (λ i, cell ← first_table_cell self k i; Ok (cell +:+ "&"));
                  Ok (" " +:+ cells +:+ name)
              end = Ok text) as [text ->].
    { destruct k as [s|t]; [by eexists|].
      destruct (first_table_cells_ok self t (λ cell, cell +:+ "&") Hk) as [cells ->].
      by eexists. }
    cbn.
    match goal with
    | |- context [for_str_r (attr.model_data self) ?body] =>
        destruct (for_str_r_ok (attr.model_data self) body) as [values ->]; [|by eexists]
    end.
    apply Forall_forall. intros data Hd. cbn beta.
    destruct (has_param data k) eqn:Hhas; [|by eexists].
    destruct (aligned_get data k (Hdata _ Hd) Hhas) as ([v ->] & _ & _ & _ & [icon ->]).
    cbn. destruct (attr.show_sig self); by eexists. }
  unfold generate_param_rows_latex. rewrite Hmain. cbn.
  destruct (attr.show_precision self); [|by eexists].
  unfold generate_param_precision_latex.
  match goal with
  | |- context [for_str_r (attr.model_data self) ?body] =>
      destruct (for_str_r_ok (attr.model_data self) body) as [values ->]; [|by eexists]
  end.
  apply Forall_forall. intros data Hd. cbn beta.
  destruct (has_param data k) eqn:Hhas; [|by eexists].
  destruct (precision_text_ok self data k (Hdata _ Hd) Hhas) as [text ->]. by eexists.
Qed.




Lemma body_html_ok (self : Stargazer) :
  Forall aligned (attr.model_data self) →
  Forall (key_renders (attr.first_table_col self)) (attr.param_names self) →
  ∃ body, generate_body_html self = Ok body.
Proof.
  intros Hdata Hnames. apply for_str_r_ok. eapply Forall_impl; [exact Hnames|].
  intros k Hk. by apply param_rows_html_ok.
Qed.

Lemma body_latex_ok (self : Stargazer) :
  Forall aligned (attr.model_data self) →
  Forall (key_renders (attr.first_table_col self)) (attr.param_names self) →
  ∃ body, generate_body_latex self = Ok body.
Proof.
  intros Hdata Hnames. apply for_str_r_ok. eapply Forall_impl; [exact Hnames|].
  intros k Hk. cbn beta. destruct (param_rows_latex_ok self k Hdata Hk) as [rows ->].
  by eexists.
Qed.

End rendering.

(** ** The table of collapsed index levels *)

Lemma series_get_elem {A} (s : Series A) (k : Key) (v : A) :
  series_get s k = Ok v → (k, v) ∈ s.
Proof.
  induction s as [|[k' v'] s IH]; [done|]. cbn.
  destruct (decide (k' = k)) as [->|]; [intros [= ->]; left|intros ?; right; by apply IH].
Qed.

Lemma transpose_indexed_index (ulist : list (list string)) (names : list Key) :
  (transpose_indexed ulist names).*1 = names.
Proof.
  unfold transpose_indexed. apply list_eq. intros j.
  rewrite list_lookup_fmap, list_lookup_imap. by destruct (names !! j).
Qed.

Lemma length_omap_lookup (ulist : list (list string)) (j : nat) :
  Forall (λ l, (j < length l)%nat) ulist →
  length (omap (λ l : list string, l !! j) ulist) = length ulist.
Proof.
  induction 1 as [|l ulist Hl _ IH]; [done|]. cbn.
  destruct (l !! j) eqn:Hlj; [cbn; by rewrite IH|].
  apply lookup_ge_None in Hlj. lia.
Qed.

Lemma transpose_indexed_rows (ulist : list (list string)) (names : list Key) :
  Forall (λ l, length l = length names) ulist →
  Forall (λ row : Key * list string, length row.2 = length ulist)
         (transpose_indexed ulist names).
Proof.
  intros Hlen. apply Forall_forall. intros [k row] [j Hj]%list_elem_of_lookup.
  unfold transpose_indexed in Hj. rewrite list_lookup_imap in Hj.
  destruct (names !! j) eqn:Hk; [|done]. injection Hj as <- <-. cbn.
  apply length_omap_lookup. eapply Forall_impl; [exact Hlen|].
  intros l ->. by apply lookup_lt_Some in Hk.
Qed.

Section collapsed_levels.
Context `{PyRuntime}.

Lemma collapse_after_length (above : Key) (l : list Key) :
  length (collapse_after above l) = length l.
Proof. revert above. induction l as [|n l IH]; intros above; [done|]. cbn. by rewrite IH. Qed.

Lemma collapse_length (l : list Key) : length (collapse l) = length l.
Proof. destruct l; [done|]. cbn. by rewrite collapse_after_length. Qed.

Lemma collapse_after_lookup (above : Key) (l : list Key) (j : nat) (y : Key) :
  l !! j = Some y →
  collapse_after above l !! j
  = Some (if decide (y = match j with O => above | S j' => default above (l !! j') end)
          then "" else str_key y).
Proof.
  revert above j. induction l as [|n l IH]; intros above j Hj; [done|].
  destruct j as [|j]; [by injection Hj as ->|].
  cbn in Hj. cbn [collapse_after lookup list_lookup]. rewrite (IH _ _ Hj).
  destruct j as [|j]; [done|].
  assert (is_Some (l !! j)) as [x Hx].
  { apply lookup_lt_is_Some. apply lookup_lt_Some in Hj. lia. }
  change ((n :: l) !! S j) with (l !! j). by rewrite !Hx.
Qed.

(** X13: one level of the index, collapsed: the list keeps its length, its
    first value is written out, and a later value is written out unless it
    equals the value just above it, in which case the cell is empty. *)
Theorem collapse_spec (l : list Key) :
  length (collapse l) = length l
  ∧ (∀ x, l !! O = Some x → collapse l !! O = Some (str_key x))
  ∧ (∀ j x y, l !! j = Some x → l !! S j = Some y →
       collapse l !! S j = Some (if decide (y = x) then "" else str_key y)).
Proof.
  split; [apply collapse_length|]. split.
  - intros x Hx. destruct l; [done|]. by injection Hx as ->.
  - intros j x y Hx Hy. destruct l as [|n l]; [done|].
    cbn in Hy. cbn [collapse lookup list_lookup]. rewrite (collapse_after_lookup _ _ _ _ Hy).
    destruct j as [|j]; [by injection Hx as ->|].
    change ((n :: l) !! S j) with (l !! j) in Hx. by rewrite Hx.
Qed.

Lemma metalist_level_length (pars0 : Key) (names level : list Key) (i : nat) :
  metalist_level pars0 names i = Ok level → length level = length names.
Proof. apply for_each_length. Qed.

(** The shape of the table that [extract_data] builds. *)
Lemma build_first_table_col_shape (nlevels : nat) (pars0 : Key) (names : list Key)
    (table : FirstCol) :
  build_first_table_col nlevels pars0 names = Ok table →
  columns table = nlevels
  ∧ (loc table).*1 = names
  ∧ Forall (λ row : Key * list string, length row.2 = nlevels) (loc table).
Proof.
  unfold build_first_table_col.
  destruct (for_each _ _) as [metalist|] eqn:Hmeta; [|done]. cbn.
  case_bool_decide; [done|]. intros [= <-]. cbn.
  split; [done|]. split; [apply transpose_indexed_index|].
  pose proof (for_each_length _ _ _ Hmeta) as Hlen. rewrite length_seq in Hlen.
  rewrite <- Hlen, <- (length_fmap collapse metalist).
  apply transpose_indexed_rows, Forall_fmap, Forall_forall.
  intros level [j Hj]%list_elem_of_lookup.
  cbn. rewrite collapse_length.
  apply for_each_Forall2 in Hmeta.
  destruct (Forall2_lookup_r _ _ _ _ _ Hmeta Hj) as (i & _ & Hlev).
  by apply metalist_level_length in Hlev.
Qed.
End collapsed_levels.

(** ** The constructed instance *)

Section constructed.
Context `{PyRuntime}.

(** Everything a successful construction determines. *)
Lemma new_shape (models : models_arg) (self : Stargazer) :
  new models = Ok self →
  ∃ validated ds names table m0 rest pars0 pars,
    models_of models = m0 :: rest
    ∧ for_each validate_model (models_of models) = Ok validated
    ∧ md.param_names <$> ds = model_keys <$> models_of models
    ∧ Forall (stars_consistent default_sig_levels) ds
    ∧ Forall aligned ds
    ∧ mjoin (model_keys <$> models_of models) = pars0 :: pars
    ∧ py_sorted_set (pars0 :: pars) = Ok names
    ∧ build_first_table_col (model_nlevels m0) pars0 names = Ok table
    ∧ self = attr.assign (attr.F_first_table_col table)
               (attr.assign (attr.F_param_names names)
                  (attr.assign (attr.F_model_data ds)
                     (attr.assign (attr.F_models validated)
                        (initial (models_of models))))).
Proof.
  intros Hnew.
  pose proof (new_inv _ _ Hnew) as (validated & _ & _ & _ & Hv%Forall2_for_each & _).
  destruct (new_closed models validated Hv) as (ds & Hkeys & Hstars & Hal & Hclosed).
  rewrite Hnew in Hclosed. cbv zeta in Hclosed.
  pose proof (validated_models _ _ Hv) as (_ & Hvkeys & Hlev).
  rewrite Hvkeys in Hclosed, Hkeys.
  destruct (py_sorted_set _) as [names|] eqn:Hsort; [|done].
  destruct validated as [|[params0 info0| | |] validated]; try done.
  destruct (models_of models) as [|m0 rest] eqn:Hms; [done|].
  injection Hlev as Hlev0 _. cbn in Hlev0. rewrite ?Hvkeys in Hclosed.
  destruct (mjoin (model_keys <$> m0 :: rest)) as [|pars0 pars] eqn:Hpars; [done|].
  destruct (build_first_table_col _ _ _) as [table|] eqn:Hbuild; [|done].
  injection Hclosed as ->. rewrite Hlev0 in Hbuild.
  by exists (NamedTup params0 info0 :: validated), ds, names, table, m0, rest, pars0, pars.
Qed.

Lemma new_stars_ok (models : models_arg) (self : Stargazer) :
  new models = Ok self → stars_ok self.
Proof.
  intros (validated & ds & names & table & m0 & rest & pars0 & pars & _ & _ & _
          & Hstars & _ & _ & _ & _ & ->)%new_shape.
  exact Hstars.
Qed.

(** X14: what holds of a freshly constructed instance: it counts its models,
    keeps one dict per model with every Series on the model's own index,
    carries the default thresholds with stars computed under them, and
    its table of collapsed index levels has one row per covariate of the
    union index, in its order, and one cell per index level of the first
    model. *)
Theorem constructed_instance (models : models_arg) (self : Stargazer) :
  new models = Ok self →
  attr.num_models self = length (models_of models)
  ∧ length (attr.model_data self) = attr.num_models self
  ∧ md.param_names <$> attr.model_data self = model_keys <$> models_of models
  ∧ Forall aligned (attr.model_data self)
  ∧ attr.sig_levels self = default_sig_levels
  ∧ stars_ok self
  ∧ model_nlevels <$> head (models_of models) = Some (columns (attr.first_table_col self))
  ∧ (loc (attr.first_table_col self)).*1 = attr.param_names self
  ∧ Forall (λ row : Key * list string,
              length row.2 = columns (attr.first_table_col self))
           (loc (attr.first_table_col self)).
Proof.
  intros (validated & ds & names & table & m0 & rest & pars0 & pars & Hms & _ & Hkeys
          & Hstars & Hal & _ & _ & Hbuild & ->)%new_shape.
  apply build_first_table_col_shape in Hbuild as (Hcols & Hindex & Hrows).
  cbn [attr.num_models attr.model_data attr.sig_levels attr.first_table_col
       attr.param_names attr.assign initial].
  change (attr.num_models (initial (models_of models))) with (length (models_of models)).
  change (attr.sig_levels (initial (models_of models))) with default_sig_levels.
  unfold stars_ok.
  cbn [attr.num_models attr.model_data attr.sig_levels attr.first_table_col
       attr.param_names attr.assign].
  change (attr.sig_levels (initial (models_of models))) with default_sig_levels.
  split_and!; try done.
  - apply (f_equal length) in Hkeys. by rewrite !length_fmap in Hkeys.
  - rewrite Hms. cbn. by rewrite Hcols.
  - by rewrite Hcols.
Qed.

Lemma new_options (models : models_arg) (self : Stargazer) :
  new models = Ok self →
  Forall aligned (attr.model_data self)
  ∧ attr.original_param_names self = None
  ∧ attr.column_labels self = None
  ∧ attr.sig_levels self = default_sig_levels.
Proof.
  intros (validated & ds & names & table & m0 & rest & pars0 & pars & _ & _ & _
          & _ & Hal & _ & _ & _ & ->)%new_shape.
  by split_and!.
Qed.

Lemma new_key_renders (models : models_arg) (self : Stargazer) :
  new models = Ok self →
  Forall (λ k, match k with
               | KStr _ => True
               | KTup t => (length t ≤ S (columns (attr.first_table_col self)))%nat
               end) (attr.param_names self) →
  Forall (key_renders (attr.first_table_col self)) (attr.param_names self).
Proof.
  intros (validated & ds & names & table & m0 & rest & pars0 & pars & Hms & _ & Hkeys
          & Hstars & Hal & Hpars & Hsort & Hbuild & ->)%new_shape Hshort.
  cbn [attr.first_table_col attr.param_names attr.assign] in *.
  pose proof (py_sorted_set_same_kind _ _ Hsort) as Hkind.
  apply py_sorted_set_spec in Hsort as (_ & _ & Hin).
  pose proof (build_first_table_col_inv _ _ _ _ Hbuild) as (Hn & Hlevels).
  apply build_first_table_col_shape in Hbuild as (Hcols & Hindex & Hrows).
  apply Forall_forall. intros k Hk. destruct k as [s|t]; [done|].
  rewrite Forall_forall in Hshort. specialize (Hshort _ Hk). cbn in Hshort.
  assert (Forall (λ k, is_tuple k = true) (pars0 :: pars)) as Htup.
  { destruct Hkind as [Hflat|?]; [|done].
    rewrite Forall_forall in Hflat. apply Hin in Hk. by specialize (Hflat _ Hk). }
  assert (Forall (λ k, is_tuple k = true) names) as Hnames.
  { apply Forall_forall. intros k' Hk'%Hin. rewrite Forall_forall in Htup. by apply Htup. }
  specialize (Hlevels (Forall_inv Htup) Hnames).
  rewrite Forall_forall in Hlevels. specialize (Hlevels _ Hk). cbn in Hlevels.
  split; [intros ->; cbn in Hlevels; lia|].
  destruct (series_get_ok (loc table) (KTup t)) as [row Hrow]; [by rewrite Hindex|].
  exists row. split; [done|].
  apply series_get_elem in Hrow. rewrite Forall_forall in Hrows.
  specialize (Hrows _ Hrow). cbn in Hrows. rewrite Hcols in Hshort. lia.
Qed.

(** X15: a freshly constructed instance whose tuple keys have at most one
    component more than the first model has index levels is
    [renderable]: the Series of its dicts are aligned, every covariate of
    the union index has its row in the table of collapsed index levels,
    no order is remembered, no column labels are set and the thresholds
    are the four defaults. *)
Theorem constructed_renderable (models : models_arg) (self : Stargazer) :
  new models = Ok self →
  Forall (λ k, match k with
               | KStr _ => True
               | KTup t => (length t ≤ S (columns (attr.first_table_col self)))%nat
               end) (attr.param_names self) →
  renderable self.
Proof.
  intros Hnew Hshort.
  destruct (new_options _ _ Hnew) as (Haligned & Horig & Hlabels & Hlevels).
  unfold renderable. rewrite Horig, Hlabels, Hlevels.
  split_and!; [exact Haligned| |done..].
  by apply (new_key_renders models).
Qed.
End constructed.

Lemma constructed_instance_witness :
  @new example_runtime example_models = Ok (example_instance example_models)
  ∧ attr.num_models (example_instance example_models) = length (models_of example_models)
  ∧ length (attr.model_data (example_instance example_models))
    = attr.num_models (example_instance example_models)
  ∧ md.param_names <$> attr.model_data (example_instance example_models)
    = model_keys <$> models_of example_models
  ∧ Forall aligned (attr.model_data (example_instance example_models))
  ∧ attr.sig_levels (example_instance example_models) = default_sig_levels
  ∧ stars_ok (example_instance example_models)
  ∧ model_nlevels <$> head (models_of example_models)
    = Some (columns (attr.first_table_col (example_instance example_models)))
  ∧ (loc (attr.first_table_col (example_instance example_models))).*1
    = attr.param_names (example_instance example_models)
  ∧ Forall (λ row : Key * list string,
              length row.2 = columns (attr.first_table_col (example_instance example_models)))
           (loc (attr.first_table_col (example_instance example_models))).
Proof.
  split; [vm_compute; reflexivity|].
  apply (@constructed_instance example_runtime). vm_compute. reflexivity.
Defined.

Lemma example_instance_new :
  @new example_runtime example_models = Ok (example_instance example_models).
Proof. vm_compute. reflexivity. Qed.

Lemma example_instance_flat :
  Forall (λ k, match k with
               | KStr _ => True
               | KTup t =>
                   (length t
                    ≤ S (columns (attr.first_table_col (example_instance example_models))))%nat
               end) (attr.param_names (example_instance example_models)).
Proof.
  change (attr.param_names (example_instance example_models)) with [KStr "x"; KStr "z"].
  by repeat constructor.
Qed.

Lemma constructed_renderable_witness :
  @new example_runtime example_models = Ok (example_instance example_models)
  ∧ Forall (λ k, match k with
                 | KStr _ => True
                 | KTup t =>
                     (length t
                      ≤ S (columns (attr.first_table_col (example_instance example_models))))%nat
                 end) (attr.param_names (example_instance example_models))
  ∧ renderable (example_instance example_models).
Proof.
  split; [exact example_instance_new|]. split; [exact example_instance_flat|].
  exact (@constructed_renderable example_runtime example_models _
           example_instance_new example_instance_flat).
Defined.

Lemma example_instance_renderable : renderable (example_instance example_models).
Proof.
  destruct (@new_options example_runtime _ _ example_instance_new)
    as (Haligned & Horig & Hlabels & Hlevels).
  unfold renderable. rewrite Horig, Hlabels, Hlevels.
  split_and!; [exact Haligned| |done..].
  exact (@new_key_renders example_runtime _ _ example_instance_new example_instance_flat).
Qed.


(** ** What the setters keep *)



(** An option setter that returns has touched neither the models' dicts,
    nor the thresholds, nor the table of collapsed index levels. *)
Lemma option_setter_frame (m : method unit) (self self' : Stargazer) :
  option_setter m → m self = (Ok (), self') →
  attr.model_data self' = attr.model_data self
  ∧ attr.sig_levels self' = attr.sig_levels self
  ∧ attr.first_table_col self' = attr.first_table_col self
  ∧ attr.models self' = attr.models self
  ∧ attr.num_models self' = attr.num_models self.
Proof.
  intros Hm Hrun. destruct Hm;
    unfold title, show_header, show_model_numbers, custom_columns, significant_digits,
      show_confidence_intervals, model_name, covariate_order, rename_covariates,
      reset_covariate_order, show_degrees_of_freedom, custom_note_label,
      add_custom_notes, append_notes in Hrun;
    step_method; repeat case_match; simplify_eq; first [done|by destruct self].
Qed.

Lemma restarred_aligned (T : list Qc) (data data' : md.t) :
  restarred T data data' → aligned data → aligned data'.
Proof.
  intros [[Hicons _] Hdata'] (H1 & H2 & H3 & H4 & H5 & H6).
  apply compute_sig_icons_index in Hicons.
  rewrite Hdata' in Hicons |- *. unfold aligned. cbn in *.
  split_and!; try done. congruence.
Qed.

Lemma significance_levels_run (levels : list pyval) (self self' : Stargazer) :
  significance_levels levels self = (Ok (), self') →
  count_failing type_is_float levels = 0
  ∧ ∃ data',
      Forall2 (restarred (py_sorted_floats_rev (floats_of levels)))
              (attr.model_data self) data'
      ∧ self' = attr.assign (attr.F_model_data data')
                  (attr.assign
                     (attr.F_sig_levels (py_sorted_floats_rev (floats_of levels))) self).
Proof.
  unfold significance_levels. step_method.
  case_bool_decide; [|done]. cbn.
  intros Hrun. apply (restar_loop []) in Hrun as (l' & Hl' & ->); [|done].
  split; [done|]. by exists l'.
Qed.

(** X16: a setter that returns leaves the stars of every model in agreement
    with the thresholds of the instance: the option setters touch neither,
    and [significance_levels] replaces both together. *)
Theorem setters_keep_stars (m : method unit) (self self' : Stargazer) :
  option_setter m ∨ (∃ levels, m = significance_levels levels) →
  stars_ok self →
  m self = (Ok (), self') →
  stars_ok self'.
Proof.
  intros [Hm|[levels ->]] Hstars Hrun.
  - destruct (option_setter_frame _ _ _ Hm Hrun) as (Hd & Hl & _).
    unfold stars_ok. by rewrite Hd, Hl.
  - apply significance_levels_run in Hrun as (_ & data' & Hdata' & ->).
    unfold stars_ok. cbn [attr.model_data attr.sig_levels attr.assign].
    clear Hstars. induction Hdata' as [|d d' l l' [Hd _] _ IH]; by constructor.
Qed.


(** ** Replacing the thresholds *)

Lemma valid_thresholds_perm (T T' : list Qc) :
  T ≡ₚ T' → valid_thresholds T → valid_thresholds T'.
Proof. intros HP [Hnd Hall]. split; by rewrite <- HP. Qed.

Lemma py_sorted_floats_rev_perm (l : list Qc) : py_sorted_floats_rev l ≡ₚ l.
Proof. apply merge_sort_Permutation. Qed.

Lemma compute_sig_icon_fstat_returns (T : list Qc) (x : float) :
  valid_thresholds T → ∃ s, compute_sig_icon_fstat T x = Ok s.
Proof.
  intros HT. destruct x as [p|].
  - unfold compute_sig_icon_fstat. rewrite (np_digitize_bins _ HT). by eexists.
  - eexists. by apply compute_sig_icon_fstat_nan.
Qed.

Lemma restar_loop_ok (i : nat) (l : list md.t) (s : Stargazer) :
  valid_thresholds (attr.sig_levels s) →
  ∃ s', for_enumerate restar_at i l s = (Ok (), s').
Proof.
  revert i s. induction l as [|d l IH]; intros i s HT.
  - eexists. apply for_enumerate_nil.
  - rewrite for_enumerate_cons, restar_at_run, (compute_sig_icons_ok _ HT).
    destruct (compute_sig_icon_fstat_returns _ (md.f_p_value d) HT) as [fstat ->].
    apply IH. by destruct s.
Qed.

Lemma restar_loop_raise (i : nat) (d : md.t) (l : list md.t) (s : Stargazer) :
  ¬ valid_thresholds (attr.sig_levels s) →
  ∃ msg, for_enumerate restar_at i (d :: l) s = (Raise (ValueError msg), s).
Proof.
  intros HT. rewrite for_enumerate_cons, restar_at_run.
  destruct (compute_sig_icons_invalid _ (md.p_values d) HT) as [msg ->]. by eexists.
Qed.

(** X18: [significance_levels] returns exactly when every level is a float
    and either the levels are pairwise different and strictly between -1
    and 2, or the instance holds no model. *)
Theorem significance_levels_returns_iff (levels : list pyval) (self : Stargazer) :
  (∃ self', significance_levels levels self = (Ok (), self'))
  ↔ count_failing type_is_float levels = 0
    ∧ (valid_thresholds (floats_of levels) ∨ attr.model_data self = []).
Proof.
  unfold significance_levels. step_method. split.
  - intros [self' Hrun]. case_bool_decide as Hfloats; [|done]. split; [done|].
    cbn in Hrun.
    destruct (decide (valid_thresholds (floats_of levels))) as [|Hinvalid]; [by left|right].
    destruct (attr.model_data self) as [|d l] eqn:Hdata; [done|]. exfalso.
    destruct (restar_loop_raise O d l
                (attr.assign (attr.F_sig_levels (py_sorted_floats_rev (floats_of levels))) self))
      as [msg Hmsg].
    { cbn [attr.sig_levels attr.assign]. intros HT. apply Hinvalid.
      by eapply valid_thresholds_perm; [apply py_sorted_floats_rev_perm|]. }
    rewrite Hmsg in Hrun. done.
  - intros [Hfloats [HT|Hnil]]; rewrite bool_decide_eq_true_2 by done; cbn.
    + apply restar_loop_ok. cbn [attr.sig_levels attr.assign].
      eapply valid_thresholds_perm; [|exact HT]. symmetry. apply py_sorted_floats_rev_perm.
    + rewrite Hnil. by eexists.
Qed.

(** X19: handed floats that are not pairwise different or not strictly
    between -1 and 2, on an instance that holds a model,
    [significance_levels] raises a [ValueError] only after it has replaced
    the thresholds: the instance it leaves carries the new thresholds and
    the dicts, with their stars, of before the call. *)
Theorem significance_levels_half_done (levels : list pyval) (self : Stargazer) :
  count_failing type_is_float levels = 0 →
  ¬ valid_thresholds (floats_of levels) →
  attr.model_data self ≠ [] →
  ∃ msg self',
    significance_levels levels self = (Raise (ValueError msg), self')
    ∧ attr.sig_levels self' = py_sorted_floats_rev (floats_of levels)
    ∧ attr.model_data self' = attr.model_data self
    ∧ self' = attr.assign (attr.F_sig_levels (py_sorted_floats_rev (floats_of levels))) self.
Proof.
  intros Hfloats Hinvalid Hdata. unfold significance_levels. step_method.
  rewrite bool_decide_eq_true_2 by done. cbn.
  destruct (attr.model_data self) as [|d l] eqn:Hmd; [done|].
  destruct (restar_loop_raise O d l
              (attr.assign (attr.F_sig_levels (py_sorted_floats_rev (floats_of levels))) self))
    as [msg Hmsg].
  { cbn [attr.sig_levels attr.assign]. intros HT. apply Hinvalid.
    by eapply valid_thresholds_perm; [apply py_sorted_floats_rev_perm|]. }
  exists msg. eexists. split; [exact Hmsg|]. by split_and!.
Qed.

Lemma significance_levels_half_done_witness :
  count_failing type_is_float [PFloat (dec 5 100); PFloat (dec 5 100)] = 0
  ∧ ¬ valid_thresholds (floats_of [PFloat (dec 5 100); PFloat (dec 5 100)])
  ∧ attr.model_data (example_instance example_models) ≠ []
  ∧ ∃ msg self',
      significance_levels [PFloat (dec 5 100); PFloat (dec 5 100)]
        (example_instance example_models)
      = (Raise (ValueError msg), self')
      ∧ attr.sig_levels self'
        = py_sorted_floats_rev (floats_of [PFloat (dec 5 100); PFloat (dec 5 100)])
      ∧ attr.model_data self' = attr.model_data (example_instance example_models)
      ∧ self' = attr.assign
                  (attr.F_sig_levels
                     (py_sorted_floats_rev (floats_of [PFloat (dec 5 100); PFloat (dec 5 100)])))
                  (example_instance example_models).
Proof.
  assert (¬ valid_thresholds (floats_of [PFloat (dec 5 100); PFloat (dec 5 100)])) as Hinvalid.
  { intros [Hnd _]. cbn in Hnd. apply NoDup_cons in Hnd as [Hnd _]. apply Hnd. left. }
  assert (attr.model_data (example_instance example_models) ≠ []) as Hdata.
  { vm_compute. discriminate. }
  split; [reflexivity|]. split; [exact Hinvalid|]. split; [exact Hdata|].
  apply significance_levels_half_done; [reflexivity|exact Hinvalid|exact Hdata].
Defined.

Section empty_levels.
Context `{PyRuntime}.

(** X20: [significance_levels] accepts the empty list, and the instance it
    leaves can no longer be rendered while the footer, the notes and the
    legend of the stars are shown (the defaults): both renderers raise the
    [IndexError] of [sig_levels[-1]]. *)
Theorem empty_levels_break_rendering (self : Stargazer) :
  renderable self →
  attr.show_footer self = true → attr.show_notes self = true →
  attr.notes_append self = true →
  ∃ self',
    significance_levels [] self = (Ok (), self')
    ∧ render_html self' = Raise (IndexError "list index out of range")
    ∧ ∀ only_tabular,
        render_latex self' only_tabular = Raise (IndexError "list index out of range").
Proof.
  intros (Hdata & Hnames & _ & Hlabels & _) Hfooter Hnotes Happend.
  destruct (restar_loop_ok O (attr.model_data self)
              (attr.assign (attr.F_sig_levels (py_sorted_floats_rev (floats_of []))) self))
    as [self' Hrun].
  { split; [constructor|constructor]. }
  assert (significance_levels [] self = (Ok (), self')) as Hcall.
  { unfold significance_levels. step_method. exact Hrun. }
  exists self'. split; [done|].
  apply significance_levels_run in Hcall as (_ & data' & Hdata' & ->).
  set (self' := attr.assign _ _).
  assert (Forall aligned (attr.model_data self')) as Haligned.
  { subst self'. cbn [attr.model_data attr.assign]. clear -Hdata Hdata'.
    induction Hdata' as [|d d' l l' Hd _ IH]; [constructor|].
    apply Forall_cons in Hdata as [Hal Hdata].
    constructor; [by eapply restarred_aligned|by apply IH]. }
  assert (generate_footer_html self' = Raise (IndexError "list index out of range")
          ∧ ∀ only_tabular, generate_footer_latex self' only_tabular
                            = Raise (IndexError "list index out of range")) as [Hf Hfl].
  { unfold generate_footer_html, generate_footer_latex, generate_notes_html,
      generate_notes_latex, generate_p_value_section_html, generate_p_value_section_latex.
    subst self'. cbn [attr.show_footer attr.show_notes attr.notes_append attr.sig_levels
                      attr.assign].
    rewrite Hfooter, Hnotes, Happend. split; [reflexivity|]. intros only_tabular. reflexivity. }
  split.
  - unfold render_html.
    destruct (header_html_ok self' Hlabels) as [header ->].
    destruct (body_html_ok self' Haligned Hnames) as [body ->].
    cbn. by rewrite Hf.
  - intros only_tabular. unfold render_latex.
    destruct (header_latex_ok self' only_tabular Hlabels) as [header ->].
    destruct (body_latex_ok self' Haligned Hnames) as [body ->].
    cbn. by rewrite Hfl.
Qed.
End empty_levels.

Lemma empty_levels_break_rendering_witness :
  renderable (example_instance example_models)
  ∧ attr.show_footer (example_instance example_models) = true
  ∧ attr.show_notes (example_instance example_models) = true
  ∧ attr.notes_append (example_instance example_models) = true
  ∧ ∃ self',
      significance_levels [] (example_instance example_models) = (Ok (), self')
      ∧ @render_html example_runtime self' = Raise (IndexError "list index out of range")
      ∧ ∀ only_tabular,
          @render_latex example_runtime self' only_tabular
          = Raise (IndexError "list index out of range").
Proof.
  split; [exact example_instance_renderable|].
  split; [vm_compute; reflexivity|]. split; [vm_compute; reflexivity|].
  split; [vm_compute; reflexivity|].
  apply (@empty_levels_break_rendering example_runtime);
    [exact example_instance_renderable|vm_compute; reflexivity..].
Defined.

Lemma example_instance_stars_ok : stars_ok (example_instance example_models).
Proof. exact (@new_stars_ok example_runtime _ _ example_instance_new). Qed.

Lemma setters_keep_stars_witness :
  (option_setter (significance_levels example_levels)
   ∨ ∃ levels, significance_levels example_levels = significance_levels levels)
  ∧ stars_ok (example_instance example_models)
  ∧ significance_levels example_levels (example_instance example_models)
    = (Ok (), (significance_levels example_levels (example_instance example_models)).2)
  ∧ stars_ok (significance_levels example_levels (example_instance example_models)).2.
Proof.
  assert (option_setter (significance_levels example_levels)
          ∨ ∃ levels, significance_levels example_levels = significance_levels levels) as Hm.
  { right. by exists example_levels. }
  assert (significance_levels example_levels (example_instance example_models)
          = (Ok (), (significance_levels example_levels (example_instance example_models)).2))
    as Hrun.
  { vm_compute. reflexivity. }
  split; [exact Hm|]. split; [exact example_instance_stars_ok|]. split; [exact Hrun|].
  exact (setters_keep_stars _ _ _ Hm example_instance_stars_ok Hrun).
Defined.


(** ** Setters that refuse *)

(** X21: an option setter that raises raises an [AssertionError] and leaves
    the instance as it was: these setters check before they assign. *)
Theorem option_setter_atomic (m : method unit) (self self' : Stargazer) (e : exn) :
  option_setter m →
  m self = (Raise e, self') →
  self' = self ∧ ∃ msg, e = AssertionError msg.
Proof.
  intros Hm Hrun. destruct Hm;
    unfold title, show_header, show_model_numbers, custom_columns, significant_digits,
      show_confidence_intervals, model_name, covariate_order, rename_covariates,
      reset_covariate_order, show_degrees_of_freedom, custom_note_label,
      add_custom_notes, append_notes in Hrun;
    step_method; repeat case_match; simplify_eq; by eauto.
Qed.

Lemma option_setter_atomic_witness :
  option_setter (significant_digits (PInt 12))
  ∧ significant_digits (PInt 12) (example_instance example_models)
    = (Raise (AssertionError "Whoa hold on there bud, maybe use fewer digits"),
       example_instance example_models)
  ∧ example_instance example_models = example_instance example_models
  ∧ ∃ msg, AssertionError "Whoa hold on there bud, maybe use fewer digits"
           = AssertionError msg.
Proof.
  assert (significant_digits (PInt 12) (example_instance example_models)
          = (Raise (AssertionError "Whoa hold on there bud, maybe use fewer digits"),
             example_instance example_models)) as Hrun.
  { reflexivity. }
  split; [constructor|]. split; [exact Hrun|].
  exact (option_setter_atomic _ _ _ _ (set_significant_digits (PInt 12)) Hrun).
Defined.

(** ** How the setters compose *)

(** X22: [covariate_order] remembers the order in effect when it is called,
    not the order of the construction: after two calls,
    [reset_covariate_order] brings back the order asked for by the first
    call. *)
Theorem covariate_order_twice_then_reset (first second : list Key) (self : Stargazer) :
  (list_to_set first : gset Key) ⊆ list_to_set (attr.param_names self) →
  (list_to_set second : gset Key) ⊆ list_to_set first →
  ∃ self',
    (covariate_order first ;; covariate_order second ;; reset_covariate_order) self
    = (Ok (), self')
    ∧ attr.param_names self' = first
    ∧ attr.original_param_names self' = Some first.
Proof.
  intros Hfirst Hsecond. unfold covariate_order, reset_covariate_order. step_method.
  rewrite bool_decide_eq_true_2 by set_solver. cbn.
  rewrite bool_decide_eq_true_2 by set_solver. cbn.
  eexists. split; [reflexivity|]. by split.
Qed.

Lemma covariate_order_twice_then_reset_witness :
  (list_to_set [KStr "z"; KStr "x"] : gset Key)
    ⊆ list_to_set (attr.param_names (example_instance example_models))
  ∧ (list_to_set [KStr "z"] : gset Key) ⊆ list_to_set [KStr "z"; KStr "x"]
  ∧ ∃ self',
      (covariate_order [KStr "z"; KStr "x"] ;; covariate_order [KStr "z"] ;;
       reset_covariate_order) (example_instance example_models)
      = (Ok (), self')
      ∧ attr.param_names self' = [KStr "z"; KStr "x"]
      ∧ attr.original_param_names self' = Some [KStr "z"; KStr "x"].
Proof.
  assert ((list_to_set [KStr "z"; KStr "x"] : gset Key)
            ⊆ list_to_set (attr.param_names (example_instance example_models))) as Hfirst.
  { change (attr.param_names (example_instance example_models)) with [KStr "x"; KStr "z"].
    intros k. rewrite !elem_of_list_to_set, !elem_of_cons. tauto. }
  assert ((list_to_set [KStr "z"] : gset Key) ⊆ list_to_set [KStr "z"; KStr "x"]) as Hsecond.
  { intros k. rewrite !elem_of_list_to_set, !elem_of_cons. tauto. }
  split; [exact Hfirst|]. split; [exact Hsecond|].
  exact (covariate_order_twice_then_reset _ _ _ Hfirst Hsecond).
Defined.

(** X23: [reset_params] forgets the remembered order without restoring it:
    once it has run after [covariate_order], [reset_covariate_order] no
    longer brings the rows back, they stay in the order asked for. *)
Theorem reset_params_keeps_covariate_order (names : list Key) (self : Stargazer) :
  (list_to_set names : gset Key) ⊆ list_to_set (attr.param_names self) →
  ∃ self',
    (covariate_order names ;; reset_params ;; reset_covariate_order) self = (Ok (), self')
    ∧ attr.param_names self' = names
    ∧ attr.original_param_names self' = None.
Proof.
  intros Hsub. unfold covariate_order, reset_covariate_order, reset_params. step_method.
  rewrite bool_decide_eq_true_2 by set_solver. cbn.
  eexists. split; [reflexivity|]. by split.
Qed.

Lemma reset_params_keeps_covariate_order_witness :
  (list_to_set [KStr "z"] : gset Key)
    ⊆ list_to_set (attr.param_names (example_instance example_models))
  ∧ ∃ self',
      (covariate_order [KStr "z"] ;; reset_params ;; reset_covariate_order)
        (example_instance example_models)
      = (Ok (), self')
      ∧ attr.param_names self' = [KStr "z"]
      ∧ attr.original_param_names self' = None.
Proof.
  assert ((list_to_set [KStr "z"] : gset Key)
            ⊆ list_to_set (attr.param_names (example_instance example_models))) as Hsub.
  { change (attr.param_names (example_instance example_models)) with [KStr "x"; KStr "z"].
    set_solver. }
  split; [exact Hsub|].
  exact (reset_params_keeps_covariate_order _ _ Hsub).
Defined.

(** X24: [reset_params] brings the thresholds back to the defaults but
    leaves the dicts alone: after [significance_levels] and then
    [reset_params] the stars of every model are still those of the levels
    that were handed in, under the default thresholds of the instance. *)
Theorem reset_params_keeps_stars (levels : list pyval) (self self1 : Stargazer) :
  significance_levels levels self = (Ok (), self1) →
  ∃ self2,
    reset_params self1 = (Ok (), self2)
    ∧ attr.sig_levels self2 = default_sig_levels
    ∧ attr.model_data self2 = attr.model_data self1
    ∧ Forall (stars_consistent (py_sorted_floats_rev (floats_of levels)))
             (attr.model_data self2).
Proof.
  intros (_ & data' & Hdata' & ->)%significance_levels_run.
  eexists. split; [reflexivity|]. split; [reflexivity|]. split; [reflexivity|].
  cbn [attr.model_data attr.assign].
  induction Hdata' as [|d d' l l' [Hd _] _ IH]; by constructor.
Qed.

Lemma reset_params_keeps_stars_witness :
  significance_levels example_levels (example_instance example_models)
  = (Ok (), (significance_levels example_levels (example_instance example_models)).2)
  ∧ ∃ self2,
      reset_params (significance_levels example_levels (example_instance example_models)).2
      = (Ok (), self2)
      ∧ attr.sig_levels self2 = default_sig_levels
      ∧ attr.model_data self2
        = attr.model_data
            (significance_levels example_levels (example_instance example_models)).2
      ∧ Forall (stars_consistent (py_sorted_floats_rev (floats_of example_levels)))
               (attr.model_data self2).
Proof.
  assert (significance_levels example_levels (example_instance example_models)
          = (Ok (), (significance_levels example_levels (example_instance example_models)).2))
    as Hrun.
  { vm_compute. reflexivity. }
  split; [exact Hrun|].
  exact (reset_params_keeps_stars _ _ _ Hrun).
Defined.

(** ** What the dicts hold *)

Section model_dicts.
Context `{PyRuntime}.

Lemma extract_model_data_content (m : Model) (s s' : Stargazer) (data : md.t) :
  extract_model_data m s = (Ok data, s') →
  ∃ params info, m = NamedTup params info
                 ∧ without_stars data = model_data_of params info.
Proof.
  destruct m as [params info| | |]; cbn; try done. step_method.
  destruct (compute_sig_icons _ _) as [icons|]; [|done].
  cbn [md.set_sig_icons md.f_p_value].
  destruct (compute_sig_icon_fstat _ _) as [fstat|]; [|done].
  intros [= <- <-]. by exists params, info.
Qed.

Lemma extract_loop_content (i : nat) (l : list Model) (s s' : Stargazer) :
  for_enumerate (λ _, append_model_data) i l s = (Ok (), s') →
  ∃ ds,
    Forall2 (λ m data, ∃ params info, m = NamedTup params info
                         ∧ without_stars data = model_data_of params info) l ds
    ∧ attr.model_data s' = attr.model_data s ++ ds.
Proof.
  revert i s. induction l as [|m l IH]; intros i s Hrun.
  - rewrite for_enumerate_nil in Hrun. injection Hrun as <-.
    exists []. split; [constructor|]. by rewrite app_nil_r.
  - rewrite for_enumerate_cons, append_model_data_run in Hrun.
    destruct (extract_model_data m s) as [[data|e] s1] eqn:Hm; [|done].
    pose proof (extract_model_data_content _ _ _ _ Hm) as Hcontent.
    apply extract_model_data_inv in Hm as (-> & _ & _).
    apply IH in Hrun as (ds & Hds & ->).
    exists (data :: ds). split; [by constructor|].
    cbn [attr.model_data attr.assign]. by rewrite <- app_assoc.
Qed.

Lemma extract_data_content (s s' : Stargazer) :
  extract_data s = (Ok (), s') →
  ∃ validated,
    for_each validate_model (attr.models s) = Ok validated
    ∧ Forall2 (λ m data, ∃ params info, m = NamedTup params info
                           ∧ without_stars data = model_data_of params info)
              validated (attr.model_data s').
Proof.
  unfold extract_data. step_method.
  destruct (validate_input s) as [[[]|e] s1] eqn:Hv; [|done].
  apply validate_input_ok in Hv as (models & Hmodels & ->).
  destruct (for_enumerate _ _ _ _) as [[[]|e] s2] eqn:Hloop; [|done].
  apply extract_loop_content in Hloop as (ds & Hds & Hs2).
  cbn [attr.models attr.model_data attr.assign app] in Hs2.
  destruct (py_sorted_set _) as [names|e] eqn:Hsort; [|done].
  intros Hrun. exists models. split; [done|].
  assert (attr.model_data s' = ds) as ->; [|done].
  rewrite <- Hs2. clear -Hrun.
  repeat case_match; simplify_eq; by destruct s2.
Qed.

(** The dict of the [i]-th model after a successful construction. *)
Lemma new_model_data (models : models_arg) (self : Stargazer) (i : nat) (m : Model) :
  new models = Ok self →
  models_of models !! i = Some m →
  ∃ params info data,
    validate_model m = Ok (NamedTup params info)
    ∧ attr.model_data self !! i = Some data
    ∧ without_stars data = model_data_of params info
    ∧ stars_consistent default_sig_levels data.
Proof.
  intros Hnew Hm.
  pose proof (new_stars_ok _ _ Hnew) as Hstars.
  pose proof (new_shape _ _ Hnew)
    as (validated0 & ds0 & names & table & m0 & rest & pars0 & pars
        & _ & _ & _ & _ & _ & _ & _ & _ & Hself).
  assert (attr.sig_levels self = default_sig_levels) as Hlevels by by rewrite Hself.
  clear Hself.
  unfold stars_ok in Hstars. rewrite Hlevels in Hstars.
  rewrite new_run in Hnew.
  destruct (extract_data _) as [[[]|e] s] eqn:Hrun; [|done]. injection Hnew as ->.
  apply extract_data_content in Hrun as (validated & Hv%for_each_Forall2 & Hdata).
  change (attr.models (initial (models_of models))) with (models_of models) in Hv.
  destruct (Forall2_lookup_l _ _ _ _ _ Hv Hm) as (tup & Htup & Hvalid).
  destruct (Forall2_lookup_l _ _ _ _ _ Hdata Htup) as (data & Hi & params & info & -> & Hc).
  exists params, info, data. split_and!; try done.
  rewrite Forall_forall in Hstars. apply Hstars. by eapply list_elem_of_lookup_2.
Qed.

(** X25: the dict of a statsmodels results object handed to the constructor
    holds the object's own statistics: R2, adjusted R2, the square root of
    the scale, the F statistic and its p-value, both degrees of freedom,
    the name of the dependent variable, and as number of observations the
    sum of the two degrees of freedom plus one. *)
Theorem statsmodels_model_data (models : models_arg) (self : Stargazer) (i : nat)
    (sm : SmResults) :
  new models = Ok self →
  models_of models !! i = Some (StatsModel sm) →
  ∃ data,
    attr.model_data self !! i = Some data
    ∧ md.param_names data = (sm_table sm).*1
    ∧ md.r2 data = rsquared sm
    ∧ md.r2_adj data = rsquared_adj sm
    ∧ md.resid_std_err data = np_sqrt (scale sm)
    ∧ md.f_statistic data = fvalue sm
    ∧ md.f_p_value data = f_pvalue sm
    ∧ md.degree_freedom data = df_model sm
    ∧ md.degree_freedom_resid data = df_resid sm
    ∧ md.n_obs data
      = float_add (float_add (df_model sm) (df_resid sm)) (Some (dec 1 1))
    ∧ md.dependent_variable data = Some (endog_names sm).
Proof.
  intros Hnew Hm.
  destruct (new_model_data _ _ _ _ Hnew Hm) as (params & info & data & Hv & Hi & Hc & _).
  cbn in Hv. injection Hv as <- <-. exists data. split; [done|].
  assert (∀ {A} (f : md.t → A),
            (∀ d, f (without_stars d) = f d) →
            f data = f (model_data_of (extract_params_from_sm sm) (extract_info_from_sm sm)))
    as Hfield.
  { intros A f Hf. by rewrite <- Hc, Hf. }
  split_and!; (rewrite Hfield by done); reflexivity.
Qed.

(** X26: a statistic that the model's [info] does not hold is NaN on the
    model's dict, a model without ["f_pvalue"] is given no star on its F
    statistic, and the number of observations is the one of [info] when
    [info] holds one. *)
Theorem missing_statistics (models : models_arg) (self : Stargazer) (i : nat) (m : Model)
    (params : Params) (info : Info) :
  new models = Ok self →
  models_of models !! i = Some m →
  validate_model m = Ok (NamedTup params info) →
  ∃ data,
    attr.model_data self !! i = Some data
    ∧ (scalars info !! "rsquared" = None → md.r2 data = nan)
    ∧ (scalars info !! "rsquared_adj" = None → md.r2_adj data = nan)
    ∧ (scalars info !! "scale" = None → md.resid_std_err data = np_sqrt nan)
    ∧ (scalars info !! "fvalue" = None → md.f_statistic data = nan)
    ∧ (scalars info !! "f_pvalue" = None
       → md.f_p_value data = nan ∧ md.sig_icon_fstat data = "")
    ∧ (scalars info !! "df_model" = None → md.degree_freedom data = nan)
    ∧ (scalars info !! "df_resid" = None → md.degree_freedom_resid data = nan)
    ∧ (∀ n, scalars info !! "n_obs" = Some n → md.n_obs data = n)
    ∧ (scalars info !! "n_obs" = None
       → md.n_obs data
         = float_add (float_add (md.degree_freedom data) (md.degree_freedom_resid data))
                     (Some (dec 1 1))).
Proof.
  intros Hnew Hm Hv.
  destruct (new_model_data _ _ _ _ Hnew Hm) as (params' & info' & data & Hv' & Hi & Hc & Hs).
  rewrite Hv in Hv'. injection Hv' as <- <-. exists data. split; [done|].
  assert (∀ {A} (f : md.t → A),
            (∀ d, f (without_stars d) = f d) →
            f data = f (model_data_of params info)) as Hfield.
  { intros A f Hf. by rewrite <- Hc, Hf. }
  split_and!.
  - intros Hk. rewrite Hfield by done. cbn. by rewrite Hk.
  - intros Hk. rewrite Hfield by done. cbn. by rewrite Hk.
  - intros Hk. rewrite Hfield by done. cbn. by rewrite Hk.
  - intros Hk. rewrite Hfield by done. cbn. by rewrite Hk.
  - intros Hk.
    assert (md.f_p_value data = nan) as Hnan.
    { rewrite Hfield by done. cbn. by rewrite Hk. }
    split; [done|]. destruct Hs as [_ Hf]. rewrite Hnan in Hf.
    rewrite (compute_sig_icon_fstat_nan _ default_sig_levels_valid) in Hf. congruence.
  - intros Hk. rewrite Hfield by done. cbn. by rewrite Hk.
  - intros Hk. rewrite Hfield by done. cbn. by rewrite Hk.
  - intros n Hk. rewrite Hfield by done. cbn. by rewrite Hk.
  - intros Hk. rewrite !Hfield by done. cbn. by rewrite Hk.
Qed.
End model_dicts.

Lemma statsmodels_model_data_witness :
  @new example_runtime (OneModel (StatsModel example_sm))
  = Ok (example_instance (OneModel (StatsModel example_sm)))
  ∧ models_of (OneModel (StatsModel example_sm)) !! O = Some (StatsModel example_sm)
  ∧ ∃ data,
      attr.model_data (example_instance (OneModel (StatsModel example_sm))) !! O = Some data
      ∧ md.param_names data = (sm_table example_sm).*1
      ∧ md.r2 data = rsquared example_sm
      ∧ md.r2_adj data = rsquared_adj example_sm
      ∧ md.resid_std_err data = @np_sqrt example_runtime (scale example_sm)
      ∧ md.f_statistic data = fvalue example_sm
      ∧ md.f_p_value data = f_pvalue example_sm
      ∧ md.degree_freedom data = df_model example_sm
      ∧ md.degree_freedom_resid data = df_resid example_sm
      ∧ md.n_obs data
        = @float_add example_runtime
            (@float_add example_runtime (df_model example_sm) (df_resid example_sm))
            (Some (dec 1 1))
      ∧ md.dependent_variable data = Some (endog_names example_sm).
Proof.
  split; [vm_compute; reflexivity|]. split; [reflexivity|].
  apply (@statsmodels_model_data example_runtime (OneModel (StatsModel example_sm)));
    [vm_compute; reflexivity|reflexivity].
Defined.

Lemma missing_statistics_witness :
  @new example_runtime (OneModel example_bare_model)
  = Ok (example_instance (OneModel example_bare_model))
  ∧ models_of (OneModel example_bare_model) !! O = Some example_bare_model
  ∧ validate_model example_bare_model = Ok (NamedTup example_bare_params example_bare_info)
  ∧ ∃ data,
      attr.model_data (example_instance (OneModel example_bare_model)) !! O = Some data
      ∧ (scalars example_bare_info !! "rsquared" = None → md.r2 data = nan)
      ∧ (scalars example_bare_info !! "rsquared_adj" = None → md.r2_adj data = nan)
      ∧ (scalars example_bare_info !! "scale" = None
         → md.resid_std_err data = @np_sqrt example_runtime nan)
      ∧ (scalars example_bare_info !! "fvalue" = None → md.f_statistic data = nan)
      ∧ (scalars example_bare_info !! "f_pvalue" = None
         → md.f_p_value data = nan ∧ md.sig_icon_fstat data = "")
      ∧ (scalars example_bare_info !! "df_model" = None → md.degree_freedom data = nan)
      ∧ (scalars example_bare_info !! "df_resid" = None
         → md.degree_freedom_resid data = nan)
      ∧ (∀ n, scalars example_bare_info !! "n_obs" = Some n → md.n_obs data = n)
      ∧ (scalars example_bare_info !! "n_obs" = None
         → md.n_obs data
           = @float_add example_runtime
               (@float_add example_runtime (md.degree_freedom data)
                  (md.degree_freedom_resid data))
               (Some (dec 1 1))).
Proof.
  assert (@new example_runtime (OneModel example_bare_model)
          = Ok (example_instance (OneModel example_bare_model))) as Hnew.
  { vm_compute. reflexivity. }
  split; [exact Hnew|]. split; [reflexivity|]. split; [reflexivity|].
  exact (@missing_statistics example_runtime (OneModel example_bare_model) _ O
           example_bare_model example_bare_params example_bare_info
           Hnew eq_refl eq_refl).
Defined.

Lemma construction_with_mixed_keys_witness :
  Forall (λ m, ∃ m', validate_model m = Ok m') (models_of (OneModel example_mixed_model))
  ∧ example_mixed_model ∈ models_of (OneModel example_mixed_model)
  ∧ KStr "x" ∈ model_keys example_mixed_model
  ∧ is_tuple (KStr "x") = false
  ∧ KTup ["a"; "b"] ∈ model_keys example_mixed_model
  ∧ is_tuple (KTup ["a"; "b"]) = true
  ∧ @new example_runtime (OneModel example_mixed_model)
    = Raise (TypeError "'<' not supported between instances of 'str' and 'tuple'").
Proof.
  assert (Forall (λ m, ∃ m', validate_model m = Ok m')
            (models_of (OneModel example_mixed_model))) as Hvalid.
  { constructor; [by eexists|constructor]. }
  assert (example_mixed_model ∈ models_of (OneModel example_mixed_model)) as Hm.
  { left. }
  assert (KStr "x" ∈ model_keys example_mixed_model) as Ha.
  { left. }
  assert (KTup ["a"; "b"] ∈ model_keys example_mixed_model) as Hb.
  { right. left. }
  split; [exact Hvalid|]. split; [exact Hm|]. split; [exact Ha|]. split; [reflexivity|].
  split; [exact Hb|]. split; [reflexivity|].
  exact (@construction_with_mixed_keys example_runtime _ _ _ _ _
           Hvalid Hm Ha eq_refl Hm Hb eq_refl).
Defined.

(** ** The order of the models *)

Section model_order.
Context `{PyRuntime}.

Lemma new_param_names (models : models_arg) (self : Stargazer) :
  new models = Ok self →
  StronglySorted key_lt (attr.param_names self)
  ∧ NoDup (attr.param_names self)
  ∧ ∀ k, k ∈ attr.param_names self ↔ k ∈ mjoin (model_keys <$> models_of models).
Proof.
  intros (validated & ds & names & table & m0 & rest & pars0 & pars & _ & _ & _ & _ & _
          & Hpars & Hsort & _ & ->)%new_shape.
  cbn [attr.param_names attr.assign]. rewrite Hpars.
  by apply py_sorted_set_spec.
Qed.

(** X27: the rows of the table do not depend on the order in which the
    models are handed to the constructor: two successful constructions
    from the same models in different orders have the same union covariate
    index. *)
Theorem covariate_index_ignores_model_order (models models' : models_arg)
    (self self' : Stargazer) :
  models_of models ≡ₚ models_of models' →
  new models = Ok self →
  new models' = Ok self' →
  attr.param_names self = attr.param_names self'.
Proof.
  intros Hperm (Hs & Hnd & Hin)%new_param_names (Hs' & Hnd' & Hin')%new_param_names.
  apply (StronglySorted_unique_strong key_lt); [|done..|].
  - intros x y _ _ [Hxy _] [Hyx _]. by apply (anti_symm key_le).
  - apply NoDup_Permutation; [done..|]. intros k. rewrite Hin, Hin'.
    rewrite !list_elem_of_join. split; intros (keys & Hk & Hkeys); exists keys; split; try done.
    + by rewrite <- Hperm.
    + by rewrite Hperm.
Qed.
End model_order.

Lemma covariate_index_ignores_model_order_witness :
  models_of example_models ≡ₚ models_of example_models_swapped
  ∧ @new example_runtime example_models = Ok (example_instance example_models)
  ∧ @new example_runtime example_models_swapped
    = Ok (example_instance example_models_swapped)
  ∧ attr.param_names (example_instance example_models)
    = attr.param_names (example_instance example_models_swapped).
Proof.
  assert (models_of example_models ≡ₚ models_of example_models_swapped) as Hperm.
  { apply perm_swap. }
  assert (@new example_runtime example_models_swapped
          = Ok (example_instance example_models_swapped)) as Hnew.
  { vm_compute. reflexivity. }
  split; [exact Hperm|]. split; [exact example_instance_new|]. split; [exact Hnew|].
  exact (@covariate_index_ignores_model_order example_runtime _ _ _ _
           Hperm example_instance_new Hnew).
Defined.

Lemma covariate_order_rejects_witness :
  KStr "w" ∈ [KStr "w"]
  ∧ (KStr "w" ∉ attr.param_names (example_instance example_models))
  ∧ ∃ msg,
      covariate_order [KStr "w"] (example_instance example_models)
      = (Raise (AssertionError msg), example_instance example_models).
Proof.
  assert (KStr "w" ∈ [KStr "w"]) as Hin by left.
  assert (KStr "w" ∉ attr.param_names (example_instance example_models)) as Hnin.
  { change (attr.param_names (example_instance example_models)) with [KStr "x"; KStr "z"].
    apply (bool_decide_unpack _). vm_compute. exact I. }
  split; [exact Hin|]. split; [exact Hnin|].
  exact (covariate_order_rejects _ _ _ Hin Hnin).
Defined.
